(** * QuantumForge vNext: the agent control plane

    A shallow embedding of the parts of [src/core] that carry the
    invariants of the pipeline:

    - [base_agent.py]: the response parser [_parse_json_with_retry] and
      the retry wrapper [_call_with_retry];
    - [discovery_agent.py], [param_processor_agent.py]: the stage entry
      points [process] / [process_async], the relevance filter and the
      schema compressors;
    - [codegen_agent.py]: [_analyze_component_dependencies];
    - [agent_memory.py]: the recording operations of [AgentMemory];
    - [quantum_orchestrator.py]: [generate_quantum_code_parallel].

    Conventions.  A Python [str] is a Rocq [string] holding its UTF-8
    encoding; the operations the code uses ([startswith], [replace],
    [split], [count], [in], [join]) act on the encoding as they act on
    the text, and [strip] is written over the encoded whitespace code
    points.  The library functions [json.loads], [json.dumps] and
    [str.lower], and the chat-completion service, are the fields of a
    record [External] that the definitions take as a parameter; a
    decoder written after Python's backs the concrete examples.  The
    dictionaries the agents exchange are records of the keys the code
    reads, typed as the data model types them, and decoded replies are
    values of type [json].  Console output ([print]) is not modelled. *)

From Stdlib Require Import String Ascii List ZArith NArith Lia Bool Arith.
From Stdlib Require Import DecimalString.
Import ListNotations.
Open Scope string_scope.
Set Warnings "-register-all".

(* ================================================================== *)
(** ** Python strings *)
(* ================================================================== *)

Module PyStr.

(** The double quote, which string literals of this file avoid. *)
Definition dq : string := String (ascii_of_nat 34) EmptyString.

Definition newline : ascii := ascii_of_nat 10.
Definition nl : string := String newline EmptyString.

Definition bytes (l : list nat) : string :=
  string_of_list_ascii (map ascii_of_nat l).

(** [s.startswith(p)] *)
Fixpoint startswith (s p : string) {struct p} : bool :=
  match p with
  | EmptyString => true
  | String c p' =>
      match s with
      | String d s' => Ascii.eqb c d && startswith s' p'
      | EmptyString => false
      end
  end.
Arguments startswith : simpl never.

Fixpoint drop (n : nat) (s : string) : string :=
  match n, s with
  | O, _ => s
  | S n', String _ s' => drop n' s'
  | S _, EmptyString => EmptyString
  end.

Definition rev (s : string) : string :=
  string_of_list_ascii (List.rev (list_ascii_of_string s)).

(** The code points for which [str.isspace] holds, UTF-8 encoded:
    U+0009..U+000D, U+001C..U+001F, U+0020, U+0085, U+00A0, U+1680,
    U+2000..U+200A, U+2028, U+2029, U+202F, U+205F, U+3000. *)
Definition whitespace : list string :=
  map bytes
    ([[9]; [10]; [11]; [12]; [13]; [28]; [29]; [30]; [31]; [32];
      [194; 133]; [194; 160]; [225; 154; 128]]
     ++ map (fun k => [226; 128; 128 + k]) (seq 0 11)
     ++ [[226; 128; 168]; [226; 128; 169]; [226; 128; 175];
         [226; 129; 159]; [227; 128; 128]]).

(** The first entry of [ws] that [s] starts with, if any. *)
Fixpoint leading (ws : list string) (s : string) : option string :=
  match ws with
  | [] => None
  | w :: ws' => if startswith s w then Some w else leading ws' s
  end.

Fixpoint lstrip_with (ws : list string) (fuel : nat) (s : string) : string :=
  match fuel with
  | O => s
  | S fuel' =>
      match leading ws s with
      | Some w => lstrip_with ws fuel' (drop (String.length w) s)
      | None => s
      end
  end.

Definition lstrip (s : string) : string :=
  lstrip_with whitespace (String.length s) s.

Definition rstrip (s : string) : string :=
  rev (lstrip_with (map rev whitespace) (String.length s) (rev s)).

(** [s.strip()] *)
Definition strip (s : string) : string := rstrip (lstrip s).

(** [s.replace(old, new)] for a non-empty [old]: occurrences are
    replaced from the left and do not overlap.  [skip] counts the
    characters of a matched occurrence still to be passed over. *)
Fixpoint replace_from (skip : nat) (old new s : string) : string :=
  match s with
  | EmptyString => EmptyString
  | String c s' =>
      match skip with
      | S k => replace_from k old new s'
      | O =>
          if startswith s old
          then new ++ replace_from (String.length old - 1) old new s'
          else String c (replace_from 0 old new s')
      end
  end.

Definition replace (s old new : string) : string := replace_from 0 old new s.

(** [s.split(sep)] for a one-character separator: never empty. *)
Fixpoint split (sep : ascii) (s : string) : list string :=
  match s with
  | EmptyString => [EmptyString]
  | String c s' =>
      if Ascii.eqb c sep then EmptyString :: split sep s'
      else match split sep s' with
           | cur :: rest => String c cur :: rest
           | [] => [String c EmptyString]
           end
  end.

(** [sep.join(l)] *)
Definition join (sep : string) (l : list string) : string :=
  String.concat sep l.

(** [s.count(c)] for a one-character [c]. *)
Fixpoint count (c : ascii) (s : string) : Z :=
  match s with
  | EmptyString => 0
  | String d s' => (if Ascii.eqb d c then 1 else 0) + count c s'
  end.

(** [sub in s] *)
Fixpoint contains (sub s : string) : bool :=
  startswith s sub
  || match s with
     | EmptyString => false
     | String _ s' => contains sub s'
     end.

(** [x in l] for a list of strings. *)
Definition mem (x : string) (l : list string) : bool :=
  existsb (String.eqb x) l.

(** The last element of [s.split('.')], i.e. [s.split('.')[-1]]. *)
Definition last_segment (s : string) : string :=
  List.last (split "." s) EmptyString.

(** ASCII lower-casing: what [str.lower] does on ASCII text. *)
Definition ascii_lower_char (c : ascii) : ascii :=
  let n := nat_of_ascii c in
  if (Nat.leb 65 n && Nat.leb n 90)%bool then ascii_of_nat (n + 32) else c.

Fixpoint ascii_lower (s : string) : string :=
  match s with
  | EmptyString => EmptyString
  | String c s' => String (ascii_lower_char c) (ascii_lower s')
  end.

End PyStr.
Import PyStr.

(* ================================================================== *)
(** ** Exceptions and results *)
(* ================================================================== *)

Inductive exn_class :=
| ValueError | RuntimeError | JSONDecodeError | TypeError
| AttributeError | NameError | UnboundLocalError | KeyError.

Definition exn_class_eqb (a b : exn_class) : bool :=
  match a, b with
  | ValueError, ValueError | RuntimeError, RuntimeError
  | JSONDecodeError, JSONDecodeError | TypeError, TypeError
  | AttributeError, AttributeError | NameError, NameError
  | UnboundLocalError, UnboundLocalError | KeyError, KeyError => true
  | _, _ => false
  end.

(** An exception: its class and [str(e)]. *)
Record exn := Exn { exn_cls : exn_class; exn_str : string }.

Inductive result (A : Type) :=
| Ok (a : A)
| Raise (e : exn).
Arguments Ok {A} a.
Arguments Raise {A} e.

Definition is_ok {A} (r : result A) : bool :=
  match r with Ok _ => true | Raise _ => false end.

Definition raises {A} (cls : exn_class) (r : result A) : Prop :=
  exists msg, r = Raise (Exn cls msg).

(** [try: body  except cls as e: handler(e)] on a pure body. *)
Definition try_except {A} (body : result A) (cls : exn_class)
           (handler : exn -> result A) : result A :=
  match body with
  | Ok a => Ok a
  | Raise e => if exn_class_eqb (exn_cls e) cls then handler e else Raise e
  end.

(** [try: body  except cls as e: handler(e)  except Exception as e:
    otherwise(e)]: the first clause that matches handles the exception,
    and what a handler raises leaves the statement. *)
Definition try_except_else {A} (body : result A) (cls : exn_class)
           (handler otherwise : exn -> result A) : result A :=
  match body with
  | Ok a => Ok a
  | Raise e => if exn_class_eqb (exn_cls e) cls then handler e else otherwise e
  end.

(* ================================================================== *)
(** ** Python dictionaries and JSON values *)
(* ================================================================== *)

(** A [dict] with string keys, in insertion order. *)
Definition dict (V : Type) := list (string * V).

Module Dict.
Section Ops.
Context {V : Type}.

(** [d.get(k)] *)
Fixpoint get (k : string) (d : dict V) : option V :=
  match d with
  | [] => None
  | (k', v) :: d' => if String.eqb k k' then Some v else get k d'
  end.

(** [k in d] *)
Definition has (k : string) (d : dict V) : bool :=
  match get k d with Some _ => true | None => false end.

(** [d[k] = v]: an existing key keeps its position. *)
Fixpoint set (k : string) (v : V) (d : dict V) : dict V :=
  match d with
  | [] => [(k, v)]
  | (k', v') :: d' =>
      if String.eqb k k' then (k, v) :: d' else (k', v') :: set k v d'
  end.

Definition keys (d : dict V) : list string := map fst d.

(** [dict(pairs)] *)
Definition of_pairs (l : list (string * V)) : dict V :=
  fold_left (fun d kv => set (fst kv) (snd kv) d) l [].
End Ops.
End Dict.

(** What [json.loads] produces.  A float keeps the text of its literal
    (the code never computes with one). *)
Inductive json :=
| JNull
| JBool (b : bool)
| JInt (z : Z)
| JFloat (literal : string)
| JStr (s : string)
| JArr (items : list json)
| JObj (fields : dict json).

(** A model of [json.loads] on [str]: the grammar of Python's decoder
    (RFC 8259 and the literals NaN, Infinity, -Infinity), strict about
    control characters in strings.  It backs the concrete examples; the
    theorems about the parser hold for any decoder. *)
Module JsonDecoder.

Definition code (c : ascii) : nat := nat_of_ascii c.

Definition is_ws (c : ascii) : bool :=
  existsb (Nat.eqb (code c)) [32; 9; 10; 13]%nat.

Definition is_digit (c : ascii) : bool :=
  (Nat.leb 48 (code c) && Nat.leb (code c) 57)%bool.

Fixpoint skip_ws (s : string) : string :=
  match s with
  | String c s' => if is_ws c then skip_ws s' else s
  | EmptyString => s
  end.

(** The longest run of digits at the head of [s], and what follows. *)
Fixpoint take_digits (s : string) : string * string :=
  match s with
  | String c s' =>
      if is_digit c
      then let (ds, rest) := take_digits s' in (String c ds, rest)
      else (EmptyString, s)
  | EmptyString => (EmptyString, s)
  end.

Fixpoint digits_value (acc : Z) (ds : string) : Z :=
  match ds with
  | String c ds' => digits_value (10 * acc + Z.of_nat (code c - 48)) ds'
  | EmptyString => acc
  end.

(** A number token: an optional minus, then 0 or a digit run not
    starting with 0, then an optional fraction (a dot and digits) and
    an optional exponent; a dot or an e without digits is not part of
    the token. *)
Definition scan_number (s : string) : option (json * string) :=
  let (sign, s1) :=
    match s with
    | String "-" s' => ("-", s')
    | _ => ("", s)
    end in
  let int_part :=
    match s1 with
    | String "0" s2 => Some ("0", s2)
    | String c s2 =>
        if is_digit c
        then let (ds, rest) := take_digits s2 in Some (String c ds, rest)
        else None
    | EmptyString => None
    end in
  match int_part with
  | None => None
  | Some (digits, s2) =>
      let (frac, s3) :=
        match s2 with
        | String "." r =>
            let (fd, r') := take_digits r in
            match fd with
            | EmptyString => ("", s2)
            | _ => ("." ++ fd, r')
            end
        | _ => ("", s2)
        end in
      let (exp, s4) :=
        match s3 with
        | String e r =>
            if (Ascii.eqb e "e" || Ascii.eqb e "E")%bool then
              let (sg, r1) :=
                match r with
                | String "+" r' => ("+", r')
                | String "-" r' => ("-", r')
                | _ => ("", r)
                end in
              let (ed, r2) := take_digits r1 in
              match ed with
              | EmptyString => ("", s3)
              | _ => (String e (sg ++ ed), r2)
              end
            else ("", s3)
        | EmptyString => ("", s3)
        end in
      match frac, exp with
      | EmptyString, EmptyString =>
          let n := digits_value 0 digits in
          Some (JInt (if String.eqb sign "-" then - n else n), s4)
      | _, _ => Some (JFloat (sign ++ digits ++ frac ++ exp), s4)
      end
  end.

Definition hex_value (c : ascii) : option nat :=
  let n := code c in
  if is_digit c then Some (n - 48)%nat
  else if (Nat.leb 97 n && Nat.leb n 102)%bool then Some (n - 87)%nat
  else if (Nat.leb 65 n && Nat.leb n 70)%bool then Some (n - 55)%nat
  else None.

(** Four hexadecimal digits at the head of [s]. *)
Definition hex4 (s : string) : option (N * string) :=
  match s with
  | String a (String b (String c (String d rest))) =>
      match hex_value a, hex_value b, hex_value c, hex_value d with
      | Some x, Some y, Some z, Some w =>
          Some (N.of_nat (((x * 16 + y) * 16 + z) * 16 + w), rest)
      | _, _, _, _ => None
      end
  | _ => None
  end.

Definition nbytes (l : list N) : string := bytes (map N.to_nat l).

(** The UTF-8 encoding of a code point. *)
Definition utf8 (cp : N) : string :=
  (if cp <? 128 then nbytes [cp]
   else if cp <? 2048 then nbytes [192 + cp / 64; 128 + cp mod 64]
   else if cp <? 65536 then
     nbytes [224 + cp / 4096; 128 + (cp / 64) mod 64; 128 + cp mod 64]
   else
     nbytes [240 + cp / 262144; 128 + (cp / 4096) mod 64;
             128 + (cp / 64) mod 64; 128 + cp mod 64])%N.

Definition simple_escape (c : ascii) : option string :=
  let n := code c in
  if Nat.eqb n 34 then Some dq
  else if Nat.eqb n 92 then Some (bytes [92])
  else if Nat.eqb n 47 then Some "/"
  else if Nat.eqb n 98 then Some (bytes [8])
  else if Nat.eqb n 102 then Some (bytes [12])
  else if Nat.eqb n 110 then Some (bytes [10])
  else if Nat.eqb n 114 then Some (bytes [13])
  else if Nat.eqb n 116 then Some (bytes [9])
  else None.

(** The body of a string literal, after its opening quote. *)
Fixpoint scan_string (fuel : nat) (s : string) : option (string * string) :=
  match fuel with
  | O => None
  | S fuel' =>
      match s with
      | EmptyString => None
      | String c s' =>
          if Nat.eqb (code c) 34 then Some (EmptyString, s')
          else if Nat.eqb (code c) 92 then
            match s' with
            | String "u" s2 =>
                match hex4 s2 with
                | None => None
                | Some (hi, s3) =>
                    let single :=
                      match scan_string fuel' s3 with
                      | Some (tl, rest) => Some (utf8 hi ++ tl, rest)
                      | None => None
                      end in
                    if ((55296 <=? hi) && (hi <=? 56319))%N then
                      match s3 with
                      | String b (String "u" s4) =>
                          if Nat.eqb (code b) 92 then
                            match hex4 s4 with
                            | Some (lo, s5) =>
                                if ((56320 <=? lo) && (lo <=? 57343))%N
                                then
                                  match scan_string fuel' s5 with
                                  | Some (tl, rest) =>
                                      Some (utf8 (65536 + (hi - 55296) * 1024
                                                  + (lo - 56320))%N ++ tl, rest)
                                  | None => None
                                  end
                                else single
                            | None => single
                            end
                          else single
                      | _ => single
                      end
                    else single
                end
            | String e s2 =>
                match simple_escape e, scan_string fuel' s2 with
                | Some t, Some (tl, rest) => Some (t ++ tl, rest)
                | _, _ => None
                end
            | EmptyString => None
            end
          else if Nat.ltb (code c) 32 then None
          else
            match scan_string fuel' s' with
            | Some (tl, rest) => Some (String c tl, rest)
            | None => None
            end
      end
  end.

(** [scan_value] reads one value; [scan_items] the elements of an
    array after its first value position; [scan_members] the members
    of an object from a key's opening quote. *)
Fixpoint scan_value (fuel : nat) (s : string) : option (json * string) :=
  match fuel with
  | O => None
  | S fuel' =>
      match s with
      | EmptyString => None
      | String c s' =>
          if Nat.eqb (code c) 34 then
            match scan_string (String.length s) s' with
            | Some (t, rest) => Some (JStr t, rest)
            | None => None
            end
          else if Ascii.eqb c "{" then
            match skip_ws s' with
            | String "}" rest => Some (JObj [], rest)
            | body =>
                match scan_members fuel' body with
                | Some (fs, rest) => Some (JObj (Dict.of_pairs fs), rest)
                | None => None
                end
            end
          else if Ascii.eqb c "[" then
            match skip_ws s' with
            | String "]" rest => Some (JArr [], rest)
            | body =>
                match scan_items fuel' body with
                | Some (vs, rest) => Some (JArr vs, rest)
                | None => None
                end
            end
          else if startswith s "null" then Some (JNull, drop 4 s)
          else if startswith s "true" then Some (JBool true, drop 4 s)
          else if startswith s "false" then Some (JBool false, drop 5 s)
          else
            match scan_number s with
            | Some r => Some r
            | None =>
                if startswith s "NaN" then Some (JFloat "NaN", drop 3 s)
                else if startswith s "Infinity"
                then Some (JFloat "Infinity", drop 8 s)
                else if startswith s "-Infinity"
                then Some (JFloat "-Infinity", drop 9 s)
                else None
            end
      end
  end
with scan_items (fuel : nat) (s : string) : option (list json * string) :=
  match fuel with
  | O => None
  | S fuel' =>
      match scan_value fuel' s with
      | None => None
      | Some (v, rest) =>
          match skip_ws rest with
          | String "]" rest' => Some ([v], rest')
          | String "," rest' =>
              match scan_items fuel' (skip_ws rest') with
              | Some (vs, rest'') => Some (v :: vs, rest'')
              | None => None
              end
          | _ => None
          end
      end
  end
with scan_members (fuel : nat) (s : string)
     : option (list (string * json) * string) :=
  match fuel with
  | O => None
  | S fuel' =>
      match s with
      | String q s' =>
          if Nat.eqb (code q) 34 then
            match scan_string (String.length s) s' with
            | None => None
            | Some (key, rest) =>
                match skip_ws rest with
                | String ":" rest1 =>
                    match scan_value fuel' (skip_ws rest1) with
                    | None => None
                    | Some (v, rest2) =>
                        match skip_ws rest2 with
                        | String "}" rest3 => Some ([(key, v)], rest3)
                        | String "," rest3 =>
                            match scan_members fuel' (skip_ws rest3) with
                            | Some (fs, rest4) => Some ((key, v) :: fs, rest4)
                            | None => None
                            end
                        | _ => None
                        end
                    end
                | _ => None
                end
            end
          else None
      | EmptyString => None
      end
  end.

(** [json.loads(s)]: one value between optional whitespace, nothing
    after it.  The text of the error message is not reproduced. *)
Definition json_loads (s : string) : result json :=
  match scan_value (2 * String.length s + 2) (skip_ws s) with
  | Some (v, rest) =>
      match skip_ws rest with
      | EmptyString => Ok v
      | _ => Raise (Exn JSONDecodeError "Extra data")
      end
  | None => Raise (Exn JSONDecodeError "Expecting value")
  end.

End JsonDecoder.

(* ================================================================== *)
(** ** The outside world *)
(* ================================================================== *)

(** The library functions and the service the agents rely on.
    [chat n prompt message] is the outcome of the [n]-th chat-completion
    request of a run (counted from 0): the content of the reply, or the
    exception raised while requesting it and recording its metrics. *)
Record External := {
  json_loads : string -> result json;
  json_dumps : forall A : Type, A -> string;
  json_dumps_indent2 : forall A : Type, A -> string;
  lower : string -> string;
  (** Python's [==] on two decoded values: mappings are equal whatever
      the order of their keys, and numbers by their value. *)
  py_equal : json -> json -> bool;
  chat : nat -> string -> string -> result string
}.

(** [str(n)] for an [int], as an f-string prints it. *)
Definition decimal (z : Z) : string := NilZero.string_of_int (Z.to_int z).

(** What a run does to the world, in order. *)
Inductive event :=
| ChatCompletion (is_async : bool) (prompt user_message : string)
| Sleep (milliseconds : Z).

Definition is_call (e : event) : bool :=
  match e with ChatCompletion _ _ _ => true | Sleep _ => false end.

Definition calls (tr : list event) : nat := length (filter is_call tr).

(** A computation: from the events so far to an outcome and the events
    after it. *)
Definition M (A : Type) : Type := list event -> result A * list event.

Definition ret {A} (a : A) : M A := fun tr => (Ok a, tr).

Definition throw {A} (cls : exn_class) (msg : string) : M A :=
  fun tr => (Raise (Exn cls msg), tr).

Definition bind {A B} (m : M A) (k : A -> M B) : M B :=
  fun tr =>
    match m tr with
    | (Ok a, tr') => k a tr'
    | (Raise e, tr') => (Raise e, tr')
    end.

Definition lift {A} (r : result A) : M A := fun tr => (r, tr).

(** [try: body  except Exception as e: handler(e)] *)
Definition catch {A} (body : M A) (handler : exn -> M A) : M A :=
  fun tr =>
    match body tr with
    | (Ok a, tr') => (Ok a, tr')
    | (Raise e, tr') => handler e tr'
    end.

Definition emit (e : event) : M unit := fun tr => (Ok tt, (tr ++ [e])%list).

(** [time.sleep(0.5)] and [asyncio.sleep(0.5)]: half a second. *)
Definition sleep_half_second : M unit := emit (Sleep 500).

Declare Scope py_scope.
Delimit Scope py_scope with py.
Notation "x <- m ;; k" := (bind m (fun x => k))
  (at level 61, m at next level, right associativity) : py_scope.
Notation "m ;;; k" := (bind m (fun _ => k))
  (at level 61, right associativity) : py_scope.

(** [range(n)] *)
Definition range (n : Z) : list Z := map Z.of_nat (seq 0 (Z.to_nat n)).

(* ================================================================== *)
(** ** base_agent.py *)
(* ================================================================== *)

(** The fields of [BaseAgent] the control flow reads. *)
Record Agent := {
  max_retries : Z;
  prompt : string;
  has_async_client : bool
}.

Section BaseAgent.
Variable ext : External.
Variable self : Agent.

(** [_call_openai]: every exception of the request is re-raised as a
    [RuntimeError]. *)
Definition _call_openai (prompt user_message agent_name : string) : M string :=
  fun tr =>
    let tr' := (tr ++ [ChatCompletion false prompt user_message])%list in
    match chat ext (calls tr) prompt user_message with
    | Ok content => (Ok (strip content), tr')
    | Raise e =>
        (Raise (Exn RuntimeError
                    (agent_name ++ " API call failed: " ++ exn_str e)), tr')
    end.

(** [_call_openai_async], awaited. *)
Definition _call_openai_async (prompt user_message agent_name : string)
  : M string :=
  if negb (has_async_client self)
  then throw RuntimeError (agent_name ++ " async client not available")
  else
    fun tr =>
      let tr' := (tr ++ [ChatCompletion true prompt user_message])%list in
      match chat ext (calls tr) prompt user_message with
      | Ok content => (Ok (strip content), tr')
      | Raise e =>
          (Raise (Exn RuntimeError
                      (agent_name ++ " async API call failed: " ++ exn_str e)),
           tr')
      end.

(** The line scan of [_parse_json_with_retry]: the value of
    [json_lines] when the [for] loop ends or breaks. *)
Fixpoint scan_lines (lines json_lines : list string) (brace_count : Z)
         (started : bool) : list string :=
  match lines with
  | [] => json_lines
  | line :: rest =>
      let stripped := strip line in
      let started :=
        if startswith stripped "{" && negb started then true else started in
      if started then
        let json_lines := (json_lines ++ [line])%list in
        let brace_count := (brace_count + (count "{" line - count "}" line))%Z in
        if (brace_count =? 0)%Z then json_lines
        else scan_lines rest json_lines brace_count started
      else scan_lines rest json_lines brace_count started
  end.

(** The fenced-code cleaning step. *)
Definition clean_markdown (response : string) : string :=
  if startswith response "```json"
  then strip (replace (replace response "```json" "") "```" "")
  else response.

Definition _parse_json_with_retry (response agent_name : string)
  : result json :=
  let body :=
    if (String.eqb response "" || String.eqb (strip response) "")%bool
    then Raise (Exn ValueError (agent_name ++ " returned empty response"))
    else
      let response := clean_markdown response in
      try_except (json_loads ext response) JSONDecodeError (fun _ =>
        let lines := split newline response in
        let json_lines := scan_lines lines [] 0 false in
        match json_lines with
        | _ :: _ => json_loads ext (join nl json_lines)
        | [] =>
            Raise (Exn ValueError
                       (agent_name ++ " response contains no valid JSON"))
        end) in
  try_except_else body JSONDecodeError
    (fun e =>
       Raise (Exn ValueError
                  (agent_name ++ " returned invalid JSON: " ++ exn_str e)))
    (fun e =>
       Raise (Exn ValueError
                  (agent_name ++ " response parsing failed: " ++ exn_str e))).

(** One pass of the body of the retry loop: request, then parse. *)
Definition attempt_once (user_message agent_name : string) : M json :=
  (response <- _call_openai (prompt self) user_message agent_name ;;
   lift (_parse_json_with_retry response agent_name))%py.

(** The [for attempt in range(self.max_retries)] loop of
    [_call_with_retry].  Falling out of the loop returns [None]. *)
Fixpoint retry_loop (user_message agent_name : string) (attempts : list Z)
  : M json :=
  match attempts with
  | [] => ret JNull
  | attempt :: rest =>
      catch (attempt_once user_message agent_name) (fun e =>
        if (attempt =? max_retries self - 1)%Z
        then throw RuntimeError
               (agent_name ++ " failed after " ++ decimal (max_retries self)
                ++ " retries: " ++ exn_str e)
        else (sleep_half_second ;;; retry_loop user_message agent_name rest)%py)
  end.

Definition _call_with_retry (user_message agent_name : string) : M json :=
  retry_loop user_message agent_name (range (max_retries self)).

(** The outcome of an attempt whose request is the [n]-th of the run:
    what the reply, or the failure to get one, turns into. *)
Definition attempt_outcome (user_message agent_name : string) (n : nat)
  : result json :=
  match chat ext n (prompt self) user_message with
  | Ok content => _parse_json_with_retry (strip content) agent_name
  | Raise e =>
      Raise (Exn RuntimeError (agent_name ++ " API call failed: " ++ exn_str e))
  end.

(** The events of [n] attempts in a row: [n] requests, and half a
    second of sleep between two of them. *)
Fixpoint attempts_trace (user_message : string) (n : nat) : list event :=
  match n with
  | O => []
  | S n' =>
      ChatCompletion false (prompt self) user_message
      :: match n' with
         | O => []
         | S _ => Sleep 500 :: attempts_trace user_message n'
         end
  end.

End BaseAgent.

(* ================================================================== *)
(** ** Records of the data model *)
(* ================================================================== *)

(** [o.get(key, default)] on a field that may be absent. *)
Definition get_or {A} (default : A) (o : option A) : A :=
  match o with Some a => a | None => default end.

(** Structural equality of decoded values: two values that are written
    the same.  (Python's [==], which also ignores the order of keys and
    identifies 1, 1.0 and True, is [py_equal].) *)
Fixpoint json_eqb (a b : json) : bool :=
  match a, b with
  | JNull, JNull => true
  | JBool x, JBool y => Bool.eqb x y
  | JInt x, JInt y => Z.eqb x y
  | JFloat x, JFloat y => String.eqb x y
  | JStr x, JStr y => String.eqb x y
  | JArr xs, JArr ys =>
      (fix items (xs ys : list json) : bool :=
         match xs, ys with
         | [], [] => true
         | x :: xs', y :: ys' => json_eqb x y && items xs' ys'
         | _, _ => false
         end) xs ys
  | JObj xs, JObj ys =>
      (fix members (xs ys : dict json) : bool :=
         match xs, ys with
         | [], [] => true
         | (k, x) :: xs', (k', y) :: ys' =>
             String.eqb k k' && json_eqb x y && members xs' ys'
         | _, _ => false
         end) xs ys
  | _, _ => false
  end.

Definition option_eqb {A} (eqb : A -> A -> bool) (a b : option A) : bool :=
  match a, b with
  | Some x, Some y => eqb x y
  | None, None => true
  | _, _ => false
  end.

Fixpoint list_eqb {A} (eqb : A -> A -> bool) (a b : list A) : bool :=
  match a, b with
  | [], [] => true
  | x :: a', y :: b' => eqb x y && list_eqb eqb a' b'
  | _, _ => false
  end.

(** A TaskCard: the keys the agents read, and the rest.  The cards are
    taken in the shape the data model gives them: a key that the agents
    read is absent or holds a value of its type.  A card that holds
    [null], or a value of another type, under such a key is no value of
    this record; on such a card the code that reads the key raises
    ([AttributeError], [TypeError]), which the discovery, parameter and
    generation stages do while they build their message, before their
    [try]. *)
Record TaskCard := {
  t_domain : option string;
  t_algorithm : option string;
  t_other : dict json
}.

(** A ComponentCard of the registry: [name], [kind], [tags] and
    [params_schema] are read by the agents (each may be absent, and
    holds a string, a string, a list of strings and a mapping when it
    is there); the remaining keys travel along in [c_other]. *)
Record ComponentCard := {
  c_name : option string;
  c_kind : option string;
  c_tags : option (list string);
  c_params_schema : option (dict json);
  c_other : dict json
}.

(** Two cards that hold the same text: what the same entry of a
    registry is to itself. *)
Definition card_eqb (a b : ComponentCard) : bool :=
  option_eqb String.eqb (c_name a) (c_name b)
  && option_eqb String.eqb (c_kind a) (c_kind b)
  && option_eqb (list_eqb String.eqb) (c_tags a) (c_tags b)
  && option_eqb (fun x y => json_eqb (JObj x) (JObj y))
                (c_params_schema a) (c_params_schema b)
  && json_eqb (JObj (c_other a)) (JObj (c_other b)).

(** [a == b] on two cards: the same keys, with equal values.  Texts
    and lists of texts are equal when they are the same; the mappings
    are compared by Python's [==]. *)
Definition card_eq (ext : External) (a b : ComponentCard) : bool :=
  option_eqb String.eqb (c_name a) (c_name b)
  && option_eqb String.eqb (c_kind a) (c_kind b)
  && option_eqb (list_eqb String.eqb) (c_tags a) (c_tags b)
  && option_eqb (fun x y => py_equal ext (JObj x) (JObj y))
                (c_params_schema a) (c_params_schema b)
  && py_equal ext (JObj (c_other a)) (JObj (c_other b)).

(** [component in components]: an element that is [component] itself,
    or one equal to it.  Values have no identity here; the element
    itself is known by its text ([card_eqb]), which tells the entries
    of a registry apart as soon as their names differ. *)
Definition card_in (ext : External) (c : ComponentCard)
           (l : list ComponentCard) : bool :=
  existsb (fun e => card_eqb e c || card_eq ext e c) l.

(** A PipelinePlan, as far as the code generator reads it: the
    execution order, absent or a list of names. *)
Record PipelinePlan := {
  execution_order : option (list string)
}.

(* ================================================================== *)
(** ** Schema compression (discovery_agent.py, param_processor_agent.py) *)
(* ================================================================== *)

Definition kept_keys : list string := ["type"; "default"; "range"; "options"].

(** The body of the loop over [schema.items()]: a mapping keeps the
    entries whose key is in [kept_keys], anything else is passed on. *)
Definition compress_spec (param_spec : json) : json :=
  match param_spec with
  | JObj fields => JObj (filter (fun kv => mem (fst kv) kept_keys) fields)
  | _ => param_spec
  end.

(** [ParamProcessorAgent._compress_schema].  The keys of a [dict] are
    distinct, so the new mapping has one entry per entry of [schema],
    in the same order. *)
Definition _compress_schema (schema : dict json) : dict json :=
  map (fun kv => (fst kv, compress_spec (snd kv))) schema.

(** [DiscoveryAgent._compress_schema_for_llm] *)
Definition _compress_schema_for_llm (components : list ComponentCard)
  : list ComponentCard :=
  map (fun component =>
         match c_params_schema component with
         | Some schema =>
             {| c_name := c_name component;
                c_kind := c_kind component;
                c_tags := c_tags component;
                c_params_schema :=
                  Some (map (fun kv => (fst kv, compress_spec (snd kv))) schema);
                c_other := c_other component |}
         | None => component
         end) components.

(** [ParamProcessorAgent._compress_components_for_llm] *)
Definition _compress_components_for_llm (components : list ComponentCard)
  : list ComponentCard :=
  map (fun component =>
         {| c_name := Some (get_or "" (c_name component));
            c_kind := Some (get_or "" (c_kind component));
            c_tags := None;
            c_params_schema :=
              Some (_compress_schema (get_or [] (c_params_schema component)));
            c_other := [] |}) components.

(* ================================================================== *)
(** ** The relevance filter (discovery_agent.py) *)
(* ================================================================== *)

Section RelevanceFilter.
Variable ext : External.

(** The relevance score in tenths.  The code adds the floats 0.4, 0.3,
    0.2 and 0.1 in this order and keeps a component when the sum is
    [>= 0.2]; the only sums below 0.2 are 0 and 0.1 (a sum that
    includes a larger weight starts from that weight exactly and only
    grows), so the test is the one on tenths. *)
Definition relevance_score (domain algorithm : string)
           (component : ComponentCard) : Z :=
  let tags := map (lower ext) (get_or [] (c_tags component)) in
  let kind := lower ext (get_or "" (c_kind component)) in
  let name := lower ext (get_or "" (c_name component)) in
  let score := 0%Z in
  let score :=
    if existsb (fun domain_keyword =>
                  contains domain_keyword name
                  || contains domain_keyword (join " " tags))
               (split "." domain)
    then (score + 4)%Z else score in
  let score :=
    if contains algorithm name || contains algorithm (join " " tags)
    then (score + 3)%Z else score in
  let score :=
    if mem kind ["hamiltonian"; "ansatz"; "optimizer"; "algorithm"]
    then (score + 2)%Z else score in
  let score :=
    if mem kind ["core"; "backend"] || mem "core" tags
    then (score + 1)%Z else score in
  score.

(** [component.get("kind") in ["core", "backend", "algorithm"]] *)
Definition is_essential (component : ComponentCard) : bool :=
  match c_kind component with
  | Some k => mem k ["core"; "backend"; "algorithm"]
  | None => false
  end.

(** The second loop: append the essential components not yet there. *)
Definition force_include (registry_data filtered : list ComponentCard)
  : list ComponentCard :=
  fold_left
    (fun filtered_components component =>
       if is_essential component
       then if negb (card_in ext component filtered_components)
            then (filtered_components ++ [component])%list
            else filtered_components
       else filtered_components)
    registry_data filtered.

Definition _filter_relevant_components (task_card : TaskCard)
           (registry_data : list ComponentCard) : list ComponentCard :=
  let domain := lower ext (get_or "" (t_domain task_card)) in
  let algorithm := lower ext (get_or "" (t_algorithm task_card)) in
  let filtered_components :=
    filter (fun component =>
              (2 <=? relevance_score domain algorithm component)%Z)
           registry_data in
  if Nat.ltb (length filtered_components) 3
  then force_include registry_data filtered_components
  else filtered_components.

End RelevanceFilter.

(* ================================================================== *)
(** ** Validation of decoded replies *)
(* ================================================================== *)

Definition type_name (v : json) : string :=
  match v with
  | JNull => "NoneType" | JBool _ => "bool" | JInt _ => "int"
  | JFloat _ => "float" | JStr _ => "str" | JArr _ => "list"
  | JObj _ => "dict"
  end.

(** [x in container] for a string [x]. *)
Definition py_in (x : string) (container : json) : result bool :=
  match container with
  | JObj d => Ok (Dict.has x d)
  | JArr l =>
      Ok (existsb (fun v => match v with
                            | JStr s => String.eqb x s
                            | _ => false
                            end) l)
  | JStr s => Ok (contains x s)
  | _ => Raise (Exn TypeError ("argument of type '" ++ type_name container
                               ++ "' is not iterable"))
  end.

(** [container.get(key, default)] *)
Definition py_get (container : json) (key : string) (default : json)
  : result json :=
  match container with
  | JObj d => Ok (get_or default (Dict.get key d))
  | _ => Raise (Exn AttributeError ("'" ++ type_name container
                                    ++ "' object has no attribute 'get'"))
  end.

(** [DiscoveryAgent._validate_component_cards] *)
Definition _validate_component_cards (data : json) : bool :=
  let required_fields :=
    ["name"; "kind"; "tags"; "needs"; "provides"; "params_schema"; "yields";
     "codegen_hint"] in
  match data with
  | JArr cards =>
      forallb (fun card =>
                 match card with
                 | JObj d => forallb (fun field => Dict.has field d) required_fields
                 | _ => false
                 end) cards
  | _ => false
  end.

Record Validation := { valid : bool; missing : list string }.

(** The first loop of [_validate_param_map]: the first required field
    that [data] lacks, if any. *)
Fixpoint first_missing_field (fields : list string) (data : json)
  : result (option string) :=
  match fields with
  | [] => Ok None
  | field :: rest =>
      match py_in field data with
      | Raise e => Raise e
      | Ok false => Ok (Some field)
      | Ok true => first_missing_field rest data
      end
  end.

(** The second loop: the parameters without a value and without a
    default. *)
Fixpoint missing_params (schema : dict json) (normalized_params : json)
  : result (list string) :=
  match schema with
  | [] => Ok []
  | (param_name, param_spec) :: rest =>
      match py_in param_name normalized_params with
      | Raise e => Raise e
      | Ok present =>
          let has_default :=
            match param_spec with
            | JObj d =>
                match Dict.get "default" d with
                | Some JNull | None => false
                | Some _ => true
                end
            | _ => false
            end in
          match missing_params rest normalized_params with
          | Raise e => Raise e
          | Ok more =>
              if negb present && negb has_default
              then Ok (param_name :: more) else Ok more
          end
      end
  end.

(** [ParamProcessorAgent._validate_param_map] *)
Definition _validate_param_map (data : json) (required_schema : dict json)
  : result Validation :=
  let required_fields :=
    ["normalized_params"; "aliases"; "defaults"; "validation_errors"] in
  match first_missing_field required_fields data with
  | Raise e => Raise e
  | Ok (Some field) =>
      Ok {| valid := false; missing := ["Missing field: " ++ field] |}
  | Ok None =>
      match py_get data "normalized_params" (JObj []) with
      | Raise e => Raise e
      | Ok normalized_params =>
          match missing_params required_schema normalized_params with
          | Raise e => Raise e
          | Ok missing_params =>
              Ok {| valid := Nat.eqb (length missing_params) 0;
                    missing := missing_params |}
          end
      end
  end.

(** How an f-string prints a list of strings. *)
Definition repr_list (l : list string) : string :=
  "[" ++ join ", " (map (fun s => "'" ++ s ++ "'") l) ++ "]".

(* ================================================================== *)
(** ** The stages: semantic_agent.py, discovery_agent.py,
       param_processor_agent.py *)
(* ================================================================== *)

Module SemanticAgent.
(** [data[key]] for a string key. *)
Definition py_getitem (data : json) (key : string) : result json :=
  match data with
  | JObj d =>
      match Dict.get key d with
      | Some v => Ok v
      | None => Raise (Exn KeyError ("'" ++ key ++ "'"))
      end
  | JArr _ =>
      Raise (Exn TypeError "list indices must be integers or slices, not str")
  | _ => Raise (Exn TypeError "string indices must be integers")
  end.

(** [x not in valid_domains], a set of strings. *)
Definition in_str_set (x : json) (set : list string) : result bool :=
  match x with
  | JStr s => Ok (mem s set)
  | JArr _ | JObj _ =>
      Raise (Exn TypeError ("unhashable type: '" ++ type_name x ++ "'"))
  | _ => Ok false
  end.

Definition _validate_task_card (data : json) : result bool :=
  let required_fields := ["domain"; "problem"; "algorithm"; "backend"; "params"] in
  let valid_domains :=
    ["spin"; "spin.tfim"; "spin.heisenberg"; "spin.ising";
     "chemistry.molecular"; "optimization"; "custom"] in
  match first_missing_field required_fields data with
  | Raise e => Raise e
  | Ok (Some _) => Ok false
  | Ok None =>
      match py_getitem data "domain" with
      | Raise e => Raise e
      | Ok d =>
          match in_str_set d valid_domains with
          | Raise e => Raise e
          | Ok false => Ok false
          | Ok true =>
              match py_getitem data "backend" with
              | Raise e => Raise e
              | Ok b => Ok (json_eqb b (JStr "qiskit"))
              end
          end
      end
  end.

Section Process.
Variable ext : External.
Variable self : Agent.

Definition process (query : string) : M json :=
  catch
    (result <- _call_with_retry ext self query "SemanticAgent" ;;
     ok <- lift (_validate_task_card result) ;;
     if ok : bool then ret result
     else throw ValueError "TaskCard格式验证失败")%py
    (fun e => throw RuntimeError ("SemanticAgent处理失败: " ++ exn_str e)).
End Process.
End SemanticAgent.

Module DiscoveryAgent.
Section Process.
Variable ext : External.
Variable self : Agent.

(** The user message of [process]. *)
Definition user_message_of (task_card : TaskCard)
           (registry_data : list ComponentCard) : string :=
  let filtered_registry :=
    _filter_relevant_components ext task_card registry_data in
  let compressed_registry := _compress_schema_for_llm filtered_registry in
  nl ++ "TaskCard: " ++ json_dumps ext _ task_card ++ nl ++ nl
  ++ "Component Registry:" ++ nl
  ++ json_dumps_indent2 ext _ compressed_registry ++ nl
  ++ "Please select appropriate components from the registry to satisfy this task requirement.".

(** [process].  The registry is filtered and compressed and the message
    built before the [try]; on a card and a registry of the data model
    this raises nothing, and what it raises on others is not part of
    this definition. *)
Definition process (task_card : TaskCard)
           (registry_data : list ComponentCard) : M json :=
  let user_message := user_message_of task_card registry_data in
  catch
    (result <- _call_with_retry ext self user_message "DiscoveryAgent" ;;
     if _validate_component_cards result then ret result
     else throw ValueError "ComponentCards格式验证失败")%py
    (fun e => throw RuntimeError ("DiscoveryAgent处理失败: " ++ exn_str e)).

(** The [for attempt in range(self.max_retries)] loop of
    [process_async]: request, parse and validate are all inside the
    [try]. *)
Fixpoint async_loop (user_message : string) (attempts : list Z) : M json :=
  match attempts with
  | [] => ret JNull
  | attempt :: rest =>
      catch
        (response <- _call_openai_async ext self (prompt self) user_message
                                        "DiscoveryAgent" ;;
         parsed_data <- lift (_parse_json_with_retry ext response
                                                     "DiscoveryAgent") ;;
         if _validate_component_cards parsed_data then ret parsed_data
         else throw ValueError "ComponentCards格式验证失败")%py
        (fun e =>
           if (attempt =? max_retries self - 1)%Z
           then throw RuntimeError
                  ("DiscoveryAgent异步调用失败，已重试"
                   ++ decimal (max_retries self) ++ "次: " ++ exn_str e)
           else (sleep_half_second ;;; async_loop user_message rest)%py)
  end.

(** The user message of [process_async]. *)
Definition async_user_message_of (task_card : TaskCard)
           (registry_data : list ComponentCard) : string :=
  let filtered_registry :=
    _filter_relevant_components ext task_card registry_data in
  let compressed_registry := _compress_schema_for_llm filtered_registry in
  nl ++ "TaskCard: " ++ json_dumps ext _ task_card ++ nl
  ++ "Component Registry: " ++ json_dumps ext _ compressed_registry ++ nl
  ++ "Please select appropriate components from the registry based on the TaskCard.".

(** [process_async].  As in [process], the message is built before
    the loop, outside its [try]. *)
Definition process_async (task_card : TaskCard)
           (registry_data : list ComponentCard) : M json :=
  let user_message := async_user_message_of task_card registry_data in
  async_loop user_message (range (max_retries self)).
End Process.
End DiscoveryAgent.

Module ParamProcessorAgent.
(** [required_schema.update(component["params_schema"])] over the
    components that have the key. *)
Definition required_schema_of (components : list ComponentCard) : dict json :=
  fold_left
    (fun required_schema component =>
       match c_params_schema component with
       | Some schema =>
           fold_left (fun d kv => Dict.set (fst kv) (snd kv) d)
                     schema required_schema
       | None => required_schema
       end)
    components [].

Section Process.
Variable ext : External.
Variable self : Agent.

Definition user_message_of (query : string) (task_card : TaskCard)
           (components : list ComponentCard) : string :=
  let required_schema := required_schema_of components in
  let compressed_components := _compress_components_for_llm components in
  nl ++ "Query: " ++ query ++ nl ++ nl
  ++ "TaskCard: " ++ json_dumps ext _ task_card ++ nl ++ nl
  ++ "Components: " ++ json_dumps ext _ compressed_components ++ nl ++ nl
  ++ "Required Schema: " ++ json_dumps ext _ (_compress_schema required_schema)
  ++ nl ++ nl
  ++ "Please complete missing parameters AND normalize them in a single step based on query analysis and domain expertise.".

(** [process].  The required schema is collected, the components are
    compressed and the message built before the [try]; on components
    of the data model this raises nothing, and what it raises on others
    is not part of this definition. *)
Definition process (query : string) (task_card : TaskCard)
           (components : list ComponentCard) : M json :=
  let required_schema := required_schema_of components in
  let user_message := user_message_of query task_card components in
  catch
    (result <- _call_with_retry ext self user_message "ParamProcessorAgent" ;;
     validation_result <- lift (_validate_param_map result required_schema) ;;
     if valid validation_result then ret result
     else throw ValueError
            ("参数处理验证失败: 缺失参数 "
             ++ repr_list (missing validation_result)))%py
    (fun e => throw RuntimeError ("ParamProcessorAgent处理失败: " ++ exn_str e)).

Fixpoint async_loop (user_message : string) (required_schema : dict json)
         (attempts : list Z) : M json :=
  match attempts with
  | [] => ret JNull
  | attempt :: rest =>
      catch
        (response <- _call_openai_async ext self (prompt self) user_message
                                        "ParamProcessorAgent" ;;
         parsed_data <- lift (_parse_json_with_retry ext response
                                                     "ParamProcessorAgent") ;;
         validation_result <- lift (_validate_param_map parsed_data
                                                        required_schema) ;;
         if valid validation_result then ret parsed_data
         else throw ValueError
                ("ParamMap验证失败: 缺失参数 "
                 ++ repr_list (missing validation_result)))%py
        (fun e =>
           if (attempt =? max_retries self - 1)%Z
           then throw RuntimeError
                  ("ParamProcessorAgent异步调用失败，已重试"
                   ++ decimal (max_retries self) ++ "次: " ++ exn_str e)
           else (sleep_half_second ;;;
                 async_loop user_message required_schema rest)%py)
  end.

(** [process_async].  As in [process], the schema is collected and
    the message built before the loop, outside its [try]. *)
Definition process_async (query : string) (task_card : TaskCard)
           (components : list ComponentCard) : M json :=
  let required_schema := required_schema_of components in
  let user_message := user_message_of query task_card components in
  async_loop user_message required_schema (range (max_retries self)).
End Process.
End ParamProcessorAgent.

(* ================================================================== *)
(** ** Dependency analysis (codegen_agent.py) *)
(* ================================================================== *)

Record Dependency := {
  dep_name : string;
  dep_type : string;
  dep_variable : string
}.

Record AlgorithmDependencies := {
  ad_type : string;
  requires : list Dependency;
  usage_pattern : string
}.

Record DependencyAnalysis := {
  component_types : dict string;
  algorithm_dependencies : dict AlgorithmDependencies;
  analysed_order : list string
}.

Module CodegenAgent.

(** The [if]/[elif] chain on the component name: the first keyword
    found decides, a name without keyword gets no type. *)
Definition classify (name : string) : option string :=
  if contains "Hamiltonian" name then Some "hamiltonian"
  else if contains "Optimizer" name then Some "optimizer"
  else if contains "Circuit" name || contains "Ansatz" name then Some "circuit"
  else if contains "Backend" name || contains "Estimator" name then Some "backend"
  else if contains "Algorithm" name then Some "algorithm"
  else None.

Section Analysis.
Variable ext : External.

Definition type_mapping : dict string :=
  [("hamiltonian", "H"); ("optimizer", "optimizer"); ("circuit", "ansatz");
   ("backend", "estimator"); ("algorithm", "algorithm")].

Definition _get_variable_name (component_name component_type : string)
  : string :=
  get_or (lower ext component_name) (Dict.get component_type type_mapping).

(** The first loop: [component_types]. *)
Definition classify_components (components : list ComponentCard)
  : dict string :=
  fold_left
    (fun component_types component =>
       let name := get_or "" (c_name component) in
       match classify name with
       | Some type_ => Dict.set name type_ component_types
       | None => component_types
       end)
    components [].

(** The inner loop over [execution_order]: [algo_deps]. *)
Definition algo_deps_of (component_types : dict string)
           (execution_order : list string) (algo_name : string)
  : list Dependency :=
  flat_map
    (fun comp_name =>
       if negb (String.eqb comp_name algo_name) then
         match Dict.get comp_name component_types with
         | Some comp_type =>
             [{| dep_name := comp_name;
                 dep_type := comp_type;
                 dep_variable := _get_variable_name comp_name comp_type |}]
         | None => []
         end
       else [])
    execution_order.

Definition usage_pattern_of (algo_name : string) (algo_deps : list Dependency)
  : string :=
  "algorithm = " ++ last_segment algo_name ++ "("
  ++ join ", " (map (fun dep => dep_type dep ++ "=" ++ dep_variable dep)
                    algo_deps)
  ++ ")".

Definition _analyze_component_dependencies
           (components : list ComponentCard) (pipeline_plan : PipelinePlan)
  : DependencyAnalysis :=
  let execution_order := get_or [] (execution_order pipeline_plan) in
  let component_types := classify_components components in
  let algorithm_components :=
    map fst (filter (fun nt => String.eqb (snd nt) "algorithm")
                    component_types) in
  let dependencies :=
    fold_left
      (fun dependencies algo_name =>
         let algo_deps :=
           algo_deps_of component_types execution_order algo_name in
         Dict.set algo_name
                  {| ad_type := "algorithm";
                     requires := algo_deps;
                     usage_pattern := usage_pattern_of algo_name algo_deps |}
                  dependencies)
      algorithm_components [] in
  {| component_types := component_types;
     algorithm_dependencies := dependencies;
     analysed_order := execution_order |}.

(** [bind(components, execution_order)[C]]: the binding of the
    algorithm component [C]. *)
Definition binding_of (components : list ComponentCard)
           (pipeline_plan : PipelinePlan) (algo_name : string)
  : option (list Dependency) :=
  option_map requires
    (Dict.get algo_name
              (algorithm_dependencies
                 (_analyze_component_dependencies components pipeline_plan))).
End Analysis.
End CodegenAgent.

(* ================================================================== *)
(** ** agent_memory.py *)
(* ================================================================== *)

(** A remembered case or pattern: a [dict] literal built by a
    recording method (a [set] is kept as the list of its members). *)
Definition MemoryRecord := dict json.

Record AgentMemory := {
  param_patterns : list MemoryRecord;
  param_completions : list MemoryRecord;
  param_normalizations : list MemoryRecord;
  component_combinations : list MemoryRecord;
  successful_discoveries : list MemoryRecord;
  generation_patterns : list MemoryRecord;
  successful_generations : list MemoryRecord;
  validation_failures : list MemoryRecord;
  missing_param_cases : list MemoryRecord
}.

Module Memory.

(** [AgentMemory.__init__] *)
Definition init : AgentMemory :=
  {| param_patterns := []; param_completions := [];
     param_normalizations := []; component_combinations := [];
     successful_discoveries := []; generation_patterns := [];
     successful_generations := []; validation_failures := [];
     missing_param_cases := [] |}.

(** [l.pop(0)] when [len(l) > 50]. *)
Definition capacity : nat := 50.

Definition enforce_limit (l : list MemoryRecord) : list MemoryRecord :=
  if Nat.ltb capacity (length l) then tl l else l.

Definition strs (l : list string) : json := JArr (map JStr l).

Definition kinds_of (components : list ComponentCard) : json :=
  strs (map (fun comp => get_or "" (c_kind comp)) components).

Definition names_of (components : list ComponentCard) : json :=
  strs (map (fun comp => get_or "" (c_name comp)) components).

Section Recording.
Variable ext : External.

Definition _extract_query_type (query : string) : string :=
  let query_lower := lower ext query in
  if contains "ising" query_lower || contains "spin" query_lower
  then "SPIN_MODEL"
  else if contains "molecular" query_lower || contains "molecule" query_lower
  then "molecular"
  else if contains "heisenberg" query_lower then "heisenberg"
  else "general".

(** Each method reads the clock ([datetime.now().isoformat()]) once
    per record it builds; the reading is the [timestamp] argument. *)
Definition record_success_case (agent_type : string) (input_data output_data : json)
           (timestamp : string) (self : AgentMemory) : AgentMemory :=
  let case := [("agent_type", JStr agent_type); ("timestamp", JStr timestamp);
               ("input", input_data); ("output", output_data)] in
  if String.eqb agent_type "DiscoveryAgent" then
    {| param_patterns := param_patterns self;
       param_completions := param_completions self;
       param_normalizations := param_normalizations self;
       component_combinations := component_combinations self;
       successful_discoveries := (successful_discoveries self ++ [case])%list;
       generation_patterns := generation_patterns self;
       successful_generations := successful_generations self;
       validation_failures := validation_failures self;
       missing_param_cases := missing_param_cases self |}
  else if String.eqb agent_type "ParamNormAgent" then
    {| param_patterns := param_patterns self;
       param_completions := param_completions self;
       param_normalizations := (param_normalizations self ++ [case])%list;
       component_combinations := component_combinations self;
       successful_discoveries := successful_discoveries self;
       generation_patterns := generation_patterns self;
       successful_generations := successful_generations self;
       validation_failures := validation_failures self;
       missing_param_cases := missing_param_cases self |}
  else if String.eqb agent_type "CodegenAgent" then
    {| param_patterns := param_patterns self;
       param_completions := param_completions self;
       param_normalizations := param_normalizations self;
       component_combinations := component_combinations self;
       successful_discoveries := successful_discoveries self;
       generation_patterns := generation_patterns self;
       successful_generations := (successful_generations self ++ [case])%list;
       validation_failures := validation_failures self;
       missing_param_cases := missing_param_cases self |}
  else self.

Definition record_param_completion (query : string)
           (components : list ComponentCard)
           (original_params completed_params : dict json)
           (timestamp : string) (self : AgentMemory) : AgentMemory :=
  let pattern :=
    [("query_type", JStr (_extract_query_type query));
     ("component_types", kinds_of components);
     ("original_params", JObj original_params);
     ("completed_params", JObj completed_params);
     ("completion_added",
      strs (filter (fun k => negb (mem k (Dict.keys original_params)))
                   (Dict.keys completed_params)));
     ("timestamp", JStr timestamp)] in
  {| param_patterns := param_patterns self;
     param_completions := (param_completions self ++ [pattern])%list;
     param_normalizations := param_normalizations self;
     component_combinations := component_combinations self;
     successful_discoveries := successful_discoveries self;
     generation_patterns := generation_patterns self;
     successful_generations := successful_generations self;
     validation_failures := validation_failures self;
     missing_param_cases := missing_param_cases self |}.

Definition record_param_normalization (task_card : TaskCard)
           (param_map : dict json)
           (timestamp : string) (self : AgentMemory) : AgentMemory :=
  let pattern :=
    [("domain", JStr (get_or "" (t_domain task_card)));
     ("algorithm", JStr (get_or "" (t_algorithm task_card)));
     ("input_params", get_or (JObj []) (Dict.get "params" (t_other task_card)));
     ("normalized_params",
      get_or (JObj []) (Dict.get "normalized_params" param_map));
     ("aliases", get_or (JObj []) (Dict.get "aliases" param_map));
     ("timestamp", JStr timestamp)] in
  {| param_patterns := param_patterns self;
     param_completions := param_completions self;
     param_normalizations := (param_normalizations self ++ [pattern])%list;
     component_combinations := component_combinations self;
     successful_discoveries := successful_discoveries self;
     generation_patterns := generation_patterns self;
     successful_generations := successful_generations self;
     validation_failures := validation_failures self;
     missing_param_cases := missing_param_cases self |}.

Definition record_component_success (task_card : TaskCard)
           (components : list ComponentCard)
           (timestamp : string) (self : AgentMemory) : AgentMemory :=
  let combination :=
    [("domain", JStr (get_or "" (t_domain task_card)));
     ("algorithm", JStr (get_or "" (t_algorithm task_card)));
     ("component_names", names_of components);
     ("component_kinds", kinds_of components);
     ("timestamp", JStr timestamp)] in
  {| param_patterns := param_patterns self;
     param_completions := param_completions self;
     param_normalizations := param_normalizations self;
     component_combinations := (component_combinations self ++ [combination])%list;
     successful_discoveries := successful_discoveries self;
     generation_patterns := generation_patterns self;
     successful_generations := successful_generations self;
     validation_failures := validation_failures self;
     missing_param_cases := missing_param_cases self |}.

Definition record_missing_params (missing_params : list string)
           (components : list ComponentCard) (context : string)
           (timestamp : string) (self : AgentMemory) : AgentMemory :=
  let case :=
    [("missing_params", strs missing_params);
     ("components", names_of components);
     ("context", JStr context);
     ("timestamp", JStr timestamp)] in
  {| param_patterns := param_patterns self;
     param_completions := param_completions self;
     param_normalizations := param_normalizations self;
     component_combinations := component_combinations self;
     successful_discoveries := successful_discoveries self;
     generation_patterns := generation_patterns self;
     successful_generations := successful_generations self;
     validation_failures := validation_failures self;
     missing_param_cases := (missing_param_cases self ++ [case])%list |}.

(** The two records [record_param_processing] builds. *)
Definition completion_record (query : string) (components : list ComponentCard)
           (original_params processed_result : dict json) (timestamp : string)
  : MemoryRecord :=
  [("query", JStr query);
   ("query_type", JStr (_extract_query_type query));
   ("component_types", kinds_of components);
   ("original_params", JObj original_params);
   ("completed_params",
    get_or (JObj []) (Dict.get "normalized_params" processed_result));
   ("timestamp", JStr timestamp)].

Definition normalization_record (query : string)
           (components : list ComponentCard)
           (original_params processed_result : dict json) (timestamp : string)
  : MemoryRecord :=
  [("task_info", JObj [("params", JObj original_params); ("query", JStr query)]);
   ("component_types", kinds_of components);
   ("param_map", JObj processed_result);
   ("timestamp", JStr timestamp)].

Definition record_param_processing (query : string)
           (components : list ComponentCard)
           (original_params processed_result : dict json)
           (timestamp1 timestamp2 : string) (self : AgentMemory)
  : AgentMemory :=
  let completion_record :=
    completion_record query components original_params processed_result
                      timestamp1 in
  let normalization_record :=
    normalization_record query components original_params processed_result
                         timestamp2 in
  {| param_patterns := param_patterns self;
     param_completions :=
       enforce_limit (param_completions self ++ [completion_record])%list;
     param_normalizations :=
       enforce_limit (param_normalizations self ++ [normalization_record])%list;
     component_combinations := component_combinations self;
     successful_discoveries := successful_discoveries self;
     generation_patterns := generation_patterns self;
     successful_generations := successful_generations self;
     validation_failures := validation_failures self;
     missing_param_cases := missing_param_cases self |}.
End Recording.

(** [clear]: every list is emptied but [successful_generations], which
    the method does not mention. *)
Definition clear (self : AgentMemory) : AgentMemory :=
  {| param_patterns := []; param_completions := [];
     param_normalizations := []; component_combinations := [];
     successful_discoveries := []; generation_patterns := [];
     successful_generations := successful_generations self;
     validation_failures := []; missing_param_cases := [] |}.
End Memory.

(* ================================================================== *)
(** ** quantum_orchestrator.py: the parallel entry point *)
(* ================================================================== *)

Module QuantumOrchestrator.

(** What a name of the function can hold. *)
Inductive pyobj :=
| PyValue (v : json)
| PyCoroutine (body : M json)
| PyModuleLevel (name : string).

(** The local variables of [generate_quantum_code_parallel] that its
    first statements assign or read.  A slot is empty until the
    function assigns it. *)
Record Locals := {
  task_card : option json;
  discovery_task : option pyobj;
  param_map_task : option pyobj;
  components : option json
}.

(** On entry only the parameters are bound. *)
Definition on_entry : Locals :=
  {| task_card := None; discovery_task := None; param_map_task := None;
     components := None |}.

(** Reading a local variable. *)
Definition load_local {A} (name : string) (slot : option A) : M A :=
  match slot with
  | Some v => ret v
  | None =>
      throw UnboundLocalError
            ("cannot access local variable '" ++ name
             ++ "' where it is not associated with a value")
  end.

(** The names bound at the top level of the module (its imports, its
    class and its function); a name the function never assigns is
    looked up here. *)
Definition module_globals : list string :=
  ["asyncio"; "os"; "Dict"; "Any"; "List"; "Optional"; "OpenAI";
   "AsyncOpenAI"; "load_dotenv"; "SemanticAgent"; "DiscoveryAgent";
   "ParamProcessorAgent"; "PipelineAgent"; "CodegenAgent";
   "create_agent_memory"; "Memory"; "create_cache_manager";
   "QuantumOrchestrator"; "create_engine"].

Definition load_global (name : string) : M pyobj :=
  if mem name module_globals then ret (PyModuleLevel name)
  else throw NameError ("name '" ++ name ++ "' is not defined").

Section Parallel.
Variable ext : External.
Variable semantic_agent : Agent.

(** The coroutine objects made by calling the two [process_async]
    methods (calling an [async def] runs nothing), and the statements
    from the [await asyncio.gather(...)] on, given the locals and the
    two awaitables. *)
Variable discovery_coroutine : json -> list ComponentCard -> M json.
Variable param_coroutine : string -> json -> json -> M json.
Variable remainder : Locals -> pyobj -> pyobj -> M json.

(** The [try] block, started with the given locals. *)
Definition parallel_body (locals : Locals) (query : string)
           (registry_data : list ComponentCard) : M json :=
  (tc <- SemanticAgent.process ext semantic_agent query ;;
   let locals :=
     {| task_card := Some tc; discovery_task := discovery_task locals;
        param_map_task := param_map_task locals;
        components := components locals |} in
   (* discovery_task = self.discovery_agent.process_async(task_card, registry_data) *)
   a1 <- load_local "task_card" (task_card locals) ;;
   let locals :=
     {| task_card := task_card locals;
        discovery_task := Some (PyCoroutine (discovery_coroutine a1 registry_data));
        param_map_task := param_map_task locals;
        components := components locals |} in
   (* param_map_task = self.param_processor_agent.process_async(query, task_card, components) *)
   b1 <- load_local "task_card" (task_card locals) ;;
   b2 <- load_local "components" (components locals) ;;
   let locals :=
     {| task_card := task_card locals;
        discovery_task := discovery_task locals;
        param_map_task := Some (PyCoroutine (param_coroutine query b1 b2));
        components := components locals |} in
   (* asyncio.gather(discovery_task, param_norm_task, return_exceptions=True) *)
   g1 <- load_local "discovery_task" (discovery_task locals) ;;
   g2 <- load_global "param_norm_task" ;;
   remainder locals g1 g2)%py.

Definition run_parallel (locals : Locals) (query : string)
           (registry_data : list ComponentCard) : M json :=
  catch (parallel_body locals query registry_data)
        (fun e => throw RuntimeError
                    ("QuantumOrchestrator并行处理失败: " ++ exn_str e)).

Definition generate_quantum_code_parallel (query : string)
           (registry_data : list ComponentCard) : M json :=
  run_parallel on_entry query registry_data.
End Parallel.
End QuantumOrchestrator.

(* ================================================================== *)
(** ** Notions used in the statements *)
(* ================================================================== *)

(** The non-empty prefixes of a list. *)
Fixpoint prefixes {A} (l : list A) : list (list A) :=
  match l with
  | [] => []
  | x :: l' => [x] :: map (cons x) (prefixes l')
  end.

(** The blocks of consecutive lines of a text: every non-empty run of
    its lines. *)
Fixpoint blocks {A} (l : list A) : list (list A) :=
  match l with
  | [] => []
  | x :: l' => (prefixes l ++ blocks l')%list
  end.

(** A block of lines holds an object: its first line opens with a
    brace, which is the test that starts the line scan of the parser,
    and the text of the block decodes. *)
Definition holds_object (ext : External) (block : list string) : bool :=
  match block with
  | first :: _ =>
      startswith (strip first) "{" && is_ok (json_loads ext (join nl block))
  | [] => false
  end.

(** No block of consecutive lines of [text] holds an object. *)
Definition no_object (ext : External) (text : string) : bool :=
  forallb (fun block => negb (holds_object ext block))
          (blocks (split newline text)).

(** The outcome of a decoding is a mapping. *)
Definition is_mapping (r : result json) : bool :=
  match r with
  | Ok (JObj _) => true
  | _ => false
  end.

(** No block of consecutive lines of [text] decodes to a mapping. *)
Definition no_mapping (ext : External) (text : string) : bool :=
  forallb (fun block => negb (is_mapping (json_loads ext (join nl block))))
          (blocks (split newline text)).

(** The number of opening braces of a line less that of closing ones. *)
Definition brace_balance (line : string) : Z :=
  (count "{" line - count "}" line)%Z.

(** The running balance, started at [balance], returns to zero at the
    last line of [lines] and not before. *)
Fixpoint closes_at (balance : Z) (lines : list string) : bool :=
  match lines with
  | [] => false
  | line :: rest =>
      let balance := (balance + brace_balance line)%Z in
      match rest with
      | [] => (balance =? 0)%Z
      | _ :: _ => negb (balance =? 0)%Z && closes_at balance rest
      end
  end.

(** A line holds no line break. *)
Definition one_line (line : string) : bool := (count newline line =? 0)%Z.

(** The last [n] elements of a list. *)
Definition keep_last {A} (n : nat) (l : list A) : list A :=
  skipn (length l - n) l.

(** The arguments of one call of [record_param_processing], with the
    two readings of the clock. *)
Record Processing := {
  p_query : string;
  p_components : list ComponentCard;
  p_original_params : dict json;
  p_processed_result : dict json;
  p_timestamp1 : string;
  p_timestamp2 : string
}.

Definition record_processing (ext : External) (self : AgentMemory)
           (p : Processing) : AgentMemory :=
  Memory.record_param_processing ext (p_query p) (p_components p)
    (p_original_params p) (p_processed_result p)
    (p_timestamp1 p) (p_timestamp2 p) self.

Definition completion_of (ext : External) (p : Processing) : MemoryRecord :=
  Memory.completion_record ext (p_query p) (p_components p)
    (p_original_params p) (p_processed_result p) (p_timestamp1 p).

Definition normalization_of (p : Processing) : MemoryRecord :=
  Memory.normalization_record (p_query p) (p_components p)
    (p_original_params p) (p_processed_result p) (p_timestamp2 p).

(** The record that [record_success_case] builds from its arguments
    and the reading of the clock. *)
Definition success_case (agent_type : string) (c : json * json * string)
  : MemoryRecord :=
  [("agent_type", JStr agent_type); ("timestamp", JStr (snd c));
   ("input", fst (fst c)); ("output", snd (fst c))].

(** Successive [record_success_case] calls of one agent type, each
    given as input, output and reading of the clock. *)
Definition record_successes (agent_type : string)
           (cases : list (json * json * string)) (self : AgentMemory)
  : AgentMemory :=
  fold_left
    (fun memory c =>
       Memory.record_success_case agent_type (fst (fst c)) (snd (fst c))
                                  (snd c) memory)
    cases self.

(** What the [except] clause of [generate_quantum_code_parallel] makes
    of an error of its body. *)
Definition parallel_failure (e : exn) : result json :=
  Raise (Exn RuntimeError ("QuantumOrchestrator并行处理失败: " ++ exn_str e)).

(** The canonical variable of a role. *)
Definition role_variable (role : string) : option string :=
  Dict.get role CodegenAgent.type_mapping.

(** A name is classified when a component carries it and it holds a
    role keyword. *)
Definition role_in (components : list ComponentCard) (name : string)
  : option string :=
  if mem name (map (fun c => get_or "" (c_name c)) components)
  then CodegenAgent.classify name else None.

(** A name is classified; it is classified with a role other than
    algorithm. *)
Definition classified (components : list ComponentCard) (name : string) : bool :=
  match role_in components name with Some _ => true | None => false end.

Definition supporting (components : list ComponentCard) (name : string) : bool :=
  match role_in components name with
  | Some role => negb (String.eqb role "algorithm")
  | None => false
  end.

(** An entry of a binding belongs to a component other than an
    algorithm. *)
Definition is_supporting_entry (d : Dependency) : bool :=
  negb (String.eqb (dep_type d) "algorithm").

(** An entry names a classified component, with its role and the
    canonical variable of that role. *)
Definition canonical_entry (components : list ComponentCard) (d : Dependency)
  : Prop :=
  role_in components (dep_name d) = Some (dep_type d)
  /\ role_variable (dep_type d) = Some (dep_variable d).

(** Induction on decoded values, through their items and members. *)
Section JsonInduction.
Variable P : json -> Prop.
Hypothesis HNull : P JNull.
Hypothesis HBool : forall b, P (JBool b).
Hypothesis HInt : forall z, P (JInt z).
Hypothesis HFloat : forall s, P (JFloat s).
Hypothesis HStr : forall s, P (JStr s).
Hypothesis HArr : forall items, Forall P items -> P (JArr items).
Hypothesis HObj :
  forall fields, Forall (fun kv => P (snd kv)) fields -> P (JObj fields).

Fixpoint json_induction (j : json) : P j :=
  match j with
  | JNull => HNull
  | JBool b => HBool b
  | JInt z => HInt z
  | JFloat s => HFloat s
  | JStr s => HStr s
  | JArr items =>
      HArr items
           ((fix all (l : list json) : Forall P l :=
               match l with
               | [] => Forall_nil _
               | x :: l' => Forall_cons x (json_induction x) (all l')
               end) items)
  | JObj fields =>
      HObj fields
           ((fix all (l : dict json) : Forall (fun kv => P (snd kv)) l :=
               match l with
               | [] => Forall_nil _
               | kv :: l' => Forall_cons kv (json_induction (snd kv)) (all l')
               end) fields)
  end.
End JsonInduction.

(* ================================================================== *)
(** ** Concrete inputs *)
(* ================================================================== *)

Module Examples.

(** Python's library functions on ASCII data, around a given service.
    The text [json.dumps] prints only reaches the service; values are
    compared as they are written. *)
Definition python (chat : nat -> string -> string -> result string)
  : External :=
  {| json_loads := JsonDecoder.json_loads;
     json_dumps := fun _ _ => "";
     json_dumps_indent2 := fun _ _ => "";
     lower := ascii_lower;
     py_equal := json_eqb;
     chat := chat |}.

(** A service that always replies [text]. *)
Definition always (text : string) : nat -> string -> string -> result string :=
  fun _ _ _ => Ok text.

Definition silent : External :=
  python (fun _ _ _ => Raise (Exn RuntimeError "connection refused")).

Definition agent (retries : Z) : Agent :=
  {| max_retries := retries; prompt := "Output JSON only.";
     has_async_client := true |}.

(** The object [{"a": 1}] and its text. *)
Definition object_text : string := "{" ++ dq ++ "a" ++ dq ++ ": 1}".
Definition object_value : json := JObj [("a", JInt 1)].

(** A reply with the object on lines of its own, between prose. *)
Definition framed_lines : list string :=
  ["Here is the plan:"; "{"; "  " ++ dq ++ "a" ++ dq ++ ": 1"; "}";
   "Let me know if it helps."].

(** A service whose second reply is the framed object, the others
    being prose. *)
Definition second_time : nat -> string -> string -> result string :=
  fun n _ _ =>
    if Nat.eqb n 1 then Ok (join nl framed_lines)
    else Ok "I cannot answer that.".

Definition task : TaskCard :=
  {| t_domain := Some "spin.tfim"; t_algorithm := Some "vqe";
     t_other := [("problem", JStr "ground state"); ("backend", JStr "qiskit");
                 ("params", JObj [("n", JInt 8)])] |}.

Definition card (name kind : string) : ComponentCard :=
  {| c_name := Some name; c_kind := Some kind; c_tags := Some [];
     c_params_schema := Some []; c_other := [] |}.

Definition plan (order : list string) : PipelinePlan :=
  {| execution_order := Some order |}.

(** A schema with a described parameter and a scalar one. *)
Definition schema : dict json :=
  [("n", JObj [("type", JStr "int"); ("description", JStr "number of sites");
               ("default", JInt 4)]);
   ("boundary", JStr "periodic")].

Definition processing (i : nat) : Processing :=
  {| p_query := "ising chain"; p_components := [card "TFIMHamiltonian" "hamiltonian"];
     p_original_params := [("n", JInt (Z.of_nat i))];
     p_processed_result := [("normalized_params", JObj [("n", JInt (Z.of_nat i))])];
     p_timestamp1 := "2025-01-01T00:00:00"; p_timestamp2 := "2025-01-01T00:00:00" |}.

(** [n] successive [record_success_case] calls of the discovery
    stage, the [i]-th on input [i]. *)
Definition discoveries (n : nat) : AgentMemory :=
  fold_left
    (fun m i => Memory.record_success_case "DiscoveryAgent" (JInt (Z.of_nat i))
                                           JNull "2025-01-01T00:00:00" m)
    (seq 0 n) Memory.init.

End Examples.

(** The text made of the given pieces, one after the other. *)
Definition glue (pieces : list string) : string :=
  fold_right String.append "" pieces.

(** A text is whitespace-only when it is made of whitespace code points
    (the empty text is). *)
Definition whitespace_only (s : string) : Prop :=
  exists pieces, Forall (fun w => In w whitespace) pieces /\ s = glue pieces.

(** The direct decoding of a text fails with a [JSONDecodeError]. *)
Definition decode_error (ext : External) (text : string) : bool :=
  match json_loads ext text with
  | Ok _ => false
  | Raise e => exn_class_eqb (exn_cls e) JSONDecodeError
  end.

(* ================================================================== *)
(** ** agent_memory.py: the lookups *)
(* ================================================================== *)

Module Recall.

(** [d[key]] on a record. *)
Definition item (d : dict json) (key : string) : result json :=
  match Dict.get key d with
  | Some v => Ok v
  | None => Raise (Exn KeyError ("'" ++ key ++ "'"))
  end.

(** [v == s] for a string [s]: only the same string is equal to it. *)
Definition eq_str (v : json) (s : string) : bool :=
  match v with
  | JStr t => String.eqb t s
  | _ => false
  end.

(** The number of bytes of the code point that starts with byte [b]. *)
Definition width (b : ascii) : nat :=
  let n := nat_of_ascii b in
  if Nat.ltb n 192 then 1 else if Nat.ltb n 224 then 2
  else if Nat.ltb n 240 then 3 else 4.

Fixpoint take (n : nat) (s : string) : string :=
  match n, s with
  | S n', String c s' => String c (take n' s')
  | _, _ => EmptyString
  end.

(** The characters of a text. *)
Fixpoint chars_with (fuel : nat) (s : string) : list string :=
  match fuel, s with
  | S fuel', String c _ =>
      take (width c) s :: chars_with fuel' (drop (width c) s)
  | _, _ => []
  end.

Definition chars (s : string) : list string := chars_with (String.length s) s.

(** [set(v)]: the members of an iterable, which must be hashable. *)
Definition py_set (v : json) : result (list json) :=
  match v with
  | JArr l =>
      match find (fun e => match e with JArr _ | JObj _ => true | _ => false end) l with
      | Some e => Raise (Exn TypeError ("unhashable type: '" ++ type_name e ++ "'"))
      | None => Ok l
      end
  | JObj d => Ok (map JStr (Dict.keys d))
  | JStr s => Ok (map JStr (chars s))
  | _ => Raise (Exn TypeError ("'" ++ type_name v ++ "' object is not iterable"))
  end.

(** [set(members) == set(strs)] for a list of strings [strs]. *)
Definition same_set (members : list json) (strs : list string) : bool :=
  forallb (fun e => match e with JStr t => mem t strs | _ => false end) members
  && forallb (fun s => existsb (fun e => eq_str e s) members) strs.

Section Lookups.
Variable ext : External.

(** Python's [==] on two decoded values. *)
Variable py_eq : json -> json -> bool.

(** The loop of [_find_similar_discovery]. *)
Fixpoint similar_discovery (input_data : json) (discoveries : list MemoryRecord)
  : result json :=
  match discoveries with
  | [] => Ok JNull
  | discovery :: rest =>
      match item discovery "input" with
      | Raise e => Raise e
      | Ok recorded =>
          match py_get recorded "domain" JNull with
          | Raise e => Raise e
          | Ok a =>
              match py_get input_data "domain" JNull with
              | Raise e => Raise e
              | Ok b =>
                  if py_eq a b then item discovery "output"
                  else similar_discovery input_data rest
              end
          end
      end
  end.

Definition _find_similar_discovery (input_data : json) (self : AgentMemory)
  : result json :=
  similar_discovery input_data (successful_discoveries self).

(** The loop of [_find_similar_param_norm]. *)
Fixpoint similar_param_norm (input_data : json) (norms : list MemoryRecord)
  : result json :=
  match norms with
  | [] => Ok JNull
  | norm :: rest =>
      match item norm "domain" with
      | Raise e => Raise e
      | Ok d =>
          match py_get input_data "domain" JNull with
          | Raise e => Raise e
          | Ok d' =>
              if py_eq d d' then
                match item norm "algorithm" with
                | Raise e => Raise e
                | Ok a =>
                    match py_get input_data "algorithm" JNull with
                    | Raise e => Raise e
                    | Ok a' =>
                        if py_eq a a' then item norm "output"
                        else similar_param_norm input_data rest
                    end
                end
              else similar_param_norm input_data rest
          end
      end
  end.

Definition _find_similar_param_norm (input_data : json) (self : AgentMemory)
  : result json :=
  similar_param_norm input_data (param_normalizations self).

(** The loop of [_find_similar_generation]. *)
Fixpoint similar_generation (input_data : json) (generations : list MemoryRecord)
  : result json :=
  match generations with
  | [] => Ok JNull
  | generation :: rest =>
      match item generation "input" with
      | Raise e => Raise e
      | Ok recorded =>
          if py_eq recorded input_data then item generation "output"
          else similar_generation input_data rest
      end
  end.

Definition _find_similar_generation (input_data : json) (self : AgentMemory)
  : result json :=
  similar_generation input_data (successful_generations self).

(** [find_similar_case]: [None] is [JNull]. *)
Definition find_similar_case (agent_type : string) (input_data : json)
           (self : AgentMemory) : result json :=
  if String.eqb agent_type "DiscoveryAgent"
  then _find_similar_discovery input_data self
  else if String.eqb agent_type "ParamNormAgent"
  then _find_similar_param_norm input_data self
  else if String.eqb agent_type "CodegenAgent"
  then _find_similar_generation input_data self
  else Ok JNull.

(** The loop of [find_param_completion_pattern]. *)
Fixpoint completion_pattern (query_type : string) (component_types : list string)
         (patterns : list MemoryRecord) : result (option MemoryRecord) :=
  match patterns with
  | [] => Ok None
  | pattern :: rest =>
      match item pattern "query_type" with
      | Raise e => Raise e
      | Ok qt =>
          if eq_str qt query_type then
            match item pattern "component_types" with
            | Raise e => Raise e
            | Ok ct =>
                match py_set ct with
                | Raise e => Raise e
                | Ok members =>
                    if same_set members component_types then Ok (Some pattern)
                    else completion_pattern query_type component_types rest
                end
            end
          else completion_pattern query_type component_types rest
      end
  end.

Definition find_param_completion_pattern (query : string)
           (components : list ComponentCard) (self : AgentMemory)
  : result (option MemoryRecord) :=
  let query_type := Memory._extract_query_type ext query in
  let component_types := map (fun comp => get_or "" (c_kind comp)) components in
  completion_pattern query_type component_types (param_completions self).

(** The second loop of [find_param_processing_pattern]. *)
Fixpoint normalization_by_kinds (component_types : list string)
         (patterns : list MemoryRecord) : result (option MemoryRecord) :=
  match patterns with
  | [] => Ok None
  | pattern :: rest =>
      match py_set (get_or (JArr []) (Dict.get "component_types" pattern)) with
      | Raise e => Raise e
      | Ok members =>
          if same_set members component_types then Ok (Some pattern)
          else normalization_by_kinds component_types rest
      end
  end.

Definition find_param_processing_pattern (query : string)
           (components : list ComponentCard) (self : AgentMemory)
  : result (option MemoryRecord) :=
  match find_param_completion_pattern query components self with
  | Raise e => Raise e
  | Ok completion_pattern =>
      (* [if completion_pattern:] holds for a record that is not empty *)
      match completion_pattern with
      | Some ((_ :: _) as found) => Ok (Some found)
      | _ =>
          let component_types :=
            map (fun comp => get_or "" (c_kind comp)) components in
          normalization_by_kinds component_types (param_normalizations self)
      end
  end.

(** The loop of [find_param_normalization_pattern]. *)
Fixpoint normalization_pattern (domain algorithm : string)
         (patterns : list MemoryRecord) : result (option MemoryRecord) :=
  match patterns with
  | [] => Ok None
  | pattern :: rest =>
      match item pattern "domain" with
      | Raise e => Raise e
      | Ok d =>
          if eq_str d domain then
            match item pattern "algorithm" with
            | Raise e => Raise e
            | Ok a =>
                if eq_str a algorithm then Ok (Some pattern)
                else normalization_pattern domain algorithm rest
            end
          else normalization_pattern domain algorithm rest
      end
  end.

Definition find_param_normalization_pattern (task_card : TaskCard)
           (self : AgentMemory) : result (option MemoryRecord) :=
  normalization_pattern (get_or "" (t_domain task_card))
                        (get_or "" (t_algorithm task_card))
                        (param_normalizations self).

End Lookups.

(** [get_memory_stats] *)
Definition get_memory_stats (self : AgentMemory) : dict nat :=
  [("param_patterns", length (param_patterns self));
   ("param_completions", length (param_completions self));
   ("param_normalizations", length (param_normalizations self));
   ("component_combinations", length (component_combinations self));
   ("successful_discoveries", length (successful_discoveries self));
   ("generation_patterns", length (generation_patterns self));
   ("validation_failures", length (validation_failures self));
   ("missing_param_cases", length (missing_param_cases self))].

End Recall.

(** ** base_agent.py: [AgentWithMemory] *)

Module AgentWithMemory.

(** [_record_success] of an agent whose class is called [class_name],
    with the memory it was given, if any. *)
Definition _record_success (class_name : string)
           (agent_memory : option AgentMemory) (input_data output_data : json)
           (timestamp : string) : option AgentMemory :=
  match agent_memory with
  | Some memory =>
      Some (Memory.record_success_case class_name input_data output_data
                                       timestamp memory)
  | None => None
  end.

(** [_find_similar_case] *)
Definition _find_similar_case (py_eq : json -> json -> bool)
           (class_name : string) (agent_memory : option AgentMemory)
           (input_data : json) : result json :=
  match agent_memory with
  | Some memory => Recall.find_similar_case py_eq class_name input_data memory
  | None => Ok JNull
  end.

End AgentWithMemory.

(** The methods that change a memory, as operations on it. *)
Inductive MemoryOp :=
| SuccessCase (agent_type : string) (input_data output_data : json)
              (timestamp : string)
| ParamCompletion (query : string) (components : list ComponentCard)
                  (original_params completed_params : dict json)
                  (timestamp : string)
| ParamNormalization (task_card : TaskCard) (param_map : dict json)
                     (timestamp : string)
| ComponentSuccess (task_card : TaskCard) (components : list ComponentCard)
                   (timestamp : string)
| MissingParams (missing_params : list string) (components : list ComponentCard)
                (context timestamp : string)
| ParamProcessing (p : Processing)
| ClearAll.

Definition apply_op (ext : External) (self : AgentMemory) (op : MemoryOp)
  : AgentMemory :=
  match op with
  | SuccessCase t i o ts => Memory.record_success_case t i o ts self
  | ParamCompletion q cs o c ts => Memory.record_param_completion ext q cs o c ts self
  | ParamNormalization tc pm ts => Memory.record_param_normalization tc pm ts self
  | ComponentSuccess tc cs ts => Memory.record_component_success tc cs ts self
  | MissingParams m cs c ts => Memory.record_missing_params m cs c ts self
  | ParamProcessing p => record_processing ext self p
  | ClearAll => Memory.clear self
  end.

(** The memory after a sequence of operations, from the initial one. *)
Definition recorded (ext : External) (ops : list MemoryOp) : AgentMemory :=
  fold_left (apply_op ext) ops Memory.init.

(** A record of [param_normalizations] cannot answer a lookup by domain
    that returns its output: it has no domain, or it has no output. *)
Definition unanswerable (r : MemoryRecord) : Prop :=
  Dict.get "domain" r = None \/ Dict.get "output" r = None.

(** A record of [param_completions] as the recording methods build
    them: a query type and a list of kinds. *)
Definition completion_shaped (r : MemoryRecord) : Prop :=
  exists query_type kinds,
    Dict.get "query_type" r = Some (JStr query_type)
    /\ Dict.get "component_types" r = Some (Memory.strs kinds).
(** A record matches a query type and a list of kinds. *)
Definition answers (query_type : string) (kinds : list string)
           (r : MemoryRecord) : Prop :=
  exists ks,
    Dict.get "query_type" r = Some (JStr query_type)
    /\ Dict.get "component_types" r = Some (Memory.strs ks)
    /\ incl ks kinds /\ incl kinds ks.


(* ================================================================== *)
(** ** The retry loops, pipeline_agent.py and the generation stage *)
(* ================================================================== *)

(** The shape the four retry loops of the agents share: run [body]; on
    an exception stop with [final] at the last index of
    [range(max_retries)], else sleep and go on. *)
Fixpoint attempt_loop (body : M json) (final : exn -> string) (limit : Z)
         (attempts : list Z) : M json :=
  match attempts with
  | [] => ret JNull
  | attempt :: rest =>
      catch body (fun e =>
        if (attempt =? limit - 1)%Z
        then throw RuntimeError (final e)
        else (sleep_half_second ;;; attempt_loop body final limit rest)%py)
  end.

Module PipelineAgent.

(** [_validate_pipeline_plan]: the three keys are looked for, nothing
    else. *)
Definition _validate_pipeline_plan (data : json) : result bool :=
  match first_missing_field ["execution_order"; "dependency_graph"; "conflicts"]
                            data with
  | Raise e => Raise e
  | Ok (Some _) => Ok false
  | Ok None => Ok true
  end.

Section Process.
Variable ext : External.
Variable self : Agent.

Definition user_message_of (task_card : json) (components : json)
           (param_map : json) : string :=
  nl ++ "TaskCard: " ++ json_dumps ext _ task_card ++ nl ++ nl
  ++ "ComponentCards: " ++ json_dumps ext _ components ++ nl ++ nl
  ++ "ParamMap: " ++ json_dumps ext _ param_map ++ nl
  ++ "Please generate a linear execution pipeline plan based on component needs/provides dependencies.".

Definition process (task_card components param_map : json) : M json :=
  let user_message := user_message_of task_card components param_map in
  catch
    (result <- _call_with_retry ext self user_message "PipelineAgent" ;;
     ok <- lift (_validate_pipeline_plan result) ;;
     if ok : bool then ret result
     else throw ValueError "PipelinePlan格式验证失败")%py
    (fun e => throw RuntimeError ("PipelineAgent处理失败: " ++ exn_str e)).
End Process.
End PipelineAgent.

(** The generation stage of codegen_agent.py: [CodegenAgent.process] and
    the [_call_with_retry] it overrides. *)
Module Generation.

(** The cleaning of a reply that is source code. *)
Definition clean_python (response : string) : string :=
  let cleaned_response := strip response in
  if startswith cleaned_response "```python"
  then strip (replace (replace cleaned_response "```python" "") "```" "")
  else cleaned_response.

Section Process.
Variable ext : External.
Variable self : Agent.

(** The loop of the overriding [_call_with_retry]: the reply is cleaned,
    not parsed. *)
Fixpoint retry_loop (user_message agent_name : string) (attempts : list Z)
  : M json :=
  match attempts with
  | [] => ret JNull
  | attempt :: rest =>
      catch
        (response <- _call_openai ext (prompt self) user_message agent_name ;;
         ret (JStr (clean_python response)))%py
        (fun e =>
           if (attempt =? max_retries self - 1)%Z
           then throw RuntimeError
                  (agent_name ++ " failed after " ++ decimal (max_retries self)
                   ++ " retries: " ++ exn_str e)
           else (sleep_half_second ;;; retry_loop user_message agent_name rest)%py)
  end.

Definition _call_with_retry (user_message agent_name : string) : M json :=
  retry_loop user_message agent_name (range (max_retries self)).

(** The key under which [process] looks a case up, and the one under
    which it records a success. *)
Definition lookup_key (components : list ComponentCard) (param_map : dict json)
  : json :=
  JObj [("components", Memory.names_of components);
        ("algorithm", get_or JNull (Dict.get "algorithm" param_map))].

Definition record_key (components : list ComponentCard) (param_map : dict json)
  : result json :=
  match py_get (get_or (JObj []) (Dict.get "normalized_params" param_map))
               "algorithm" JNull with
  | Raise e => Raise e
  | Ok algorithm =>
      Ok (JObj [("components", Memory.names_of components);
                ("algorithm", algorithm)])
  end.

Definition user_message_of (pipeline_plan : PipelinePlan)
           (components : list ComponentCard) (param_map : dict json)
           (helper_sources : dict string) (component_imports : list string)
  : string :=
  let component_dependencies :=
    CodegenAgent._analyze_component_dependencies ext components pipeline_plan in
  nl ++ "PipelinePlan: " ++ json_dumps ext _ pipeline_plan ++ nl ++ nl
  ++ "ComponentCards: " ++ json_dumps ext _ components ++ nl ++ nl
  ++ "ParamMap: " ++ json_dumps ext _ param_map ++ nl ++ nl
  ++ "HelperSources:" ++ nl ++ json_dumps ext _ helper_sources ++ nl ++ nl
  ++ "ComponentImports: " ++ json_dumps ext _ component_imports ++ nl ++ nl
  ++ "ComponentDependencies: " ++ json_dumps ext _ component_dependencies
  ++ nl ++ nl
  ++ "Please generate complete Python source code following the execution order."
  ++ nl
  ++ "CRITICAL: Algorithm components must use ALL previously created component instances."
  ++ nl
  ++ "Use ComponentDependencies to ensure correct component usage patterns."
  ++ nl
  ++ "Copy complete helper function implementations from HelperSources.".

(** The outcome of [process]: what it returns or raises, the events,
    and the memory of the agent afterwards.  [timestamp] is the reading
    of the clock when a success is recorded.  The lookup in the memory,
    the analysis of the plan and the message come before the [try]:
    what the lookup raises is passed on as it is; on a plan and
    components of the data model the analysis raises nothing, and what
    it raises on others is not part of this definition. *)
Definition process (py_eq : json -> json -> bool)
           (agent_memory : option AgentMemory) (timestamp : string)
           (pipeline_plan : PipelinePlan) (components : list ComponentCard)
           (param_map : dict json) (helper_sources : dict string)
           (component_imports : list string) (tr : list event)
  : result string * list event * option AgentMemory :=
  match AgentWithMemory._find_similar_case
          py_eq "CodegenAgent" agent_memory (lookup_key components param_map) with
  | Raise e => (Raise e, tr, agent_memory)
  | Ok _ =>
      let user_message :=
        user_message_of pipeline_plan components param_map helper_sources
                        component_imports in
      let failed (e : exn) :=
        Raise (Exn RuntimeError ("CodegenAgent处理失败: " ++ exn_str e)) in
      match _call_with_retry user_message "CodegenAgent" tr with
      | (Raise e, tr') => (failed e, tr', agent_memory)
      | (Ok result, tr') =>
          match result with
          | JStr code =>
              if negb (String.eqb (strip code) "") then
                match agent_memory with
                | None => (Ok code, tr', None)
                | Some _ =>
                    match record_key components param_map with
                    | Raise e => (failed e, tr', agent_memory)
                    | Ok key =>
                        (Ok code, tr',
                         AgentWithMemory._record_success
                           "CodegenAgent" agent_memory key
                           (JObj [("code", JStr code)]) timestamp)
                    end
                end
              else
                (failed (Exn ValueError "CodegenAgent返回的格式不正确"), tr',
                 agent_memory)
          | _ =>
              (failed (Exn ValueError "CodegenAgent返回的格式不正确"), tr',
               agent_memory)
          end
      end
  end.
End Process.
End Generation.

(** The try blocks of the two asynchronous stages. *)
Definition discovery_async_body (ext : External) (self : Agent)
           (user_message : string) : M json :=
  (response <- _call_openai_async ext self (prompt self) user_message
                                  "DiscoveryAgent" ;;
   parsed_data <- lift (_parse_json_with_retry ext response "DiscoveryAgent") ;;
   if _validate_component_cards parsed_data then ret parsed_data
   else throw ValueError "ComponentCards格式验证失败")%py.

Definition param_async_body (ext : External) (self : Agent)
           (user_message : string) (required_schema : dict json) : M json :=
  (response <- _call_openai_async ext self (prompt self) user_message
                                  "ParamProcessorAgent" ;;
   parsed_data <- lift (_parse_json_with_retry ext response
                                               "ParamProcessorAgent") ;;
   validation_result <- lift (_validate_param_map parsed_data required_schema) ;;
   if valid validation_result then ret parsed_data
   else throw ValueError
          ("ParamMap验证失败: 缺失参数 " ++ repr_list (missing validation_result)))%py.

(** [n] pauses in a row. *)
Definition pauses (n : nat) : list event := repeat (Sleep 500) n.

(** The try block of the generator's own [_call_with_retry]. *)
Definition generation_body (ext : External) (self : Agent)
           (user_message agent_name : string) : M json :=
  (response <- _call_openai ext (prompt self) user_message agent_name ;;
   ret (JStr (Generation.clean_python response)))%py.

(** [v] is what the parser makes of a reply of the service to
    [user_message]. *)
Definition decoded_reply (ext : External) (self : Agent)
           (user_message agent_name : string) (v : json) : Prop :=
  exists n content,
    chat ext n (prompt self) user_message = Ok content
    /\ _parse_json_with_retry ext (strip content) agent_name = Ok v.

(** A [RuntimeError] whose message starts with [prefix]. *)
Definition stage_failure {A} (prefix : string) (r : result A) : Prop :=
  exists msg, r = Raise (Exn RuntimeError (prefix ++ msg)).

(** An agent built without an asynchronous client. *)
Definition sync_only_agent (retries : Z) : Agent :=
  {| max_retries := retries; prompt := "Output JSON only.";
     has_async_client := false |}.

(** A record of [successful_generations] as [record_success_case]
    builds it: it has an input and an output. *)
Definition case_shaped (r : MemoryRecord) : Prop :=
  exists input_data output_data,
    Dict.get "input" r = Some input_data
    /\ Dict.get "output" r = Some output_data.

(** A memory the agent can have been given: none, or one built by the
    recording methods from an empty one. *)
Definition given_memory (ext : External) (ops : option (list MemoryOp))
  : option AgentMemory :=
  match ops with
  | Some ops => Some (recorded ext ops)
  | None => None
  end.
(* ================================================================== *)
(** ** Notions the further statements use *)
(* ================================================================== *)

(** The domains a task card may name. *)
Definition valid_domains : list string :=
  ["spin"; "spin.tfim"; "spin.heisenberg"; "spin.ising";
   "chemistry.molecular"; "optimization"; "custom"].

(** A decoded value that is a well-formed task card: a mapping with
    the five keys, a domain of the list and the backend the generator
    targets. *)
Definition well_formed_task_card (v : json) : Prop :=
  exists fields domain,
    v = JObj fields
    /\ Forall (fun field => Dict.has field fields = true)
              ["domain"; "problem"; "algorithm"; "backend"; "params"]
    /\ Dict.get "domain" fields = Some (JStr domain)
    /\ mem domain valid_domains = true
    /\ Dict.get "backend" fields = Some (JStr "qiskit").

(** The relevance test of the first loop of the filter. *)
Definition relevant (ext : External) (task_card : TaskCard)
           (component : ComponentCard) : bool :=
  (2 <=? relevance_score ext (lower ext (get_or "" (t_domain task_card)))
                         (lower ext (get_or "" (t_algorithm task_card)))
                         component)%Z.

(** A text between double quotes. *)
Definition quoted (s : string) : string := dq ++ s ++ dq.

(** The text of a task card, as a service may reply it. *)
Definition task_card_text : string :=
  "{" ++ quoted "domain" ++ ": " ++ quoted "spin.tfim" ++ ", "
  ++ quoted "problem" ++ ": " ++ quoted "ground state" ++ ", "
  ++ quoted "algorithm" ++ ": " ++ quoted "vqe" ++ ", "
  ++ quoted "backend" ++ ": " ++ quoted "qiskit" ++ ", "
  ++ quoted "params" ++ ": {}}".

Definition task_card_value : json :=
  JObj [("domain", JStr "spin.tfim"); ("problem", JStr "ground state");
        ("algorithm", JStr "vqe"); ("backend", JStr "qiskit");
        ("params", JObj [])].

(** A reply inside a code fence: three backticks and a language tag,
    the body, three backticks. *)
Definition fenced (language body : string) : string :=
  "```" ++ language ++ body ++ "```".

(** A text holds no backtick. *)
Definition backtick_free (s : string) : Prop := count "`"%char s = 0%Z.
(* ================================================================== *)
(** ** optimizer_registry.py *)
(* ================================================================== *)

Module OptimizerRegistry.

(** The description of one parameter of an optimizer.  The default is
    a value, [None] being [JNull]; it is read with [.get], so a missing
    default is [None] too. *)
Record ParamInfo := {
  p_type : string;
  p_default : json;
  p_description : string
}.

(** An entry of the registry, in the format of [OPTIMIZER_REGISTRY]. *)
Record OptimizerConfig := {
  module_path : string;
  class_name : string;
  tags : list string;
  description : string;
  params : dict ParamInfo;
  supports_bounds : bool;
  supports_constraints : bool
}.

Definition param (type_ : string) (default : json) (description_ : string)
  : ParamInfo :=
  {| p_type := type_; p_default := default; p_description := description_ |}.

(** The module-level registry as the file defines it.  A float keeps
    the text of its literal. *)
Definition OPTIMIZER_REGISTRY : dict OptimizerConfig :=
  [("COBYLA",
    {| module_path := "qiskit_algorithms.optimizers"; class_name := "COBYLA";
       tags := ["gradient_free"; "classical"; "derivative_free"];
       description := "Constrained Optimization BY Linear Approximation";
       params :=
         [("maxiter", param "int" (JInt 1000) "Maximum iterations");
          ("rhobeg", param "float" (JFloat "1.0") "Initial trust region radius");
          ("rhoend", param "float" (JFloat "1e-4") "Final trust region radius");
          ("disp", param "bool" (JBool false) "Display convergence info")];
       supports_bounds := false; supports_constraints := true |});
   ("L_BFGS_B",
    {| module_path := "qiskit_algorithms.optimizers"; class_name := "L_BFGS_B";
       tags := ["gradient_based"; "classical"; "quasi_newton"];
       description := "L-BFGS-B optimizer for bounded optimization";
       params :=
         [("maxiter", param "int" (JInt 1000) "Maximum iterations");
          ("ftol", param "float" (JFloat "1e-9") "Function tolerance");
          ("gtol", param "float" (JFloat "1e-5") "Gradient tolerance");
          ("eps", param "float" (JFloat "1e-8")
                        "Step size for gradient approximation")];
       supports_bounds := true; supports_constraints := false |});
   ("SPSA",
    {| module_path := "qiskit_algorithms.optimizers"; class_name := "SPSA";
       tags := ["stochastic"; "gradient_free"; "simultaneous_perturbation"];
       description := "Simultaneous Perturbation Stochastic Approximation";
       params :=
         [("maxiter", param "int" (JInt 1000) "Maximum iterations");
          ("learning_rate", param "float" JNull "Learning rate");
          ("perturbation", param "float" JNull "Perturbation factor");
          ("resamplings", param "int" (JInt 1) "Number of resamplings")];
       supports_bounds := false; supports_constraints := false |});
   ("SLSQP",
    {| module_path := "qiskit_algorithms.optimizers"; class_name := "SLSQP";
       tags := ["gradient_based"; "classical"; "sequential"];
       description := "Sequential Least SQuares Programming";
       params :=
         [("maxiter", param "int" (JInt 100) "Maximum iterations");
          ("ftol", param "float" (JFloat "1e-9") "Function tolerance");
          ("eps", param "float" (JFloat "1.49e-8")
                        "Step size for gradient approximation")];
       supports_bounds := true; supports_constraints := true |});
   ("POWELL",
    {| module_path := "qiskit_algorithms.optimizers"; class_name := "POWELL";
       tags := ["gradient_free"; "classical"; "powell_method"];
       description := "Powell's conjugate direction method";
       params :=
         [("maxiter", param "int" (JInt 1000) "Maximum iterations");
          ("maxfev", param "int" JNull "Maximum function evaluations");
          ("xtol", param "float" (JFloat "1e-4") "Relative tolerance");
          ("ftol", param "float" (JFloat "1e-4") "Relative function tolerance")];
       supports_bounds := true; supports_constraints := false |});
   ("TNC",
    {| module_path := "qiskit_algorithms.optimizers"; class_name := "TNC";
       tags := ["gradient_based"; "classical"; "truncated_newton"];
       description := "Truncated Newton method for bounded optimization";
       params :=
         [("maxiter", param "int" (JInt 100) "Maximum iterations");
          ("ftol", param "float" (JInt (-1)) "Function tolerance");
          ("xtol", param "float" (JInt (-1)) "Parameter tolerance");
          ("gtol", param "float" (JInt (-1)) "Gradient tolerance")];
       supports_bounds := true; supports_constraints := false |})].

(** [x is not None] *)
Definition is_not_none (v : json) : bool :=
  match v with JNull => false | _ => true end.

(** The entry [_build_params_schema] makes of one parameter. *)
Definition schema_entry (param_info : ParamInfo) : json :=
  let entry := [("type", JStr (p_type param_info));
                ("description", JStr (p_description param_info))] in
  if is_not_none (p_default param_info)
  then JObj (Dict.set "default" (p_default param_info) entry)
  else JObj entry.

(** [_build_params_schema] *)
Definition _build_params_schema (params_config : dict ParamInfo) : dict json :=
  fold_left
    (fun schema kv => Dict.set (fst kv) (schema_entry (snd kv)) schema)
    params_config [].

Section Generated.
Variable ext : External.

(** The component card made of one entry of the registry. *)
Definition component_of (optimizer_name : string) (config : OptimizerConfig)
  : json :=
  JObj
    [("name", JStr ("Optimizer." ++ optimizer_name));
     ("kind", JStr "optimizer");
     ("tags", JArr (map JStr (tags config ++ ["optimizer"])%list));
     ("needs", JArr []);
     ("provides", JArr [JStr "optimizer"]);
     ("params_schema", JObj (_build_params_schema (params config)));
     ("yields",
      JObj [("optimizer", JStr (optimizer_name ++ " optimizer instance"))]);
     ("codegen_hint",
      JObj [("helper",
             JStr ("create_" ++ lower ext optimizer_name ++ "_optimizer"));
            ("import",
             JStr ("from " ++ module_path config ++ " import "
                   ++ class_name config))]);
     ("metadata",
      JObj [("description", JStr (description config));
            ("supports_bounds", JBool (supports_bounds config));
            ("supports_constraints", JBool (supports_constraints config))])].

(** [generate_optimizer_components], on the registry as it stands. *)
Definition generate_optimizer_components (registry : dict OptimizerConfig)
  : list json :=
  map (fun entry => component_of (fst entry) (snd entry)) registry.
End Generated.

(** The loop of [create_optimizer_factory] that builds [final_params]:
    the arguments the optimizer class is called with. *)
Definition final_params (config : OptimizerConfig) (kwargs : dict json)
  : dict json :=
  fold_left
    (fun final_params kv =>
       let param_name := fst kv in
       let param_config := snd kv in
       match Dict.get param_name kwargs with
       | Some value => Dict.set param_name value final_params
       | None =>
           if is_not_none (p_default param_config)
           then Dict.set param_name (p_default param_config) final_params
           else final_params
       end)
    (params config) [].

(** [create_optimizer_factory] up to the call of the class: the name
    is looked up, and the class of the entry is called with
    [final_params].  ([import_class] is [importlib.import_module]
    followed by [getattr].) *)
Definition factory_call (registry : dict OptimizerConfig)
           (optimizer_name : string) (kwargs : dict json)
  : result (string * string * dict json) :=
  match Dict.get optimizer_name registry with
  | None => Raise (Exn ValueError ("不支持的optimizer: " ++ optimizer_name))
  | Some config =>
      Ok (module_path config, class_name config, final_params config kwargs)
  end.

(** [get_available_optimizers] *)
Definition get_available_optimizers (registry : dict OptimizerConfig)
  : list string := Dict.keys registry.

(** [get_optimizer_info] *)
Definition get_optimizer_info (registry : dict OptimizerConfig)
           (optimizer_name : string) : option OptimizerConfig :=
  Dict.get optimizer_name registry.

(** [get_optimizers_by_tag] *)
Definition get_optimizers_by_tag (registry : dict OptimizerConfig)
           (tag : string) : list string :=
  map fst (filter (fun entry => mem tag (tags (snd entry))) registry).

(** [register_optimizer]: the registry afterwards. *)
Definition register_optimizer (name : string) (config : OptimizerConfig)
           (registry : dict OptimizerConfig) : dict OptimizerConfig :=
  Dict.set name config registry.

End OptimizerRegistry.

(** A parameter of a configuration has no usable default. *)
Definition without_default (param_info : OptimizerRegistry.ParamInfo) : bool :=
  negb (OptimizerRegistry.is_not_none (OptimizerRegistry.p_default param_info)).

(** The keys of a mapping are distinct. *)
Definition distinct_keys {V} (d : dict V) : Prop := NoDup (Dict.keys d).

(* ================================================================== *)
(** ** quantum_orchestrator.py: [complete_parameters] *)
(* ================================================================== *)

(** The card [{"params_schema": required_params}]. *)
Definition mock_component (required_params : dict json) : ComponentCard :=
  {| c_name := None; c_kind := None; c_tags := None;
     c_params_schema := Some required_params; c_other := [] |}.

(** [QuantumOrchestrator.complete_parameters], with the parameter agent
    of the orchestrator. *)
Definition complete_parameters (ext : External) (param_processor_agent : Agent)
           (query : string) (task_card : TaskCard) (required_params : dict json)
  : M json :=
  let mock_components := [mock_component required_params] in
  (param_map <- ParamProcessorAgent.process ext param_processor_agent query
                                            task_card mock_components ;;
   completed <- lift (py_get param_map "normalized_params" (JObj [])) ;;
   ret (JObj [("completed_params", completed)]))%py.

(** The text of a parameter map that sets [n]. *)
Definition param_map_text : string :=
  "{" ++ quoted "normalized_params" ++ ": {" ++ quoted "n" ++ ": 8}, "
  ++ quoted "aliases" ++ ": {}, " ++ quoted "defaults" ++ ": {}, "
  ++ quoted "validation_errors" ++ ": []}".

(* ================================================================== *)
(** * Properties *)
(* ================================================================== *)

(** ** The string operations and the decoder on small inputs *)

Example strip_blanks : strip ("  a b " ++ nl) = "a b".
Proof. reflexivity. Qed.

Example strip_no_break_space : strip (bytes [194; 160; 65; 227; 128; 128]) = "A".
Proof. reflexivity. Qed.

Example clean_fenced_reply :
  clean_markdown ("```json" ++ nl ++ "{}" ++ nl ++ "```") = "{}".
Proof. reflexivity. Qed.

Example split_keeps_empty_lines :
  split newline ("a" ++ nl ++ nl ++ "b" ++ nl) = ["a"; ""; "b"; ""].
Proof. reflexivity. Qed.

Example count_braces : brace_balance "{ {x} " = 1%Z.
Proof. reflexivity. Qed.

Example classify_first_keyword :
  CodegenAgent.classify "HamiltonianOptimizer" = Some "hamiltonian".
Proof. reflexivity. Qed.

Example loads_nested :
  JsonDecoder.json_loads ("{" ++ dq ++ "k" ++ dq ++ ": [1, -2.5e3, true, null, {}]}")
  = Ok (JObj [("k", JArr [JInt 1; JFloat "-2.5e3"; JBool true; JNull; JObj []])]).
Proof. vm_compute. reflexivity. Qed.

Example loads_last_duplicate_wins :
  JsonDecoder.json_loads ("{" ++ dq ++ "k" ++ dq ++ ": 1, " ++ dq ++ "k" ++ dq ++ ": 2}")
  = Ok (JObj [("k", JInt 2)]).
Proof. vm_compute. reflexivity. Qed.

Example loads_rejects_trailing_comma :
  is_ok (JsonDecoder.json_loads "[1, 2,]") = false.
Proof. vm_compute. reflexivity. Qed.

Example loads_rejects_prose :
  is_ok (JsonDecoder.json_loads "Result: {}") = false.
Proof. vm_compute. reflexivity. Qed.

(** ** The retry wrapper *)

Lemma calls_app (a b : list event) : calls (a ++ b) = (calls a + calls b)%nat.
Proof. unfold calls. rewrite filter_app, length_app. reflexivity. Qed.

Section RetryFacts.
Variable ext : External.
Variable self : Agent.
Variables user_message agent_name : string.

Local Abbreviation outcome := (attempt_outcome ext self user_message agent_name).
Local Abbreviation events := (attempts_trace self user_message).
Local Abbreviation loop := (retry_loop ext self user_message agent_name).

Lemma attempt_once_eq (tr : list event) :
  attempt_once ext self user_message agent_name tr
  = (outcome (calls tr),
     (tr ++ [ChatCompletion false (prompt self) user_message])%list).
Proof.
  unfold attempt_once, bind, _call_openai, attempt_outcome, lift.
  destruct (chat ext (calls tr) (prompt self) user_message); reflexivity.
Qed.

Lemma calls_after_pause (tr : list event) :
  calls ((tr ++ [ChatCompletion false (prompt self) user_message])
           ++ [Sleep 500])%list = S (calls tr).
Proof. rewrite !calls_app. cbn. lia. Qed.

Lemma calls_attempts_trace (n : nat) : calls (events n) = n.
Proof.
  induction n as [|n IH]; [reflexivity|].
  destruct n as [|n]; [reflexivity|].
  change (calls (events (S (S n)))) with (S (calls (events (S n)))).
  now rewrite IH.
Qed.

Lemma attempts_trace_step (n : nat) :
  events (S (S n))
  = ([ChatCompletion false (prompt self) user_message; Sleep 500]
       ++ events (S n))%list.
Proof. reflexivity. Qed.

(** The index of the last pass is recognised exactly on the last
    element of [range(max_retries)]. *)
Lemma last_attempt_test (i n : nat) :
  (i + S n)%nat = Z.to_nat (max_retries self) ->
  (Z.of_nat i =? max_retries self - 1)%Z = Nat.eqb n 0.
Proof.
  intros H. destruct n as [|n]; simpl.
  - apply Z.eqb_eq. lia.
  - apply Z.eqb_neq. lia.
Qed.

(** One unfolding of the loop on a non-empty range. *)
Lemma retry_loop_step (i n : nat) (tr : list event) :
  (i + S n)%nat = Z.to_nat (max_retries self) ->
  loop (map Z.of_nat (seq i (S n))) tr
  = let tr1 := (tr ++ [ChatCompletion false (prompt self) user_message])%list in
    match outcome (calls tr) with
    | Ok v => (Ok v, tr1)
    | Raise e =>
        match n with
        | O => (Raise (Exn RuntimeError
                           (agent_name ++ " failed after "
                            ++ decimal (max_retries self)
                            ++ " retries: " ++ exn_str e)), tr1)
        | S n' => loop (map Z.of_nat (seq (S i) n)) (tr1 ++ [Sleep 500])%list
        end
    end.
Proof.
  intros H. cbn [seq map retry_loop]. unfold catch at 1.
  rewrite attempt_once_eq.
  destruct (outcome (calls tr)) as [v|e]; [reflexivity|].
  rewrite (last_attempt_test i n H).
  destruct n as [|n']; reflexivity.
Qed.

(** Whatever the replies, the loop performs between one and
    [max_retries] attempts, separated by the fixed pause. *)
Lemma retry_loop_trace (n : nat) :
  forall i tr,
    (i + S n)%nat = Z.to_nat (max_retries self) ->
    exists m, (1 <= m <= S n)%nat
              /\ snd (loop (map Z.of_nat (seq i (S n))) tr)
                 = (tr ++ events m)%list.
Proof.
  induction n as [|n IH]; intros i tr H; rewrite (retry_loop_step i _ tr H); cbv zeta.
  - exists 1%nat. split; [lia|].
    destruct (outcome (calls tr)); reflexivity.
  - destruct (outcome (calls tr)) as [v|e].
    + exists 1%nat. split; [lia|reflexivity].
    + destruct (IH (S i)
                   ((tr ++ [ChatCompletion false (prompt self) user_message])
                      ++ [Sleep 500])%list) as (m & Hm & Heq); [lia|].
      exists (S m). split; [lia|].
      rewrite Heq. destruct m as [|m]; [lia|].
      rewrite attempts_trace_step, <- !app_assoc. reflexivity.
Qed.

(** The first attempt that succeeds ends the loop with its record. *)
Lemma retry_loop_first_success (n : nat) :
  forall i tr N v,
    (i + S n)%nat = Z.to_nat (max_retries self) ->
    (N <= n)%nat ->
    (forall k, (k < N)%nat -> is_ok (outcome (calls tr + k)) = false) ->
    outcome (calls tr + N) = Ok v ->
    loop (map Z.of_nat (seq i (S n))) tr = (Ok v, (tr ++ events (S N))%list).
Proof.
  induction n as [|n IH]; intros i tr N v H HN Hfail Hok;
    rewrite (retry_loop_step i _ tr H); cbv zeta.
  - assert (N = 0)%nat by lia. subst N. rewrite Nat.add_0_r in Hok.
    rewrite Hok. reflexivity.
  - destruct N as [|N].
    + rewrite Nat.add_0_r in Hok. rewrite Hok. reflexivity.
    + specialize (Hfail 0%nat ltac:(lia)) as H0. rewrite Nat.add_0_r in H0.
      destruct (outcome (calls tr)) as [v0|e]; [discriminate|].
      rewrite (IH (S i) _ N v); try lia.
      * rewrite attempts_trace_step, <- !app_assoc. reflexivity.
      * intros k Hk. rewrite calls_after_pause.
        replace (S (calls tr) + k)%nat with (calls tr + S k)%nat by lia.
        apply Hfail. lia.
      * rewrite calls_after_pause.
        replace (S (calls tr) + N)%nat with (calls tr + S N)%nat by lia.
        exact Hok.
Qed.

(** When every attempt fails, the last error is reported. *)
Lemma retry_loop_exhausted (n : nat) :
  forall i tr,
    (i + S n)%nat = Z.to_nat (max_retries self) ->
    (forall k, (k <= n)%nat -> is_ok (outcome (calls tr + k)) = false) ->
    exists last,
      outcome (calls tr + n) = Raise last
      /\ loop (map Z.of_nat (seq i (S n))) tr
         = (Raise (Exn RuntimeError
                       (agent_name ++ " failed after "
                        ++ decimal (max_retries self)
                        ++ " retries: " ++ exn_str last)),
            (tr ++ events (S n))%list).
Proof.
  induction n as [|n IH]; intros i tr H Hfail;
    rewrite (retry_loop_step i _ tr H); cbv zeta.
  - specialize (Hfail 0%nat ltac:(lia)). rewrite Nat.add_0_r in *.
    destruct (outcome (calls tr)) as [v|e]; [discriminate|].
    exists e. split; reflexivity.
  - specialize (Hfail 0%nat ltac:(lia)) as H0. rewrite Nat.add_0_r in H0.
    destruct (outcome (calls tr)) as [v|e]; [discriminate|].
    destruct (IH (S i)
                 ((tr ++ [ChatCompletion false (prompt self) user_message])
                    ++ [Sleep 500])%list) as (last & Hlast & Heq); [lia| |].
    + intros k Hk. rewrite calls_after_pause.
      replace (S (calls tr) + k)%nat with (calls tr + S k)%nat by lia.
      apply Hfail. lia.
    + exists last. split.
      * rewrite calls_after_pause in Hlast.
        replace (calls tr + S n)%nat with (S (calls tr) + n)%nat by lia.
        exact Hlast.
      * rewrite Heq, attempts_trace_step, <- !app_assoc. reflexivity.
Qed.

End RetryFacts.

(** The range of a positive [max_retries] is not empty. *)
Lemma positive_limit (self : Agent) :
  (1 <= max_retries self)%Z ->
  exists n, Z.to_nat (max_retries self) = S n.
Proof.
  intros H. exists (Z.to_nat (max_retries self) - 1)%nat. lia.
Qed.

Lemma call_with_retry_bound
      (ext : External) (self : Agent) (user_message agent_name : string)
      (tr : list event) :
  (1 <= max_retries self)%Z ->
  exists m, (1 <= m <= Z.to_nat (max_retries self))%nat
            /\ snd (_call_with_retry ext self user_message agent_name tr)
               = (tr ++ attempts_trace self user_message m)%list.
Proof.
  intros H. destruct (positive_limit self H) as [n Hn].
  unfold _call_with_retry, range. rewrite Hn.
  apply retry_loop_trace. simpl. lia.
Qed.

Lemma call_with_retry_skipped
      (ext : External) (self : Agent) (user_message agent_name : string)
      (tr : list event) :
  (max_retries self <= 0)%Z ->
  _call_with_retry ext self user_message agent_name tr = (Ok JNull, tr).
Proof.
  intros H. unfold _call_with_retry, range.
  replace (Z.to_nat (max_retries self)) with 0%nat by lia.
  reflexivity.
Qed.

(** C3.  With [max_retries >= 1], [_call_with_retry] makes between one
    and [max_retries] requests, never more, with a pause of 500 ms
    between two of them and no other pause; when the [N]-th attempt is
    the first whose request and parse both succeed, it returns the
    record of that attempt after exactly [N] requests; when all
    [max_retries] attempts raise, it raises a [RuntimeError] naming the
    agent and carrying the text of the last error. *)
Theorem call_with_retry_attempts
        (ext : External) (self : Agent) (user_message agent_name : string)
        (tr : list event) :
  (1 <= max_retries self)%Z ->
  let limit := Z.to_nat (max_retries self) in
  let outcome := attempt_outcome ext self user_message agent_name in
  let run := _call_with_retry ext self user_message agent_name tr in
  (exists m, (1 <= m <= limit)%nat
             /\ snd run = (tr ++ attempts_trace self user_message m)%list
             /\ calls (snd run) = (calls tr + m)%nat)
  /\ (forall N v,
         (1 <= N <= limit)%nat ->
         (forall k, (k < N - 1)%nat -> is_ok (outcome (calls tr + k)%nat) = false) ->
         outcome (calls tr + (N - 1))%nat = Ok v ->
         run = (Ok v, (tr ++ attempts_trace self user_message N)%list))
  /\ ((forall k, (k < limit)%nat -> is_ok (outcome (calls tr + k)%nat) = false) ->
      exists last,
        outcome (calls tr + (limit - 1))%nat = Raise last
        /\ run = (Raise (Exn RuntimeError
                             (agent_name ++ " failed after "
                              ++ decimal (max_retries self)
                              ++ " retries: " ++ exn_str last)),
                  (tr ++ attempts_trace self user_message limit)%list)).
Proof.
  intros Hmax limit outcome run.
  assert (Hlimit : exists n, limit = S n).
  { destruct limit as [|n] eqn:E; [unfold limit in E; lia | now exists n]. }
  destruct Hlimit as [n Hn].
  assert (Hrun : run = retry_loop ext self user_message agent_name
                                  (map Z.of_nat (seq 0 (S n))) tr).
  { unfold run, _call_with_retry, range. fold limit. now rewrite Hn. }
  assert (Hsum : (0 + S n)%nat = Z.to_nat (max_retries self)) by (fold limit; lia).
  repeat split.
  - destruct (retry_loop_trace ext self user_message agent_name n 0 tr Hsum)
      as (m & Hm & Heq).
    exists m. rewrite Hrun, Heq, calls_app, calls_attempts_trace.
    repeat split; lia.
  - intros N v HN Hfail Hok. rewrite Hrun.
    destruct N as [|N]; [lia|].
    apply retry_loop_first_success; try assumption; try lia.
    + intros k Hk. apply Hfail. lia.
    + replace N with (S N - 1)%nat by lia. exact Hok.
  - intros Hfail. rewrite Hrun, Hn.
    replace (S n - 1)%nat with n by lia.
    apply retry_loop_exhausted; [assumption|].
    intros k Hk. apply Hfail. lia.
Qed.

(** An instance: three attempts allowed, the second reply is the first
    that parses; the wrapper returns its record after two requests. *)
Lemma call_with_retry_attempts_witness :
  (1 <= max_retries (Examples.agent 3))%Z
  /\ _call_with_retry (Examples.python Examples.second_time) (Examples.agent 3)
                      "plan it" "PipelineAgent" []
     = (Ok Examples.object_value,
        [ChatCompletion false "Output JSON only." "plan it"; Sleep 500;
         ChatCompletion false "Output JSON only." "plan it"]).
Proof.
  split; [vm_compute; discriminate|].
  refine (proj1 (proj2 (call_with_retry_attempts
                          (Examples.python Examples.second_time)
                          (Examples.agent 3) "plan it" "PipelineAgent" [] _))
                2%nat Examples.object_value _ _ _).
  - vm_compute; discriminate.
  - vm_compute; lia.
  - intros k Hk. assert (k = 0)%nat by (simpl in Hk; lia). subst k.
    vm_compute. reflexivity.
  - vm_compute. reflexivity.
Defined.

(** C10.  With [max_retries <= 0] the loop body never runs:
    [_call_with_retry] returns [None], makes no request and raises
    nothing. *)
Theorem call_with_retry_no_attempt
        (ext : External) (self : Agent) (user_message agent_name : string)
        (tr : list event) :
  (max_retries self <= 0)%Z ->
  _call_with_retry ext self user_message agent_name tr = (Ok JNull, tr).
Proof.
  intros H. unfold _call_with_retry, range.
  replace (Z.to_nat (max_retries self)) with 0%nat by lia.
  reflexivity.
Qed.

Lemma call_with_retry_no_attempt_witness :
  (max_retries (Examples.agent 0) <= 0)%Z
  /\ _call_with_retry Examples.silent (Examples.agent 0) "hello" "SemanticAgent" []
     = (Ok JNull, []).
Proof.
  split; [vm_compute; discriminate|].
  apply call_with_retry_no_attempt. vm_compute; discriminate.
Defined.

(** ** Lines of a text *)

Lemma count_nonneg (c : ascii) (s : string) : (0 <= count c s)%Z.
Proof. induction s as [|d s IH]; simpl; [lia|]. destruct (Ascii.eqb d c); lia. Qed.

Lemma split_not_nil (c : ascii) (s : string) : split c s <> [].
Proof.
  destruct s as [|d s]; simpl; [discriminate|].
  destruct (Ascii.eqb d c); [discriminate|].
  destruct (split c s); discriminate.
Qed.

Lemma join_cons (sep x : string) (l : list string) :
  l <> [] -> join sep (x :: l) = x ++ sep ++ join sep l.
Proof. destruct l; [congruence|reflexivity]. Qed.

(** Splitting at line breaks and joining with them gives the text back. *)
Lemma join_split (s : string) : join nl (split newline s) = s.
Proof.
  induction s as [|c s IH]; [reflexivity|].
  simpl split. destruct (Ascii.eqb c newline) eqn:E.
  - apply Ascii.eqb_eq in E. subst c.
    rewrite join_cons by apply split_not_nil. now rewrite IH.
  - pose proof (split_not_nil newline s) as Hne.
    destruct (split newline s) as [|cur rest]; [congruence|].
    destruct rest as [|r rest'].
    + simpl in *. now rewrite IH.
    + rewrite join_cons in * by discriminate.
      simpl. now rewrite <- IH.
Qed.

Lemma split_one_line (l : string) :
  one_line l = true -> split newline l = [l].
Proof.
  unfold one_line. induction l as [|c l IH]; intros H; [reflexivity|].
  simpl in H. pose proof (count_nonneg newline l).
  simpl. destruct (Ascii.eqb c newline); [apply Z.eqb_eq in H; lia|].
  rewrite IH; [reflexivity|]. apply Z.eqb_eq. apply Z.eqb_eq in H. lia.
Qed.

Lemma split_line_break (l s : string) :
  one_line l = true ->
  split newline (l ++ nl ++ s) = l :: split newline s.
Proof.
  unfold one_line. induction l as [|c l IH]; intros H.
  - simpl. reflexivity.
  - simpl in H. pose proof (count_nonneg newline l).
    simpl. destruct (Ascii.eqb c newline); [apply Z.eqb_eq in H; lia|].
    change (l ++ String newline s) with (l ++ nl ++ s).
    rewrite IH; [reflexivity|]. apply Z.eqb_eq. apply Z.eqb_eq in H. lia.
Qed.

(** Joining lines and splitting again gives the lines back. *)
Lemma split_join (ls : list string) :
  ls <> [] -> forallb one_line ls = true ->
  split newline (join nl ls) = ls.
Proof.
  induction ls as [|l ls IH]; intros Hne Hall; [congruence|].
  simpl in Hall. apply andb_true_iff in Hall as [Hl Hls].
  destruct ls as [|l' ls'].
  - simpl. now apply split_one_line.
  - rewrite join_cons by discriminate.
    rewrite split_line_break by assumption.
    f_equal. apply IH; [discriminate|assumption].
Qed.

Lemma prefixes_self {A} (l : list A) : l <> [] -> In l (prefixes l).
Proof.
  induction l as [|x l IH]; intros H; [congruence|].
  simpl. destruct l as [|y l']; [now left|].
  right. apply in_map. apply IH. discriminate.
Qed.

Lemma prefixes_in_blocks {A} (l p : list A) : In p (prefixes l) -> In p (blocks l).
Proof.
  destruct l as [|x l]; [easy|]. intros H.
  change (blocks (x :: l)) with (prefixes (x :: l) ++ blocks l)%list.
  apply in_or_app. now left.
Qed.

Lemma blocks_tail {A} (x : A) (l b : list A) : In b (blocks l) -> In b (blocks (x :: l)).
Proof.
  intros H.
  change (blocks (x :: l)) with (prefixes (x :: l) ++ blocks l)%list.
  apply in_or_app. now right.
Qed.

(** ** The parser *)

Section ParserFacts.
Variable ext : External.

(** Once started, the scan appends a prefix of the remaining lines. *)
Lemma scan_lines_started (lines : list string) :
  forall acc balance,
  exists p, (p = [] \/ In p (prefixes lines))
            /\ scan_lines lines acc balance true = (acc ++ p)%list.
Proof.
  induction lines as [|line rest IH]; intros acc balance.
  - exists []. split; [now left|]. simpl. now rewrite app_nil_r.
  - simpl scan_lines. rewrite andb_false_r.
    destruct ((balance + (count "{" line - count "}" line) =? 0)%Z).
    + exists [line]. split; [right; now left|reflexivity].
    + destruct (IH (acc ++ [line])%list
                   (balance + (count "{" line - count "}" line))%Z)
        as (p & Hp & Heq).
      exists (line :: p). split.
      * right. destruct Hp as [->|Hp]; [now left|].
        right. now apply in_map.
      * rewrite Heq, <- app_assoc. reflexivity.
Qed.

(** The lines the scan extracts are a block of the text, or none. *)
Lemma scan_lines_block (lines : list string) :
  forall balance,
    scan_lines lines [] balance false = []
    \/ In (scan_lines lines [] balance false) (blocks lines).
Proof.
  induction lines as [|line rest IH]; intros balance; [now left|].
  simpl scan_lines.
  destruct (startswith (strip line) "{") eqn:E; simpl andb; cbv iota.
  - right. apply prefixes_in_blocks.
    destruct ((balance + (count "{" line - count "}" line) =? 0)%Z).
    + now left.
    + destruct (scan_lines_started rest [line]
                  (balance + (count "{" line - count "}" line))%Z)
        as (p & Hp & Heq).
      rewrite Heq. simpl. destruct Hp as [->|Hp]; [now left|].
      right. now apply in_map.
  - destruct (IH balance) as [H|H]; [now left|].
    right. now apply blocks_tail.
Qed.

(** Lines that do not open with a brace are passed over. *)
Lemma scan_lines_prose (pre lines : list string) (balance : Z) :
  forallb (fun l => negb (startswith (strip l) "{")) pre = true ->
  scan_lines (pre ++ lines) [] balance false
  = scan_lines lines [] balance false.
Proof.
  induction pre as [|l pre IH]; intros H; [reflexivity|].
  simpl in H. apply andb_true_iff in H as [Hl Hpre].
  apply negb_true_iff in Hl.
  simpl. rewrite Hl. simpl. now apply IH.
Qed.

(** From the opening line on, the scan takes the lines up to the one
    that brings the balance back to zero. *)
Lemma scan_lines_object (obj post : list string) :
  forall acc balance,
    closes_at balance obj = true ->
    scan_lines (obj ++ post) acc balance true = (acc ++ obj)%list.
Proof.
  induction obj as [|line rest IH]; intros acc balance H; [discriminate|].
  simpl in H. simpl scan_lines. rewrite andb_false_r.
  unfold brace_balance in H.
  destruct rest as [|line' rest'].
  - rewrite H. reflexivity.
  - apply andb_true_iff in H as [Hz Hrest].
    apply negb_true_iff in Hz. rewrite Hz.
    change (((line' :: rest') ++ post)%list) with ((line' :: rest') ++ post)%list.
    rewrite (IH (acc ++ [line])%list _ Hrest), <- app_assoc. reflexivity.
Qed.

Lemma scan_lines_opening (first : string) (lines acc : list string)
      (balance : Z) :
  startswith (strip first) "{" = true ->
  scan_lines (first :: lines) acc balance false
  = scan_lines (first :: lines) acc balance true.
Proof. intros H. simpl. rewrite H. reflexivity. Qed.

(** Whatever fails inside the parser leaves it as a [ValueError]. *)
Lemma parse_failure_is_value_error (body : result json)
      (h1 h2 : string -> string) :
  is_ok body = false ->
  raises ValueError
    (try_except_else body JSONDecodeError
       (fun e => Raise (Exn ValueError (h1 (exn_str e))))
       (fun e => Raise (Exn ValueError (h2 (exn_str e))))).
Proof.
  destruct body as [v|e]; [discriminate|]. intros _.
  unfold try_except_else.
  destruct (exn_class_eqb (exn_cls e) JSONDecodeError); eexists; reflexivity.
Qed.

Lemma parse_unfold (response agent_name : string) :
  _parse_json_with_retry ext response agent_name
  = try_except_else
      (if (String.eqb response "" || String.eqb (strip response) "")%bool
       then Raise (Exn ValueError (agent_name ++ " returned empty response"))
       else
         try_except (json_loads ext (clean_markdown response)) JSONDecodeError
           (fun _ =>
              let json_lines :=
                scan_lines (split newline (clean_markdown response))
                           [] 0 false in
              match json_lines with
              | _ :: _ => json_loads ext (join nl json_lines)
              | [] => Raise (Exn ValueError
                                 (agent_name ++ " response contains no valid JSON"))
              end))
      JSONDecodeError
      (fun e => Raise (Exn ValueError
                           (agent_name ++ " returned invalid JSON: " ++ exn_str e)))
      (fun e => Raise (Exn ValueError
                           (agent_name ++ " response parsing failed: " ++ exn_str e))).
Proof. reflexivity. Qed.

(** An input that [strip] empties is rejected. *)
Lemma parse_rejects_blank (response agent_name : string) :
  strip response = "" ->
  raises ValueError (_parse_json_with_retry ext response agent_name).
Proof.
  intros H. rewrite parse_unfold, H. simpl String.eqb at 2.
  rewrite orb_true_r.
  apply (parse_failure_is_value_error _
           (fun m => agent_name ++ " returned invalid JSON: " ++ m)
           (fun m => agent_name ++ " response parsing failed: " ++ m)).
  reflexivity.
Qed.

(** The lines the scan extracts begin with a line that opens with a
    brace. *)
Lemma scan_lines_opens (lines : list string) :
  forall balance,
    match scan_lines lines [] balance false with
    | [] => True
    | first :: _ => startswith (strip first) "{" = true
    end.
Proof.
  induction lines as [|line rest IH]; intros balance; [exact I|].
  simpl scan_lines.
  destruct (startswith (strip line) "{") eqn:E; simpl andb; cbv iota.
  - destruct ((balance + (count "{" line - count "}" line) =? 0)%Z);
      [exact E|].
    destruct (scan_lines_started rest [line]
                (balance + (count "{" line - count "}" line))%Z)
      as (p & _ & Heq).
    rewrite Heq. exact E.
  - apply IH.
Qed.

(** A text that does not decode and none of whose blocks of lines holds
    an object is rejected. *)
Lemma parse_rejects_undecodable (response agent_name : string) :
  is_ok (json_loads ext (clean_markdown response)) = false ->
  no_object ext (clean_markdown response) = true ->
  raises ValueError (_parse_json_with_retry ext response agent_name).
Proof.
  intros Hwhole H. unfold no_object in H. rewrite forallb_forall in H.
  rewrite parse_unfold.
  apply (parse_failure_is_value_error _
           (fun m => agent_name ++ " returned invalid JSON: " ++ m)
           (fun m => agent_name ++ " response parsing failed: " ++ m)).
  destruct (String.eqb response "" || String.eqb (strip response) "")%bool;
    [reflexivity|].
  set (text := clean_markdown response) in *.
  destruct (json_loads ext text) as [v|e]; [discriminate|].
  unfold try_except.
  destruct (exn_class_eqb (exn_cls e) JSONDecodeError); [|reflexivity].
  cbv zeta.
  pose proof (scan_lines_opens (split newline text) 0) as Hopen.
  destruct (scan_lines_block (split newline text) 0) as [Hnil|Hin].
  - rewrite Hnil. reflexivity.
  - specialize (H _ Hin). apply negb_true_iff in H.
    destruct (scan_lines (split newline text) [] 0 false) as [|first rest];
      [reflexivity|].
    unfold holds_object in H. rewrite Hopen in H. exact H.
Qed.

(** When a block that opens with a brace decodes to nothing but a
    mapping, a text without a block that decodes to a mapping has no
    block that holds an object. *)
Lemma no_mapping_no_object (text : string) :
  (forall first rest v,
      startswith (strip first) "{" = true ->
      json_loads ext (join nl (first :: rest)) = Ok v ->
      exists fields, v = JObj fields) ->
  no_mapping ext text = true -> no_object ext text = true.
Proof.
  intros Hlaw H. unfold no_mapping, no_object in *.
  rewrite forallb_forall in *. intros block Hin.
  specialize (H block Hin). apply negb_true_iff in H. apply negb_true_iff.
  destruct block as [|first rest]; [reflexivity|].
  unfold holds_object.
  destruct (startswith (strip first) "{") eqn:E; [|reflexivity].
  destruct (json_loads ext (join nl (first :: rest))) as [v|e] eqn:D;
    [|reflexivity].
  destruct (Hlaw first rest v E D) as (fields & ->). discriminate H.
Qed.

End ParserFacts.

(** ** Whitespace *)

Lemma length_append (a b : string) :
  String.length (a ++ b) = (String.length a + String.length b)%nat.
Proof. induction a as [|c a IH]; simpl; [reflexivity|now rewrite IH]. Qed.

Lemma drop_append (a b : string) : drop (String.length a) (a ++ b) = b.
Proof. induction a as [|c a IH]; simpl; [reflexivity|exact IH]. Qed.

(** A text that begins with a whitespace code point begins with no
    other: the encodings are prefix-free. *)
Lemma leading_whitespace (w t : string) :
  In w whitespace -> leading whitespace (w ++ t) = Some w.
Proof.
  intros H. vm_compute in H.
  repeat (destruct H as [<-|H]; [vm_compute; reflexivity|]).
  contradiction.
Qed.

Lemma whitespace_not_empty (w : string) :
  In w whitespace -> (1 <= String.length w)%nat.
Proof.
  intros H. vm_compute in H.
  repeat (destruct H as [<-|H]; [simpl; lia|]).
  contradiction.
Qed.

Lemma lstrip_with_step (ws : list string) (fuel : nat) (s w : string) :
  leading ws s = Some w ->
  lstrip_with ws (S fuel) s = lstrip_with ws fuel (drop (String.length w) s).
Proof. intros H. simpl. now rewrite H. Qed.

Lemma lstrip_whitespace (pieces : list string) :
  Forall (fun w => In w whitespace) pieces ->
  forall fuel, (length pieces <= fuel)%nat ->
               lstrip_with whitespace fuel (glue pieces) = "".
Proof.
  induction 1 as [|w pieces Hw Hall IH]; intros fuel Hfuel.
  - destruct fuel; reflexivity.
  - destruct fuel as [|fuel]; [simpl in Hfuel; lia|].
    change (glue (w :: pieces)) with (w ++ glue pieces).
    rewrite (lstrip_with_step whitespace fuel _ w (leading_whitespace w _ Hw)).
    rewrite drop_append.
    apply IH. simpl in Hfuel. lia.
Qed.

Lemma glue_length (pieces : list string) :
  Forall (fun w => In w whitespace) pieces ->
  (length pieces <= String.length (glue pieces))%nat.
Proof.
  induction 1 as [|w pieces Hw Hall IH]; simpl; [lia|].
  rewrite length_append. pose proof (whitespace_not_empty w Hw). lia.
Qed.

Lemma mem_In (x : string) (l : list string) : mem x l = true -> In x l.
Proof.
  unfold mem. rewrite existsb_exists. intros (y & Hy & E).
  apply String.eqb_eq in E. now subst.
Qed.

(** [strip] empties a whitespace-only text. *)
Lemma strip_whitespace_only (s : string) : whitespace_only s -> strip s = "".
Proof.
  intros (pieces & Hall & ->). unfold strip, lstrip.
  rewrite lstrip_whitespace; [reflexivity|assumption|now apply glue_length].
Qed.

(** ** The decoder *)

Lemma append_assoc (a b c : string) : (a ++ b) ++ c = a ++ (b ++ c).
Proof. induction a as [|x a IH]; [reflexivity|]. simpl. now rewrite IH. Qed.

Lemma startswith_split (s p : string) :
  startswith s p = true -> s = p ++ drop (String.length p) s.
Proof.
  revert s. induction p as [|c p IH]; intros s H; [reflexivity|].
  destruct s as [|d s]; [discriminate|].
  cbn [startswith] in H. 
  unfold startswith in H; fold startswith in H.
  apply andb_true_iff in H as [E H].
  apply Ascii.eqb_eq in E. subst d. simpl. f_equal. now apply IH.
Qed.

Lemma leading_found (ws : list string) (s w : string) :
  leading ws s = Some w -> In w ws /\ s = w ++ drop (String.length w) s.
Proof.
  induction ws as [|x ws IH]; [discriminate|].
  simpl. destruct (startswith s x) eqn:E.
  - intros [= <-]. split; [now left|now apply startswith_split].
  - intros H. destruct (IH H). split; [now right|assumption].
Qed.

(** Stripping on the left removes pieces of the given list. *)
Lemma lstrip_with_pieces (ws : list string) (fuel : nat) :
  forall s, exists pieces,
      Forall (fun w => In w ws) pieces
      /\ s = glue pieces ++ lstrip_with ws fuel s.
Proof.
  induction fuel as [|fuel IH]; intros s.
  - exists []. split; [constructor|reflexivity].
  - simpl. destruct (leading ws s) as [w|] eqn:E.
    + destruct (leading_found _ _ _ E) as [Hin Hs].
      destruct (IH (drop (String.length w) s)) as (pieces & Hall & Hrest).
      exists (w :: pieces). split; [now constructor|].
      simpl. rewrite append_assoc, <- Hrest. exact Hs.
    + exists []. split; [constructor|reflexivity].
Qed.

Lemma list_of_append (a b : string) :
  list_ascii_of_string (a ++ b)
  = (list_ascii_of_string a ++ list_ascii_of_string b)%list.
Proof. induction a as [|c a IH]; [reflexivity|]. simpl. now rewrite IH. Qed.

Lemma string_of_app (a b : list ascii) :
  string_of_list_ascii (a ++ b)
  = string_of_list_ascii a ++ string_of_list_ascii b.
Proof. induction a as [|c a IH]; [reflexivity|]. simpl. now rewrite IH. Qed.

Lemma rev_append (a b : string) : PyStr.rev (a ++ b) = PyStr.rev b ++ PyStr.rev a.
Proof.
  unfold PyStr.rev. now rewrite list_of_append, rev_app_distr, string_of_app.
Qed.

Lemma rev_rev (s : string) : PyStr.rev (PyStr.rev s) = s.
Proof.
  unfold PyStr.rev.
  now rewrite list_ascii_of_string_of_list_ascii, rev_involutive,
              string_of_list_ascii_of_string.
Qed.

(** Stripping on the right leaves a text that the given one begins
    with. *)
Lemma rstrip_prefix (s : string) : exists t, s = rstrip s ++ t.
Proof.
  unfold rstrip.
  destruct (lstrip_with_pieces (map rev whitespace) (String.length s) (rev s))
    as (pieces & _ & H).
  exists (rev (glue pieces)).
  rewrite <- rev_append, <- H. symmetry. apply rev_rev.
Qed.

(** A line that opens with a brace is made of whitespace and a text
    that begins with a brace. *)
Lemma opening_line (line : string) :
  startswith (strip line) "{" = true ->
  exists pieces t,
    Forall (fun w => In w whitespace) pieces
    /\ line = glue pieces ++ String "{" t.
Proof.
  intros H. unfold strip in H.
  destruct (rstrip_prefix (lstrip line)) as (t & Ht).
  destruct (rstrip (lstrip line)) as [|c r]; [discriminate|].
  unfold startswith in H. apply andb_true_iff in H as [E _].
  apply Ascii.eqb_eq in E. subst c.
  destruct (lstrip_with_pieces whitespace (String.length line) line)
    as (pieces & Hall & Hline).
  fold (lstrip line) in Hline. rewrite Ht in Hline.
  exists pieces, (r ++ t). split; [exact Hall|exact Hline].
Qed.

(** A whitespace code point is skipped by the decoder, or stops it. *)
Lemma decoder_whitespace (w : string) :
  In w whitespace ->
  (forall u, JsonDecoder.skip_ws (w ++ u) = JsonDecoder.skip_ws u)
  \/ (forall u fuel,
         JsonDecoder.scan_value fuel (JsonDecoder.skip_ws (w ++ u)) = None).
Proof.
  intros H. vm_compute in H.
  repeat (destruct H as [<-|H];
          [first [left; intros u; reflexivity
                 |right; intros u [|fuel]; lazy; reflexivity]|]).
  contradiction.
Qed.

Lemma scan_value_brace (fuel : nat) (t rest : string) (v : json) :
  JsonDecoder.scan_value fuel (String "{" t) = Some (v, rest) ->
  exists fields, v = JObj fields.
Proof.
  destruct fuel as [|fuel]; [discriminate|].
  cbn [JsonDecoder.scan_value].
  change (Nat.eqb (JsonDecoder.code "{") 34) with false.
  change (Ascii.eqb "{" "{") with true. cbv iota.
  intros H.
  repeat match type of H with
         | context [match ?x with _ => _ end] => destruct x; try discriminate
         end;
    injection H as <- _; eexists; reflexivity.
Qed.

Lemma scan_after_whitespace (pieces : list string) (t : string) :
  Forall (fun w => In w whitespace) pieces ->
  forall fuel v rest,
    JsonDecoder.scan_value fuel
      (JsonDecoder.skip_ws (glue pieces ++ String "{" t)) = Some (v, rest) ->
    exists fields, v = JObj fields.
Proof.
  induction 1 as [|w pieces Hw Hall IH]; intros fuel v rest.
  - change (JsonDecoder.skip_ws (glue [] ++ String "{" t))
      with (String "{" t).
    apply scan_value_brace.
  - change (glue (w :: pieces)) with (w ++ glue pieces).
    rewrite append_assoc.
    destruct (decoder_whitespace w Hw) as [Hskip|Hstop].
    + rewrite Hskip. apply IH.
    + rewrite Hstop. discriminate.
Qed.

(** The decoder reads a text whose first line opens with a brace as a
    mapping, if at all. *)
Lemma decoder_object_after_brace (first : string) (rest : list string)
      (v : json) :
  startswith (strip first) "{" = true ->
  JsonDecoder.json_loads (join nl (first :: rest)) = Ok v ->
  exists fields, v = JObj fields.
Proof.
  intros Hopen.
  destruct (opening_line first Hopen) as (pieces & t & Hall & ->).
  assert (Htext : exists u, join nl ((glue pieces ++ String "{" t) :: rest)
                            = glue pieces ++ String "{" u).
  { destruct rest as [|line rest].
    - exists t. reflexivity.
    - exists (t ++ nl ++ join nl (line :: rest)).
      rewrite join_cons by discriminate.
      rewrite append_assoc. reflexivity. }
  destruct Htext as (u & ->).
  unfold JsonDecoder.json_loads.
  destruct (JsonDecoder.scan_value _ _) as [[v' rest']|] eqn:E; [|discriminate].
  destruct (JsonDecoder.skip_ws rest'); [|discriminate].
  intros [= <-]. exact (scan_after_whitespace pieces u Hall _ _ _ E).
Qed.

(** ** The claims on the parser *)

(** C7.  The parser raises (a [ValueError]) instead of returning a
    record on every empty or whitespace-only reply, and on every reply
    that (its fence removed) does not decode as a whole and holds no
    object, whether its braces balance or not.  The reply holds no
    object when none of its blocks of consecutive lines that open with
    a brace decodes; with a decoder that decodes a text opening with a
    brace to nothing but a mapping, this is the case as soon as no
    block of consecutive lines decodes to a mapping. *)
Theorem parse_fails_without_decodable_text
        (ext : External) (response agent_name : string) :
  (whitespace_only response ->
   raises ValueError (_parse_json_with_retry ext response agent_name))
  /\ (is_ok (json_loads ext (clean_markdown response)) = false ->
      no_object ext (clean_markdown response) = true ->
      raises ValueError (_parse_json_with_retry ext response agent_name))
  /\ ((forall first rest v,
          startswith (strip first) "{" = true ->
          json_loads ext (join nl (first :: rest)) = Ok v ->
          exists fields, v = JObj fields) ->
      is_ok (json_loads ext (clean_markdown response)) = false ->
      no_mapping ext (clean_markdown response) = true ->
      raises ValueError (_parse_json_with_retry ext response agent_name)).
Proof.
  split; [|split].
  - intros H. apply parse_rejects_blank. now apply strip_whitespace_only.
  - apply parse_rejects_undecodable.
  - intros Hlaw Hwhole H. apply parse_rejects_undecodable; [exact Hwhole|].
    now apply no_mapping_no_object.
Qed.

(** Instances: a reply of blanks and line breaks, and an object that
    is cut off after a line of its own that holds a number: the number
    decodes, the object does not. *)
Lemma parse_fails_without_decodable_text_witness :
  let blank := "  " ++ nl ++ " " in
  let truncated := "{" ++ nl ++ quoted "a" ++ ": 1," ++ nl ++ "5" in
  (whitespace_only blank
   /\ raises ValueError
        (_parse_json_with_retry Examples.silent blank "SemanticAgent"))
  /\ (brace_balance truncated = 1%Z
      /\ json_loads Examples.silent "5" = Ok (JInt 5)
      /\ no_object Examples.silent (clean_markdown truncated) = true
      /\ raises ValueError
           (_parse_json_with_retry Examples.silent truncated "SemanticAgent"))
  /\ (no_mapping Examples.silent (clean_markdown truncated) = true
      /\ raises ValueError
           (_parse_json_with_retry Examples.silent truncated "PipelineAgent")).
Proof.
  intros blank truncated.
  assert (Hblank : whitespace_only blank).
  { exists [" "; " "; nl; " "]. split; [|reflexivity].
    repeat (apply Forall_cons; [apply mem_In; vm_compute; reflexivity|]).
    apply Forall_nil. }
  split; [split; [exact Hblank|]|split].
  - exact (proj1 (parse_fails_without_decodable_text
                    Examples.silent blank "SemanticAgent") Hblank).
  - split; [reflexivity|]. split; [reflexivity|].
    split; [vm_compute; reflexivity|].
    apply (proj1 (proj2 (parse_fails_without_decodable_text
                           Examples.silent truncated "SemanticAgent")));
      vm_compute; reflexivity.
  - split; [vm_compute; reflexivity|].
    apply (proj2 (proj2 (parse_fails_without_decodable_text
                           Examples.silent truncated "PipelineAgent")));
      [exact decoder_object_after_brace| |]; vm_compute; reflexivity.
Defined.

(** C2, as the code has it.  When the object stands on lines of its
    own, that is: the reply is made of lines of prose none of which
    opens with a brace, then the lines of the object, the first opening
    with a brace and the last being the first to bring the count of
    opening braces less closing ones back to zero, then any lines; the
    reply is not blank, carries no json fence at its head and does not
    decode as a whole; then the parser returns what the lines of the
    object decode to. *)
Theorem parse_recovers_object_on_own_lines
        (ext : External) (agent_name : string)
        (pre rest post : list string) (first : string) (v : json) :
  let obj := first :: rest in
  let response := join nl (pre ++ obj ++ post)%list in
  forallb one_line (pre ++ obj ++ post)%list = true ->
  strip response <> "" ->
  startswith response "```json" = false ->
  decode_error ext response = true ->
  forallb (fun l => negb (startswith (strip l) "{")) pre = true ->
  startswith (strip first) "{" = true ->
  closes_at 0 obj = true ->
  json_loads ext (join nl obj) = Ok v ->
  _parse_json_with_retry ext response agent_name = Ok v.
Proof.
  intros obj response Hlines Hblank Hfence Hwhole Hpre Hfirst Hclose Hobj.
  unfold obj in *. clear obj.
  rewrite parse_unfold.
  assert (E1 : String.eqb response "" = false).
  { apply String.eqb_neq. intros E. apply Hblank. rewrite E. reflexivity. }
  assert (E2 : String.eqb (strip response) "" = false)
    by now apply String.eqb_neq.
  rewrite E1, E2. simpl orb. cbv iota.
  unfold clean_markdown. rewrite Hfence.
  unfold decode_error in Hwhole.
  destruct (json_loads ext response) as [w|e]; [discriminate|].
  unfold try_except. rewrite Hwhole. cbv zeta.
  unfold response.
  rewrite split_join; [|destruct pre; discriminate|exact Hlines].
  rewrite scan_lines_prose by exact Hpre.
  rewrite <- app_comm_cons.
  rewrite scan_lines_opening by exact Hfirst.
  rewrite app_comm_cons.
  rewrite (scan_lines_object (first :: rest) post [] 0 Hclose).
  simpl app. cbv iota. rewrite Hobj. reflexivity.
Qed.

(** An instance: the object between a line of prose and a closing
    remark. *)
Lemma parse_recovers_object_on_own_lines_witness :
  _parse_json_with_retry Examples.silent (join nl Examples.framed_lines)
                         "PipelineAgent"
  = Ok Examples.object_value.
Proof.
  apply (parse_recovers_object_on_own_lines
           Examples.silent "PipelineAgent"
           ["Here is the plan:"] ["  " ++ dq ++ "a" ++ dq ++ ": 1"; "}"]
           ["Let me know if it helps."] "{" Examples.object_value).
  - vm_compute. reflexivity.
  - vm_compute. discriminate.
  - vm_compute. reflexivity.
  - vm_compute. reflexivity.
  - vm_compute. reflexivity.
  - vm_compute. reflexivity.
  - vm_compute. reflexivity.
  - vm_compute. reflexivity.
Defined.

(** C2 as stated fails: an object that shares its line with the prose
    before it is not found, although it decodes on its own. *)
Lemma parse_misses_object_after_prose :
  let raw := "Result: " ++ Examples.object_text in
  json_loads Examples.silent Examples.object_text = Ok Examples.object_value
  /\ brace_balance raw = 0%Z
  /\ _parse_json_with_retry Examples.silent raw "PipelineAgent"
     = Raise (Exn ValueError
                  "PipelineAgent response parsing failed: PipelineAgent response contains no valid JSON").
Proof. vm_compute. repeat split; reflexivity. Qed.

(** C7 as stated fails, twice over.  A lone opening brace between
    quotes is a text whose braces do not balance and none of whose
    blocks of lines decodes to a mapping, and the parser returns it, as
    the string it decodes to: the whole text is decoded first, and
    whatever it decodes to is returned.  And a fenced text with a fence
    marker inside its object has braces that do not balance, does not
    decode and has no block of lines that decodes to a mapping, and the
    parser returns the object that is left when the markers are
    removed. *)
Lemma parse_returns_without_object :
  let brace := quoted "{" in
  let fenced :=
    "```json" ++ nl ++ "{" ++ quoted "a" ++ ": ```1}" ++ nl ++ "}" in
  (brace_balance brace = 1%Z
   /\ no_mapping Examples.silent brace = true
   /\ _parse_json_with_retry Examples.silent brace "SemanticAgent"
      = Ok (JStr "{"))
  /\ (brace_balance fenced = (-1)%Z
      /\ is_ok (json_loads Examples.silent fenced) = false
      /\ no_mapping Examples.silent fenced = true
      /\ _parse_json_with_retry Examples.silent fenced "SemanticAgent"
         = Ok (JObj [("a", JInt 1)])).
Proof. vm_compute. repeat split; reflexivity. Qed.

(** ** The stages *)

Section StageFacts.
Variable ext : External.
Variable self : Agent.

(** In the synchronous stages validation comes after the retry
    wrapper has returned: it adds no event, whatever it decides. *)
Lemma discovery_process_events (task_card : TaskCard)
      (registry_data : list ComponentCard) (tr : list event) :
  snd (DiscoveryAgent.process ext self task_card registry_data tr)
  = snd (_call_with_retry ext self
           (DiscoveryAgent.user_message_of ext task_card registry_data)
           "DiscoveryAgent" tr).
Proof.
  unfold DiscoveryAgent.process, catch, bind.
  destruct (_call_with_retry ext self _ "DiscoveryAgent" tr) as [[v|e] tr']
    eqn:E; cbn [snd].
  - destruct (_validate_component_cards v); reflexivity.
  - reflexivity.
Qed.

Lemma param_process_events (query : string) (task_card : TaskCard)
      (components : list ComponentCard) (tr : list event) :
  snd (ParamProcessorAgent.process ext self query task_card components tr)
  = snd (_call_with_retry ext self
           (ParamProcessorAgent.user_message_of ext query task_card components)
           "ParamProcessorAgent" tr).
Proof.
  unfold ParamProcessorAgent.process, catch, bind, lift.
  destruct (_call_with_retry ext self _ "ParamProcessorAgent" tr)
    as [[v|e] tr'] eqn:E; cbn [snd].
  - destruct (_validate_param_map v _) as [r|e]; [|reflexivity].
    destruct (valid r); reflexivity.
  - reflexivity.
Qed.

(** The asynchronous loop only adds events. *)
Lemma discovery_async_loop_calls (user_message : string) (attempts : list Z) :
  forall tr,
    (calls tr <= calls (snd (DiscoveryAgent.async_loop ext self user_message
                                                        attempts tr)))%nat.
Proof.
  induction attempts as [|attempt rest IH]; intros tr; [simpl; lia|].
  cbn [DiscoveryAgent.async_loop]. unfold catch, bind, lift, _call_openai_async.
  destruct (negb (has_async_client self)).
  - unfold throw. destruct (attempt =? max_retries self - 1)%Z.
    + simpl. lia.
    + unfold sleep_half_second, emit. etransitivity; [|apply IH].
      rewrite calls_app. lia.
  - set (tr1 := (tr ++ [ChatCompletion true (prompt self) user_message])%list).
    assert (H1 : (calls tr <= calls tr1)%nat)
      by (unfold tr1; rewrite calls_app; lia).
    assert (Hfail : forall e : exn,
               (calls tr <=
                calls (snd ((if (attempt =? max_retries self - 1)%Z
                             then throw RuntimeError
                                    ("DiscoveryAgent异步调用失败，已重试"
                                     ++ decimal (max_retries self) ++ "次: "
                                     ++ exn_str e)
                             else bind sleep_half_second
                                    (fun _ => DiscoveryAgent.async_loop
                                                ext self user_message rest))
                              tr1)))%nat).
    { intros e. destruct (attempt =? max_retries self - 1)%Z.
      - simpl. exact H1.
      - unfold bind, sleep_half_second, emit.
        etransitivity; [|apply IH]. rewrite calls_app. lia. }
    destruct (chat ext (calls tr) (prompt self) user_message) as [content|e].
    + destruct (_parse_json_with_retry ext (strip content) "DiscoveryAgent")
        as [v|e].
      * destruct (_validate_component_cards v).
        -- simpl. exact H1.
        -- apply Hfail.
      * apply Hfail.
    + apply Hfail.
Qed.

(** In [DiscoveryAgent.process_async] the validation sits inside the
    retried block: a reply that parses but is not a list of component
    cards is followed by another request whenever an attempt is left. *)
Lemma discovery_async_retries_invalid_record
      (task_card : TaskCard) (registry_data : list ComponentCard)
      (tr : list event) (content user_message : string) (v : json) :
  has_async_client self = true ->
  (2 <= max_retries self)%Z ->
  chat ext (calls tr) (prompt self) user_message = Ok content ->
  _parse_json_with_retry ext (strip content) "DiscoveryAgent" = Ok v ->
  _validate_component_cards v = false ->
  (calls tr + 2 <=
   calls (snd (DiscoveryAgent.async_loop ext self user_message
                 (range (max_retries self)) tr)))%nat.
Proof.
  intros Hclient Hmax Hchat Hparse Hinvalid.
  unfold range.
  destruct (Z.to_nat (max_retries self)) as [|[|n]] eqn:E; try lia.
  cbn [seq map DiscoveryAgent.async_loop].
  unfold catch at 1, bind at 1, _call_openai_async at 1.
  rewrite Hclient. cbn [negb]. rewrite Hchat.
  unfold bind at 1, lift at 1. rewrite Hparse, Hinvalid.
  unfold throw at 1.
  replace (Z.of_nat 0 =? max_retries self - 1)%Z with false
    by (symmetry; apply Z.eqb_neq; lia).
  unfold bind at 1, sleep_half_second, emit.
  unfold catch at 1, bind at 1, _call_openai_async at 1.
  rewrite Hclient. cbn [negb].
  match goal with
  | |- context [chat ext ?n ?p ?m] => destruct (chat ext n p m) as [c2|e2]
  end.
  - unfold bind at 1, lift at 1.
    match goal with
    | |- context [_parse_json_with_retry ext ?r ?a] =>
        destruct (_parse_json_with_retry ext r a) as [v2|e2]
    end.
    + destruct (_validate_component_cards v2).
      * cbn [ret snd]. rewrite !calls_app. cbn. lia.
      * unfold throw at 1.
        destruct (Z.of_nat 1 =? max_retries self - 1)%Z.
        -- cbn [throw snd]. rewrite !calls_app. cbn. lia.
        -- unfold bind, sleep_half_second, emit.
           etransitivity; [|apply discovery_async_loop_calls].
           rewrite !calls_app. cbn. lia.
    + destruct (Z.of_nat 1 =? max_retries self - 1)%Z.
      * cbn [throw snd]. rewrite !calls_app. cbn. lia.
      * unfold bind, sleep_half_second, emit.
        etransitivity; [|apply discovery_async_loop_calls].
        rewrite !calls_app. cbn. lia.
  - destruct (Z.of_nat 1 =? max_retries self - 1)%Z.
    + cbn [throw snd]. rewrite !calls_app. cbn. lia.
    + unfold bind, sleep_half_second, emit.
      etransitivity; [|apply discovery_async_loop_calls].
      rewrite !calls_app. cbn. lia.
Qed.

End StageFacts.

(** C4.  The claim holds for the synchronous entry points and fails for
    the asynchronous ones.  With three attempts allowed and a service
    that always replies [{}], a reply that parses and fails validation:
    [DiscoveryAgent.process] and [ParamProcessorAgent.process] make one
    request and surface the validation failure, while both
    [process_async] make three requests, re-asking the service after
    each validation failure. *)
Theorem async_stages_retry_validation_failure :
  let ext := Examples.python (Examples.always "{}") in
  let self := Examples.agent 3 in
  let sync_d := DiscoveryAgent.process ext self Examples.task [] [] in
  let async_d := DiscoveryAgent.process_async ext self Examples.task [] [] in
  let sync_p := ParamProcessorAgent.process ext self "q" Examples.task [] [] in
  let async_p := ParamProcessorAgent.process_async ext self "q" Examples.task [] [] in
  _parse_json_with_retry ext "{}" "DiscoveryAgent" = Ok (JObj [])
  /\ _validate_component_cards (JObj []) = false
  /\ (calls (snd sync_d) = 1%nat
      /\ fst sync_d
         = Raise (Exn RuntimeError
                      "DiscoveryAgent处理失败: ComponentCards格式验证失败"))
  /\ (calls (snd async_d) = 3%nat
      /\ fst async_d
         = Raise (Exn RuntimeError
                      "DiscoveryAgent异步调用失败，已重试3次: ComponentCards格式验证失败"))
  /\ (calls (snd sync_p) = 1%nat
      /\ fst sync_p
         = Raise (Exn RuntimeError
                      "ParamProcessorAgent处理失败: 参数处理验证失败: 缺失参数 ['Missing field: normalized_params']"))
  /\ (calls (snd async_p) = 3%nat
      /\ fst async_p
         = Raise (Exn RuntimeError
                      "ParamProcessorAgent异步调用失败，已重试3次: ParamMap验证失败: 缺失参数 ['Missing field: normalized_params']")).
Proof. vm_compute. repeat split; reflexivity. Qed.

(** ** The parallel entry point *)

Section ParallelFacts.
Variable ext : External.
Variable semantic_agent : Agent.
Variable discovery_coroutine : json -> list ComponentCard -> M json.
Variable param_coroutine : string -> json -> json -> M json.
Variable remainder :
  QuantumOrchestrator.Locals -> QuantumOrchestrator.pyobj ->
  QuantumOrchestrator.pyobj -> M json.

Local Abbreviation run :=
  (QuantumOrchestrator.run_parallel ext semantic_agent discovery_coroutine
                                    param_coroutine remainder).

Lemma run_parallel_eq (locals : QuantumOrchestrator.Locals) (query : string)
      (registry_data : list ComponentCard) (tr : list event) :
  run locals query registry_data tr
  = let sem := SemanticAgent.process ext semantic_agent query tr in
    (match fst sem with
     | Raise e => parallel_failure e
     | Ok _ =>
         match QuantumOrchestrator.components locals with
         | None =>
             parallel_failure
               (Exn UnboundLocalError
                    "cannot access local variable 'components' where it is not associated with a value")
         | Some _ =>
             parallel_failure
               (Exn NameError "name 'param_norm_task' is not defined")
         end
     end, snd sem).
Proof.
  unfold QuantumOrchestrator.run_parallel, QuantumOrchestrator.parallel_body,
    catch, bind.
  destruct (SemanticAgent.process ext semantic_agent query tr) as [[tc|e] tr'];
    cbn [fst snd]; [|reflexivity].
  cbn [QuantumOrchestrator.task_card QuantumOrchestrator.components
       QuantumOrchestrator.load_local ret].
  destruct (QuantumOrchestrator.components locals) as [c|]; reflexivity.
Qed.

(** The semantic stage makes synchronous requests only. *)
Lemma semantic_process_events (query : string) (tr : list event) :
  exists m,
    snd (SemanticAgent.process ext semantic_agent query tr)
    = (tr ++ attempts_trace semantic_agent query m)%list.
Proof.
  assert (H : exists m,
             snd (_call_with_retry ext semantic_agent query "SemanticAgent" tr)
             = (tr ++ attempts_trace semantic_agent query m)%list).
  { destruct (Z_le_gt_dec 1 (max_retries semantic_agent)) as [Hge|Hlt].
    - destruct (call_with_retry_bound ext semantic_agent query "SemanticAgent"
                  tr Hge) as (m & _ & Hm).
      now exists m.
    - exists 0%nat. rewrite call_with_retry_skipped by lia.
      simpl. now rewrite app_nil_r. }
  destruct H as (m & Hm). exists m. rewrite <- Hm.
  unfold SemanticAgent.process, catch, bind, lift.
  destruct (_call_with_retry ext semantic_agent query "SemanticAgent" tr)
    as [[v|e] tr']; cbn [snd]; [|reflexivity].
  destruct (SemanticAgent._validate_task_card v) as [[|]|e]; reflexivity.
Qed.

End ParallelFacts.

(** C9.  [generate_quantum_code_parallel] raises on every input: when
    the semantic stage fails, with its error; when it succeeds, because
    the next statement reads the local [components], which nothing has
    assigned yet.  No event follows those of the semantic stage, which
    are synchronous requests and pauses: neither coroutine is ever
    awaited.  Were [components] bound, the run would stop one statement
    later on the name [param_norm_task], which is bound nowhere. *)
Theorem parallel_entry_point_always_raises
        (ext : External) (semantic_agent : Agent)
        (discovery_coroutine : json -> list ComponentCard -> M json)
        (param_coroutine : string -> json -> json -> M json)
        (remainder : QuantumOrchestrator.Locals -> QuantumOrchestrator.pyobj ->
                     QuantumOrchestrator.pyobj -> M json)
        (query : string) (registry_data : list ComponentCard)
        (tr : list event) :
  let sem := SemanticAgent.process ext semantic_agent query tr in
  let run :=
    QuantumOrchestrator.generate_quantum_code_parallel
      ext semantic_agent discovery_coroutine param_coroutine remainder
      query registry_data tr in
  raises RuntimeError (fst run)
  /\ fst run
     = match fst sem with
       | Raise e => parallel_failure e
       | Ok _ =>
           parallel_failure
             (Exn UnboundLocalError
                  "cannot access local variable 'components' where it is not associated with a value")
       end
  /\ snd run = snd sem
  /\ (exists m, snd run = (tr ++ attempts_trace semantic_agent query m)%list)
  /\ (forall tc dt pt c,
         QuantumOrchestrator.run_parallel
           ext semantic_agent discovery_coroutine param_coroutine remainder
           {| QuantumOrchestrator.task_card := tc;
              QuantumOrchestrator.discovery_task := dt;
              QuantumOrchestrator.param_map_task := pt;
              QuantumOrchestrator.components := Some c |}
           query registry_data tr
         = (match fst sem with
            | Raise e => parallel_failure e
            | Ok _ =>
                parallel_failure
                  (Exn NameError "name 'param_norm_task' is not defined")
            end, snd sem)).
Proof.
  intros sem run.
  assert (Hrun : run
                 = (match fst sem with
                    | Raise e => parallel_failure e
                    | Ok _ =>
                        parallel_failure
                          (Exn UnboundLocalError
                               "cannot access local variable 'components' where it is not associated with a value")
                    end, snd sem)).
  { unfold run, QuantumOrchestrator.generate_quantum_code_parallel.
    rewrite run_parallel_eq. reflexivity. }
  rewrite Hrun. cbn [fst snd].
  split; [|split; [reflexivity|split; [reflexivity|split]]].
  - destruct (fst sem); eexists; reflexivity.
  - apply semantic_process_events.
  - intros tc dt pt c. rewrite run_parallel_eq. reflexivity.
Qed.

(** ** Dictionaries *)

Lemma get_set_same {V} (k : string) (v : V) (d : dict V) :
  Dict.get k (Dict.set k v d) = Some v.
Proof.
  induction d as [|[k' v'] d IH]; simpl.
  - now rewrite String.eqb_refl.
  - destruct (String.eqb k k') eqn:E; simpl; rewrite ?String.eqb_refl, ?E; auto.
Qed.

Lemma get_set_other {V} (k k' : string) (v : V) (d : dict V) :
  k <> k' -> Dict.get k (Dict.set k' v d) = Dict.get k d.
Proof.
  intros Hne. induction d as [|[k0 v0] d IH]; simpl.
  - apply String.eqb_neq in Hne. now rewrite Hne.
  - destruct (String.eqb k' k0) eqn:E; simpl.
    + apply String.eqb_eq in E. subst k0.
      apply String.eqb_neq in Hne. now rewrite Hne.
    + destruct (String.eqb k k0); auto.
Qed.

Lemma get_In {V} (k : string) (v : V) (d : dict V) :
  Dict.get k d = Some v -> In (k, v) d.
Proof.
  induction d as [|[k' v'] d IH]; simpl; [discriminate|].
  destruct (String.eqb k k') eqn:E.
  - apply String.eqb_eq in E. intros [= ->]. subst. now left.
  - intros H. right. now apply IH.
Qed.

(** A loop that stores [f a] under every [a] of a list. *)
Lemma get_fold_set {V} (f : string -> V) (l : list string) :
  forall (d : dict V) (k : string),
    Dict.get k (fold_left (fun d a => Dict.set a (f a) d) l d)
    = if mem k l then Some (f k) else Dict.get k d.
Proof.
  induction l as [|a l IH]; intros d k; [reflexivity|].
  simpl fold_left. rewrite IH. unfold mem. simpl existsb.
  fold (mem k l). destruct (mem k l); [now rewrite orb_true_r|].
  rewrite orb_false_r. destruct (String.eqb k a) eqn:E.
  - apply String.eqb_eq in E. subst. apply get_set_same.
  - apply get_set_other. now apply String.eqb_neq.
Qed.

(** ** The dependency analysis *)

Section BinderFacts.
Variable ext : External.

Local Abbreviation name_of := (fun c : ComponentCard => get_or "" (c_name c)).

Lemma classify_components_fold (components : list ComponentCard) :
  forall (d : dict string) (n : string),
    Dict.get n
      (fold_left
         (fun component_types component =>
            let name := get_or "" (c_name component) in
            match CodegenAgent.classify name with
            | Some type_ => Dict.set name type_ component_types
            | None => component_types
            end) components d)
    = match role_in components n with
      | Some r => Some r
      | None => Dict.get n d
      end.
Proof.
  induction components as [|c cs IH]; intros d n; [reflexivity|].
  simpl fold_left. rewrite IH. unfold role_in. simpl map. unfold mem.
  simpl existsb. fold (mem n (map name_of cs)).
  destruct (String.eqb n (name_of c)) eqn:E.
  - apply String.eqb_eq in E. rewrite <- E. simpl orb.
    destruct (CodegenAgent.classify n) eqn:C.
    + rewrite get_set_same. now destruct (mem n (map name_of cs)).
    + now destruct (mem n (map name_of cs)).
  - simpl orb.
    assert (Hd : Dict.get n
                   (match CodegenAgent.classify (name_of c) with
                    | Some type_ => Dict.set (name_of c) type_ d
                    | None => d
                    end) = Dict.get n d).
    { destruct (CodegenAgent.classify (name_of c)); [|reflexivity].
      apply get_set_other. now apply String.eqb_neq. }
    cbv zeta. rewrite Hd. reflexivity.
Qed.

(** [component_types] holds exactly the classified names. *)
Lemma component_types_get (components : list ComponentCard) (n : string) :
  Dict.get n (CodegenAgent.classify_components components)
  = role_in components n.
Proof.
  unfold CodegenAgent.classify_components.
  rewrite classify_components_fold. now destruct (role_in components n).
Qed.

(** The roles are the five of the table. *)
Lemma classify_roles (n r : string) :
  CodegenAgent.classify n = Some r ->
  In r ["hamiltonian"; "optimizer"; "circuit"; "backend"; "algorithm"].
Proof.
  unfold CodegenAgent.classify.
  repeat match goal with
         | |- context [if ?b then _ else _] => destruct b
         end; intros [= <-]; simpl; tauto.
Qed.

Lemma role_in_roles (components : list ComponentCard) (n r : string) :
  role_in components n = Some r ->
  In r ["hamiltonian"; "optimizer"; "circuit"; "backend"; "algorithm"].
Proof.
  unfold role_in. destruct (mem n _); [apply classify_roles|discriminate].
Qed.

(** On a role of the table the variable is the one of the table. *)
Lemma variable_of_role (n r : string) :
  In r ["hamiltonian"; "optimizer"; "circuit"; "backend"; "algorithm"] ->
  role_variable r = Some (CodegenAgent._get_variable_name ext n r).
Proof.
  intros H. simpl in H.
  repeat (destruct H as [<-|H]; [reflexivity|]). contradiction.
Qed.

(** The table gives different variables to different roles. *)
Lemma role_variable_injective (r1 r2 x : string) :
  role_variable r1 = Some x -> role_variable r2 = Some x -> r1 = r2.
Proof.
  unfold role_variable, CodegenAgent.type_mapping. simpl.
  repeat match goal with
         | |- context [String.eqb ?a ?b] =>
             let E := fresh "E" in
             destruct (String.eqb a b) eqn:E;
             [apply String.eqb_eq in E; subst|]
         end; intros H1 H2; try discriminate;
    try (injection H1 as <-; discriminate H2);
    reflexivity.
Qed.

(** The entries of [algo_deps], in terms of the classification. *)
Lemma algo_deps_names (components : list ComponentCard) (order : list string)
      (A : string) :
  map dep_name
      (CodegenAgent.algo_deps_of ext
         (CodegenAgent.classify_components components) order A)
  = filter (fun n => negb (String.eqb n A) && classified components n) order.
Proof.
  unfold CodegenAgent.algo_deps_of, classified.
  induction order as [|n order IH]; [reflexivity|].
  simpl. rewrite map_app, IH, component_types_get.
  destruct (String.eqb n A); simpl; [reflexivity|].
  destruct (role_in components n); reflexivity.
Qed.

Lemma algo_deps_canonical (components : list ComponentCard)
      (order : list string) (A : string) :
  Forall (canonical_entry components)
         (CodegenAgent.algo_deps_of ext
            (CodegenAgent.classify_components components) order A).
Proof.
  unfold CodegenAgent.algo_deps_of.
  induction order as [|n order IH]; [constructor|].
  simpl. apply Forall_app. split; [|exact IH].
  destruct (String.eqb n A); simpl; [constructor|].
  rewrite component_types_get.
  destruct (role_in components n) as [r|] eqn:R; constructor; [|constructor].
  split; simpl; [exact R|].
  apply variable_of_role. now apply role_in_roles with components n.
Qed.

(** The binding of a component classified as algorithm is the
    [algo_deps] computed for it. *)
Lemma binding_of_algorithm (components : list ComponentCard)
      (plan : PipelinePlan) (A : string) :
  role_in components A = Some "algorithm" ->
  CodegenAgent.binding_of ext components plan A
  = Some (CodegenAgent.algo_deps_of ext
            (CodegenAgent.classify_components components)
            (get_or [] (execution_order plan)) A).
Proof.
  intros HA. unfold CodegenAgent.binding_of,
               CodegenAgent._analyze_component_dependencies.
  cbn [algorithm_dependencies].
  rewrite (get_fold_set
             (fun algo_name =>
                {| ad_type := "algorithm";
                   requires :=
                     CodegenAgent.algo_deps_of ext
                       (CodegenAgent.classify_components components)
                       (get_or [] (execution_order plan)) algo_name;
                   usage_pattern :=
                     CodegenAgent.usage_pattern_of algo_name
                       (CodegenAgent.algo_deps_of ext
                          (CodegenAgent.classify_components components)
                          (get_or [] (execution_order plan)) algo_name) |})).
  assert (Hin : mem A (map fst
                         (filter (fun nt => String.eqb (snd nt) "algorithm")
                                 (CodegenAgent.classify_components components)))
                = true).
  { unfold mem. apply existsb_exists. exists A. split; [|apply String.eqb_refl].
    change A with (fst (A, "algorithm")). apply in_map.
    apply filter_In. split; [|reflexivity].
    apply get_In. now rewrite component_types_get. }
  rewrite Hin. reflexivity.
Qed.

Lemma filter_ext_in {A} (f g : A -> bool) (l : list A) :
  (forall x, In x l -> f x = g x) -> filter f l = filter g l.
Proof.
  induction l as [|x l IH]; intros H; [reflexivity|].
  simpl. rewrite (H x (or_introl eq_refl)), IH; [reflexivity|].
  intros y Hy. apply H. now right.
Qed.

End BinderFacts.

Section BinderClaims.
Variable ext : External.

Lemma supporting_entries (components : list ComponentCard)
      (order : list string) (A : string) :
  role_in components A = Some "algorithm" ->
  map dep_name
      (filter is_supporting_entry
              (CodegenAgent.algo_deps_of ext
                 (CodegenAgent.classify_components components) order A))
  = filter (supporting components) order.
Proof.
  intros HA. unfold CodegenAgent.algo_deps_of, supporting.
  induction order as [|n order IH]; [reflexivity|].
  simpl. rewrite filter_app, map_app, IH, component_types_get.
  destruct (String.eqb n A) eqn:E; simpl.
  - apply String.eqb_eq in E. subst n. rewrite HA. reflexivity.
  - destruct (role_in components n) as [r|]; [|reflexivity].
    unfold is_supporting_entry. simpl.
    destruct (String.eqb r "algorithm"); reflexivity.
Qed.

Lemma canonical_variables_distinct (components : list ComponentCard)
      (deps : list Dependency) :
  Forall (canonical_entry components) deps ->
  NoDup (map dep_type deps) -> NoDup (map dep_variable deps).
Proof.
  induction 1 as [|d deps Hd Hall IH]; intros Hnd; [constructor|].
  simpl in *. inversion Hnd as [|? ? Hnotin Hnd']; subst.
  constructor; [|now apply IH].
  intros Hin. apply Hnotin.
  apply in_map_iff in Hin as (d' & Hvar & Hd').
  apply in_map_iff. exists d'. split; [|exact Hd'].
  rewrite Forall_forall in Hall. destruct (Hall d' Hd') as [_ H1].
  destruct Hd as [_ H2]. rewrite Hvar in H1.
  exact (role_variable_injective _ _ _ H1 H2).
Qed.

(** C1, as the code has it.  For a component [A] classified as
    algorithm, the entries of its binding that belong to components
    other than algorithms are the classified non-algorithm names of
    [execution_order], wherever they stand and as often as they occur,
    in that order, each with its role and the variable the table gives
    that role.  When the plan ends with [A] and no name before it is
    classified as algorithm, the binding has one entry for each of the
    k classified names before [A], in order, each with the variable of
    its role; these variables are distinct when the roles are. *)
Theorem binding_of_algorithm_component
        (components : list ComponentCard) (plan : PipelinePlan) (A : string) :
  role_in components A = Some "algorithm" ->
  let order := get_or [] (execution_order plan) in
  exists deps,
    CodegenAgent.binding_of ext components plan A = Some deps
    /\ map dep_name (filter is_supporting_entry deps)
       = filter (supporting components) order
    /\ Forall (canonical_entry components) (filter is_supporting_entry deps)
    /\ (forall before,
           order = (before ++ [A])%list ->
           Forall (fun n => role_in components n <> Some "algorithm") before ->
           map dep_name deps = filter (classified components) before
           /\ length deps = length (filter (classified components) before)
           /\ Forall (canonical_entry components) deps
           /\ (NoDup (map dep_type deps) -> NoDup (map dep_variable deps))).
Proof.
  intros HA order.
  exists (CodegenAgent.algo_deps_of ext
            (CodegenAgent.classify_components components) order A).
  split; [now apply binding_of_algorithm|].
  split; [now apply supporting_entries|].
  pose proof (algo_deps_canonical ext components order A) as Hcanon.
  split.
  - rewrite Forall_forall in *. intros d Hd.
    apply filter_In in Hd. now apply Hcanon.
  - intros before Horder Hbefore.
    assert (Hnames :
              map dep_name
                  (CodegenAgent.algo_deps_of ext
                     (CodegenAgent.classify_components components) order A)
              = filter (classified components) before).
    { rewrite algo_deps_names, Horder, filter_app. simpl.
      rewrite String.eqb_refl. simpl. rewrite app_nil_r.
      apply filter_ext_in. intros n Hn.
      rewrite Forall_forall in Hbefore. specialize (Hbefore n Hn).
      destruct (String.eqb n A) eqn:E; [|reflexivity].
      apply String.eqb_eq in E. subst n. contradiction. }
    split; [exact Hnames|]. split.
    + rewrite <- Hnames. now rewrite length_map.
    + split; [exact Hcanon|]. now apply canonical_variables_distinct with components.
Qed.

End BinderClaims.

(** The scenario of the specification: one Hamiltonian, one optimizer,
    one circuit, one backend and the algorithm, in this order. *)
Lemma binding_of_algorithm_component_witness :
  let components :=
    [Examples.card "quantum.TFIMHamiltonian" "hamiltonian";
     Examples.card "quantum.COBYLAOptimizer" "optimizer";
     Examples.card "quantum.TwoLocalAnsatz" "circuit";
     Examples.card "quantum.AerEstimator" "backend";
     Examples.card "quantum.VQEAlgorithm" "algorithm"] in
  let order :=
    ["quantum.TFIMHamiltonian"; "quantum.COBYLAOptimizer";
     "quantum.TwoLocalAnsatz"; "quantum.AerEstimator"; "quantum.VQEAlgorithm"] in
  role_in components "quantum.VQEAlgorithm" = Some "algorithm"
  /\ exists deps,
      CodegenAgent.binding_of Examples.silent components (Examples.plan order)
                              "quantum.VQEAlgorithm" = Some deps
      /\ map dep_name deps
         = ["quantum.TFIMHamiltonian"; "quantum.COBYLAOptimizer";
            "quantum.TwoLocalAnsatz"; "quantum.AerEstimator"]
      /\ length deps = 4%nat
      /\ Forall (canonical_entry components) deps.
Proof.
  intros components order.
  assert (HA : role_in components "quantum.VQEAlgorithm" = Some "algorithm")
    by (vm_compute; reflexivity).
  split; [exact HA|].
  destruct (binding_of_algorithm_component
              Examples.silent components (Examples.plan order)
              "quantum.VQEAlgorithm" HA) as (deps & Hb & _ & _ & Hlast).
  exists deps. split; [exact Hb|].
  destruct (Hlast ["quantum.TFIMHamiltonian"; "quantum.COBYLAOptimizer";
                   "quantum.TwoLocalAnsatz"; "quantum.AerEstimator"])
    as (Hnames & Hlen & Hcanon & _).
  - reflexivity.
  - repeat constructor; vm_compute; discriminate.
  - split; [exact Hnames|]. split; [exact Hlen|exact Hcanon].
Defined.

(** C1 as stated fails on two counts.  Two Hamiltonians before the
    algorithm both get the variable [H]: the binding has two entries
    whose variables are not distinct.  And a component that stands after
    the algorithm in [execution_order] is in its binding as well. *)
Lemma binding_variables_repeat_and_followers_bound :
  (let components :=
     [Examples.card "spin.TFIMHamiltonian" "hamiltonian";
      Examples.card "spin.HeisenbergHamiltonian" "hamiltonian";
      Examples.card "algo.VQEAlgorithm" "algorithm"] in
   let order :=
     ["spin.TFIMHamiltonian"; "spin.HeisenbergHamiltonian"; "algo.VQEAlgorithm"] in
   option_map (map dep_variable)
     (CodegenAgent.binding_of Examples.silent components (Examples.plan order)
                              "algo.VQEAlgorithm")
   = Some ["H"; "H"])
  /\ (let components :=
        [Examples.card "spin.TFIMHamiltonian" "hamiltonian";
         Examples.card "algo.VQEAlgorithm" "algorithm"] in
      let order := ["algo.VQEAlgorithm"; "spin.TFIMHamiltonian"] in
      option_map (map dep_name)
        (CodegenAgent.binding_of Examples.silent components (Examples.plan order)
                                 "algo.VQEAlgorithm")
      = Some ["spin.TFIMHamiltonian"]).
Proof. vm_compute. split; reflexivity. Qed.

(** ** The relevance filter *)

Lemma json_eqb_refl (j : json) : json_eqb j j = true.
Proof.
  induction j as [| b | z | s | s | items IH | fields IH] using json_induction;
    simpl.
  - reflexivity.
  - now destruct b.
  - apply Z.eqb_refl.
  - apply String.eqb_refl.
  - apply String.eqb_refl.
  - induction IH as [|x l Hx Hl IHl]; [reflexivity|]. now rewrite Hx, IHl.
  - induction IH as [|[k x] l Hx Hl IHl]; [reflexivity|].
    simpl in Hx. now rewrite String.eqb_refl, Hx, IHl.
Qed.

Lemma card_eqb_refl (c : ComponentCard) : card_eqb c c = true.
Proof.
  unfold card_eqb.
  assert (H1 : forall o : option string, option_eqb String.eqb o o = true)
    by (intros [s|]; simpl; [apply String.eqb_refl|reflexivity]).
  assert (H2 : forall l : list string, list_eqb String.eqb l l = true)
    by (induction l as [|x l IH]; simpl;
        [reflexivity|now rewrite String.eqb_refl, IH]).
  rewrite !H1.
  replace (option_eqb (list_eqb String.eqb) (c_tags c) (c_tags c)) with true
    by (destruct (c_tags c); simpl; [now rewrite H2|reflexivity]).
  replace (option_eqb (fun x y => json_eqb (JObj x) (JObj y))
                      (c_params_schema c) (c_params_schema c)) with true
    by (destruct (c_params_schema c); simpl;
        [symmetry; apply (json_eqb_refl (JObj _))|reflexivity]).
  now rewrite (json_eqb_refl (JObj (c_other c))).
Qed.

(** Equal cards carry the same name. *)
Lemma card_eqb_name (a b : ComponentCard) :
  card_eqb a b = true -> c_name a = c_name b.
Proof.
  unfold card_eqb. intros H.
  repeat (apply andb_true_iff in H as [H _]).
  destruct (c_name a), (c_name b); simpl in H; try discriminate; [|reflexivity].
  apply String.eqb_eq in H. now subst.
Qed.

(** Cards that [==] finds equal carry the same name. *)
Lemma card_eq_name (ext : External) (a b : ComponentCard) :
  card_eq ext a b = true -> c_name a = c_name b.
Proof.
  unfold card_eq. intros H.
  repeat (apply andb_true_iff in H as [H _]).
  destruct (c_name a), (c_name b); simpl in H; try discriminate; [|reflexivity].
  apply String.eqb_eq in H. now subst.
Qed.

(** In a list whose elements differ by what [f] makes of them, two
    elements that [f] maps alike are one. *)
Lemma NoDup_map_same {A B} (f : A -> B) (l : list A) (a b : A) :
  NoDup (map f l) -> In a l -> In b l -> f a = f b -> a = b.
Proof.
  induction l as [|x l IH]; intros Hnd Ha Hb Hf; [contradiction|].
  cbn [map] in Hnd. apply NoDup_cons_iff in Hnd as [Hx Hnd].
  destruct Ha as [->|Ha], Hb as [->|Hb].
  - reflexivity.
  - destruct Hx. rewrite Hf. now apply in_map.
  - destruct Hx. rewrite <- Hf. now apply in_map.
  - now apply IH.
Qed.

Lemma NoDup_map_NoDup {A B} (f : A -> B) (l : list A) :
  NoDup (map f l) -> NoDup l.
Proof.
  induction l as [|x l IH]; intros H; [constructor|].
  cbn [map] in H. apply NoDup_cons_iff in H as [Hx H].
  constructor; [|now apply IH].
  intros Hin. apply Hx. now apply in_map.
Qed.

Section FilterFacts.
Variable ext : External.

Local Abbreviation step :=
  (fun (filtered_components : list ComponentCard) (component : ComponentCard) =>
     if is_essential component
     then if negb (card_in ext component filtered_components)
          then (filtered_components ++ [component])%list
          else filtered_components
     else filtered_components).

Lemma force_include_cons (y : ComponentCard) (reg filtered : list ComponentCard) :
  force_include ext (y :: reg) filtered
  = force_include ext reg (step filtered y).
Proof. reflexivity. Qed.

(** The second loop only appends. *)
Lemma force_include_keeps (registry_data : list ComponentCard) :
  forall filtered x,
    In x filtered -> In x (force_include ext registry_data filtered).
Proof.
  induction registry_data as [|y reg IH]; intros filtered x Hx; [exact Hx|].
  rewrite force_include_cons. apply IH. cbv beta.
  destruct (is_essential y); [|exact Hx].
  destruct (negb (card_in ext y filtered)); [|exact Hx].
  apply in_or_app. now left.
Qed.

(** A list holds its own elements. *)
Lemma card_in_member (c : ComponentCard) (l : list ComponentCard) :
  In c l -> card_in ext c l = true.
Proof.
  intros H. unfold card_in. apply existsb_exists.
  exists c. split; [exact H|]. now rewrite card_eqb_refl.
Qed.

(** What a list holds in the sense of [in] has the name of one of its
    elements. *)
Lemma card_in_name (c : ComponentCard) (l : list ComponentCard) :
  card_in ext c l = true -> exists e, In e l /\ c_name e = c_name c.
Proof.
  unfold card_in. rewrite existsb_exists. intros (e & He & E).
  exists e. split; [exact He|].
  apply orb_true_iff in E as [E|E];
    [now apply card_eqb_name|now apply (card_eq_name ext)].
Qed.

Lemma card_in_keeps (registry_data filtered : list ComponentCard)
      (x : ComponentCard) :
  card_in ext x filtered = true ->
  card_in ext x (force_include ext registry_data filtered) = true.
Proof.
  unfold card_in. rewrite !existsb_exists. intros (y & Hy & E).
  exists y. split; [now apply force_include_keeps|exact E].
Qed.

(** After the second loop every essential component of the registry
    is present. *)
Lemma force_include_essential (registry_data : list ComponentCard) :
  forall filtered x,
    In x registry_data -> is_essential x = true ->
    card_in ext x (force_include ext registry_data filtered) = true.
Proof.
  induction registry_data as [|y reg IH]; intros filtered x Hx Hess;
    [contradiction|].
  rewrite force_include_cons.
  destruct Hx as [->|Hx]; [|now apply IH].
  apply card_in_keeps. cbv beta. rewrite Hess.
  destruct (card_in ext x filtered) eqn:E; simpl; [exact E|].
  apply card_in_member. apply in_or_app. right. now left.
Qed.

(** The second loop only appends, and what it appends is essential,
    comes from the registry and was not there. *)
Lemma force_include_appends (registry_data : list ComponentCard) :
  forall filtered,
    exists added,
      force_include ext registry_data filtered = (filtered ++ added)%list
      /\ Forall (fun c => In c registry_data /\ is_essential c = true
                          /\ card_in ext c filtered = false) added.
Proof.
  induction registry_data as [|y reg IH]; intros filtered.
  - exists []. split; [now rewrite app_nil_r|constructor].
  - rewrite force_include_cons. cbv beta.
    destruct (is_essential y) eqn:E.
    + destruct (card_in ext y filtered) eqn:C; cbn [negb].
      * destruct (IH filtered) as (added & Heq & Hall).
        exists added. split; [exact Heq|].
        eapply Forall_impl; [|exact Hall].
        intros c (Hin & He & Hc). repeat split; try assumption. now right.
      * destruct (IH (filtered ++ [y])%list) as (added & Heq & Hall).
        exists (y :: added). split.
        { rewrite Heq, <- app_assoc. reflexivity. }
        constructor.
        { repeat split; [now left|exact E|exact C]. }
        eapply Forall_impl; [|exact Hall].
        intros c (Hin & He & Hc). repeat split; [now right|exact He|].
        unfold card_in in *. rewrite existsb_app in Hc.
        now apply orb_false_iff in Hc.
    + destruct (IH filtered) as (added & Heq & Hall).
      exists added. split; [exact Heq|].
      eapply Forall_impl; [|exact Hall].
      intros c (Hin & He & Hc). repeat split; try assumption. now right.
Qed.

(** Whatever the filter returns is an entry of the registry. *)
Lemma filter_result_from_registry (task_card : TaskCard)
      (registry_data : list ComponentCard) (c : ComponentCard) :
  In c (_filter_relevant_components ext task_card registry_data) ->
  In c registry_data.
Proof.
  unfold _filter_relevant_components.
  destruct (Nat.ltb _ 3).
  - destruct (force_include_appends registry_data
                (filter (fun component =>
                           (2 <=? relevance_score
                                    ext (lower ext (get_or "" (t_domain task_card)))
                                    (lower ext (get_or "" (t_algorithm task_card)))
                                    component)%Z) registry_data))
      as (added & -> & Hall).
    intros H. apply in_app_or in H as [H|H].
    + now apply filter_In in H.
    + rewrite Forall_forall in Hall. now apply Hall.
  - intros H. now apply filter_In in H.
Qed.

(** When fewer than three entries pass the cutoff, every essential
    entry of the registry is in the result in the sense of [in]. *)
Lemma essential_entries_present (task_card : TaskCard)
      (registry_data : list ComponentCard) (x : ComponentCard) :
  (length
     (filter (fun component =>
                (2 <=? relevance_score
                         ext (lower ext (get_or "" (t_domain task_card)))
                         (lower ext (get_or "" (t_algorithm task_card)))
                         component)%Z)
             registry_data) < 3)%nat ->
  In x registry_data -> is_essential x = true ->
  card_in ext x (_filter_relevant_components ext task_card registry_data) = true.
Proof.
  intros Hlt Hx Ex. unfold _filter_relevant_components.
  apply Nat.ltb_lt in Hlt. rewrite Hlt.
  now apply force_include_essential.
Qed.

(** C5.  In a registry whose entries have names of their own (the
    data model makes the name of a component unique), the floor of the
    filter holds as the claim states it.  When the registry holds at
    least three entries of kind core, backend or algorithm, the filter
    returns at least three entries, whatever the scores.  And whenever
    fewer than three entries pass the cutoff, every entry of the
    registry of one of these kinds is in the result. *)
Theorem filter_floor
        (task_card : TaskCard) (registry_data : list ComponentCard) :
  NoDup (map c_name registry_data) ->
  ((3 <= length (filter is_essential registry_data))%nat ->
   (3 <= length (_filter_relevant_components ext task_card registry_data))%nat)
  /\ ((length
         (filter (fun component =>
                    (2 <=? relevance_score
                             ext (lower ext (get_or "" (t_domain task_card)))
                             (lower ext (get_or "" (t_algorithm task_card)))
                             component)%Z)
                 registry_data) < 3)%nat ->
      forall x, In x registry_data -> is_essential x = true ->
                In x (_filter_relevant_components ext task_card registry_data)).
Proof.
  intros Hnames.
  assert (Hpresent :
            (length
               (filter (fun component =>
                          (2 <=? relevance_score
                                   ext (lower ext (get_or "" (t_domain task_card)))
                                   (lower ext
                                      (get_or "" (t_algorithm task_card)))
                                   component)%Z)
                       registry_data) < 3)%nat ->
            forall x, In x registry_data -> is_essential x = true ->
                      In x (_filter_relevant_components ext task_card
                                                        registry_data)).
  { intros Hlt x Hx Ex.
    destruct (card_in_name x _ (essential_entries_present task_card
                                  registry_data x Hlt Hx Ex))
      as (e & He & Hname).
    assert (e = x); [|now subst].
    apply (NoDup_map_same c_name registry_data); try assumption.
    now apply (filter_result_from_registry task_card). }
  split; [|exact Hpresent].
  intros Hthree.
  destruct (Nat.ltb
              (length
                 (filter (fun component =>
                            (2 <=? relevance_score
                                     ext
                                     (lower ext (get_or "" (t_domain task_card)))
                                     (lower ext
                                        (get_or "" (t_algorithm task_card)))
                                     component)%Z)
                         registry_data)) 3) eqn:E.
  - apply Nat.ltb_lt in E.
    etransitivity; [exact Hthree|].
    apply NoDup_incl_length.
    + apply NoDup_filter. now apply (NoDup_map_NoDup c_name).
    + intros x Hx. apply filter_In in Hx as [Hx Ex].
      now apply Hpresent.
  - unfold _filter_relevant_components. rewrite E.
    now apply Nat.ltb_ge in E.
Qed.

End FilterFacts.

(** An instance: a registry of a backend, a core helper and an
    algorithm, none of them to the liking of the scores but the last. *)
Lemma filter_floor_witness :
  let registry :=
    [Examples.card "runtime.AerBackend" "backend";
     Examples.card "runtime.Utilities" "core";
     Examples.card "chem.QPEAlgorithm" "algorithm"] in
  NoDup (map c_name registry)
  /\ (3 <= length (filter is_essential registry))%nat
  /\ (3 <= length (_filter_relevant_components Examples.silent Examples.task
                                               registry))%nat
  /\ In (Examples.card "runtime.Utilities" "core")
        (_filter_relevant_components Examples.silent Examples.task registry).
Proof.
  intros registry.
  assert (Hnames : NoDup (map c_name registry)).
  { repeat (constructor; [cbn; intuition discriminate|]). constructor. }
  assert (Hthree : (3 <= length (filter is_essential registry))%nat)
    by (vm_compute; lia).
  destruct (filter_floor Examples.silent Examples.task registry Hnames)
    as [H1 H2].
  split; [exact Hnames|]. split; [exact Hthree|]. split; [exact (H1 Hthree)|].
  apply H2; [vm_compute; lia|right; left; reflexivity|reflexivity].
Defined.

(** ** Schema compression *)

Lemma filter_idempotent {A} (p : A -> bool) (l : list A) :
  filter p (filter p l) = filter p l.
Proof.
  induction l as [|x l IH]; [reflexivity|].
  simpl. destruct (p x) eqn:E; simpl; rewrite ?E, IH; reflexivity.
Qed.

Lemma compress_spec_idempotent (param_spec : json) :
  compress_spec (compress_spec param_spec) = compress_spec param_spec.
Proof.
  destruct param_spec; simpl; try reflexivity.
  now rewrite filter_idempotent.
Qed.

Lemma compress_entries_idempotent (schema : dict json) :
  map (fun kv => (fst kv, compress_spec (snd kv)))
      (map (fun kv => (fst kv, compress_spec (snd kv))) schema)
  = map (fun kv => (fst kv, compress_spec (snd kv))) schema.
Proof.
  rewrite map_map. apply map_ext. intros [k v]. simpl.
  now rewrite compress_spec_idempotent.
Qed.

Lemma compress_schema_get (schema : dict json) (param_name : string) :
  Dict.get param_name (_compress_schema schema)
  = option_map compress_spec (Dict.get param_name schema).
Proof.
  unfold _compress_schema.
  induction schema as [|[k v] schema IH]; [reflexivity|].
  simpl. destruct (String.eqb param_name k); [reflexivity|exact IH].
Qed.

(** C8.  Compressing twice is compressing once, for the schema
    compressor of the parameter stage and for the component compressors
    of both stages.  A compressed schema has the parameters of the
    schema, in order; a parameter whose spec is a mapping keeps the
    entries of that mapping whose key is type, default, range or
    options, and only those; any other spec is passed on unchanged.
    The component compressor of the discovery stage gives every
    component that has a schema that compressed schema and changes
    nothing else of it; the one of the parameter stage gives every
    component its name, its kind and its compressed schema (for want of
    them the empty name, kind and schema) and nothing else. *)
Theorem compress_idempotent_and_keeps_core_keys :
  (forall schema,
      _compress_schema (_compress_schema schema) = _compress_schema schema)
  /\ (forall components,
         _compress_schema_for_llm (_compress_schema_for_llm components)
         = _compress_schema_for_llm components)
  /\ (forall components,
         _compress_components_for_llm (_compress_components_for_llm components)
         = _compress_components_for_llm components)
  /\ (forall schema,
         map fst (_compress_schema schema) = map fst schema
         /\ forall param_name,
             Dict.get param_name (_compress_schema schema)
             = option_map compress_spec (Dict.get param_name schema))
  /\ (forall fields,
         exists kept,
           compress_spec (JObj fields) = JObj kept
           /\ forall key value,
               In (key, value) kept
               <-> In (key, value) fields
                   /\ In key ["type"; "default"; "range"; "options"])
  /\ (compress_spec JNull = JNull
      /\ (forall b, compress_spec (JBool b) = JBool b)
      /\ (forall z, compress_spec (JInt z) = JInt z)
      /\ (forall x, compress_spec (JFloat x) = JFloat x)
      /\ (forall s, compress_spec (JStr s) = JStr s)
      /\ (forall items, compress_spec (JArr items) = JArr items))
  /\ (forall components,
         map c_params_schema (_compress_schema_for_llm components)
         = map (fun component =>
                  option_map _compress_schema (c_params_schema component))
               components
         /\ map c_name (_compress_schema_for_llm components)
            = map c_name components
         /\ map c_kind (_compress_schema_for_llm components)
            = map c_kind components
         /\ map c_tags (_compress_schema_for_llm components)
            = map c_tags components
         /\ map c_other (_compress_schema_for_llm components)
            = map c_other components)
  /\ (forall components,
         map c_params_schema (_compress_components_for_llm components)
         = map (fun component =>
                  Some (_compress_schema
                          (get_or [] (c_params_schema component))))
               components
         /\ map c_name (_compress_components_for_llm components)
            = map (fun component => Some (get_or "" (c_name component)))
                  components
         /\ map c_kind (_compress_components_for_llm components)
            = map (fun component => Some (get_or "" (c_kind component)))
                  components
         /\ Forall (fun compressed =>
                      c_tags compressed = None /\ c_other compressed = [])
                   (_compress_components_for_llm components)).
Proof.
  split; [|split; [|split; [|split; [|split; [|split; [|split]]]]]].
  - intros schema. apply compress_entries_idempotent.
  - intros components. unfold _compress_schema_for_llm.
    rewrite map_map. apply map_ext. intros c.
    destruct (c_params_schema c) as [schema|] eqn:E; cbn [c_params_schema].
    + now rewrite compress_entries_idempotent.
    + now rewrite E.
  - intros components. unfold _compress_components_for_llm.
    rewrite map_map. apply map_ext. intros c. cbn.
    f_equal. f_equal. apply compress_entries_idempotent.
  - intros schema. split.
    + unfold _compress_schema. rewrite map_map. reflexivity.
    + intros param_name. apply compress_schema_get.
  - intros fields. eexists. split; [reflexivity|].
    intros key value. rewrite filter_In. cbn [fst].
    split; intros [H1 H2]; (split; [exact H1|]).
    + now apply mem_In.
    + unfold mem. apply existsb_exists. exists key.
      split; [exact H2|apply String.eqb_refl].
  - repeat split; reflexivity.
  - intros components. unfold _compress_schema_for_llm.
    rewrite !map_map.
    repeat split; apply map_ext; intros c;
      destruct (c_params_schema c) eqn:E; cbn; rewrite ?E; reflexivity.
  - intros components. unfold _compress_components_for_llm.
    rewrite !map_map. repeat split.
    apply Forall_forall. intros c Hc.
    apply in_map_iff in Hc as (x & <- & _). split; reflexivity.
Qed.

(** An instance: the description of a parameter goes, its type and
    default stay, a scalar spec stays, and a second pass changes
    nothing. *)
Lemma compress_idempotent_and_keeps_core_keys_witness :
  _compress_schema Examples.schema
  = [("n", JObj [("type", JStr "int"); ("default", JInt 4)]);
     ("boundary", JStr "periodic")]
  /\ _compress_schema (_compress_schema Examples.schema)
     = _compress_schema Examples.schema.
Proof.
  split; [reflexivity|].
  exact (proj1 compress_idempotent_and_keeps_core_keys Examples.schema).
Defined.

(** ** The learning memory *)

Lemma keep_last_short {A} (n : nat) (l : list A) :
  (length l <= n)%nat -> keep_last n l = l.
Proof.
  intros H. unfold keep_last. replace (length l - n)%nat with 0%nat by lia.
  reflexivity.
Qed.

Lemma keep_last_length {A} (n : nat) (l : list A) :
  (length (keep_last n l) <= n)%nat.
Proof. unfold keep_last. rewrite length_skipn. lia. Qed.

(** Dropping old entries early or late is the same. *)
Lemma keep_last_app {A} (n : nat) (a b : list A) :
  keep_last n (keep_last n a ++ b) = keep_last n (a ++ b).
Proof.
  destruct (Nat.le_gt_cases (length a) n) as [Hle|Hgt].
  - now rewrite (keep_last_short n a Hle).
  - unfold keep_last. rewrite !length_app, length_skipn.
    replace (length a - (length a - n) + length b - n)%nat
      with (length b) by lia.
    replace (length a + length b - n)%nat
      with (length b + (length a - n))%nat by lia.
    rewrite <- skipn_skipn. f_equal.
    rewrite skipn_app.
    replace (length a - n - length a)%nat with 0%nat by lia.
    reflexivity.
Qed.

(** The size check of [record_param_processing] keeps the last fifty
    entries of a list that was within the limit before the append. *)
Lemma enforce_limit_keep_last (l : list MemoryRecord) (x : MemoryRecord) :
  (length l <= Memory.capacity)%nat ->
  Memory.enforce_limit (l ++ [x]) = keep_last Memory.capacity (l ++ [x]).
Proof.
  intros H. unfold Memory.enforce_limit, keep_last.
  rewrite length_app. simpl length.
  destruct (Nat.ltb Memory.capacity (length l + 1)) eqn:E.
  - apply Nat.ltb_lt in E.
    replace (length l + 1 - Memory.capacity)%nat with 1%nat by lia.
    now destruct (l ++ [x])%list.
  - apply Nat.ltb_ge in E.
    replace (length l + 1 - Memory.capacity)%nat with 0%nat by lia.
    reflexivity.
Qed.

Section MemoryFacts.
Variable ext : External.

Lemma record_processing_lists (ops : list Processing) :
  forall self,
    (length (param_completions self) <= Memory.capacity)%nat ->
    (length (param_normalizations self) <= Memory.capacity)%nat ->
    let after := fold_left (record_processing ext) ops self in
    param_completions after
    = keep_last Memory.capacity
                (param_completions self ++ map (completion_of ext) ops)
    /\ param_normalizations after
       = keep_last Memory.capacity
                   (param_normalizations self ++ map normalization_of ops).
Proof.
  induction ops as [|p ops IH]; intros self Hc Hn.
  - simpl. rewrite !app_nil_r, !keep_last_short by assumption. now split.
  - cbn [fold_left map].
    assert (Ec : param_completions (record_processing ext self p)
                 = keep_last Memory.capacity
                             (param_completions self ++ [completion_of ext p]))
      by (apply enforce_limit_keep_last; exact Hc).
    assert (En : param_normalizations (record_processing ext self p)
                 = keep_last Memory.capacity
                             (param_normalizations self ++ [normalization_of p]))
      by (apply enforce_limit_keep_last; exact Hn).
    destruct (IH (record_processing ext self p)) as [H1 H2].
    + rewrite Ec. apply keep_last_length.
    + rewrite En. apply keep_last_length.
    + cbv zeta. rewrite H1, H2, Ec, En, !keep_last_app, <- !app_assoc.
      now split.
Qed.

(** The bound, where the code keeps it: [record_param_processing] on
    the two lists it appends to.  From a
    memory whose two lists are within the limit of fifty, any sequence
    of [record_param_processing] calls leaves in each list the last
    fifty of the old entries followed by the new ones, in insertion
    order, and never more than fifty.  From the initial memory,
    fifty-one calls leave the records of calls two to fifty-one, in
    order: fifty records, the first one gone. *)
Theorem record_param_processing_keeps_last_fifty
        (self : AgentMemory) (ops : list Processing) :
  (length (param_completions self) <= 50)%nat ->
  (length (param_normalizations self) <= 50)%nat ->
  let after := fold_left (record_processing ext) ops self in
  param_completions after
  = keep_last 50 (param_completions self ++ map (completion_of ext) ops)
  /\ param_normalizations after
     = keep_last 50 (param_normalizations self ++ map normalization_of ops)
  /\ (length (param_completions after) <= 50)%nat
  /\ (length (param_normalizations after) <= 50)%nat
  /\ (self = Memory.init -> length ops = 51%nat ->
      param_completions after = tl (map (completion_of ext) ops)
      /\ param_normalizations after = tl (map normalization_of ops)
      /\ length (param_completions after) = 50%nat
      /\ length (param_normalizations after) = 50%nat).
Proof.
  intros Hc Hn after.
  destruct (record_processing_lists ops self Hc Hn) as [H1 H2].
  fold after in H1, H2. change Memory.capacity with 50%nat in H1, H2.
  split; [exact H1|]. split; [exact H2|].
  split; [rewrite H1; apply keep_last_length|].
  split; [rewrite H2; apply keep_last_length|].
  intros -> Hlen. rewrite H1, H2. cbn [param_completions param_normalizations
                                        Memory.init app].
  unfold keep_last. rewrite !length_map, Hlen.
  change (51 - 50)%nat with 1%nat.
  assert (T : forall (A : Type) (l : list A), skipn 1 l = tl l)
    by (intros A [|x l]; reflexivity).
  rewrite !T. repeat split; try reflexivity.
  - destruct ops as [|p ops]; [discriminate|]. simpl.
    rewrite length_map. simpl in Hlen. lia.
  - destruct ops as [|p ops]; [discriminate|]. simpl.
    rewrite length_map. simpl in Hlen. lia.
Qed.

End MemoryFacts.

(** An instance: fifty-one parameter-processing records from the
    initial memory. *)
Lemma record_param_processing_keeps_last_fifty_witness :
  let ops := map Examples.processing (seq 0 51) in
  let after := fold_left (record_processing Examples.silent) ops Memory.init in
  length (param_completions after) = 50%nat
  /\ param_completions after
     = map (completion_of Examples.silent) (map Examples.processing (seq 1 50)).
Proof.
  intros ops after.
  destruct (record_param_processing_keeps_last_fifty
              Examples.silent Memory.init ops) as (_ & _ & _ & _ & H).
  - simpl. lia.
  - simpl. lia.
  - destruct (H eq_refl eq_refl) as (H1 & _ & H3 & _).
    split; [exact H3|]. unfold after. rewrite H1. reflexivity.
Defined.

(** The other recording methods append and never look at the size. *)
Lemma record_successes_snoc (agent_type : string)
      (cases : list (json * json * string)) (c : json * json * string)
      (self : AgentMemory) :
  record_successes agent_type (cases ++ [c]) self
  = Memory.record_success_case agent_type (fst (fst c)) (snd (fst c)) (snd c)
      (record_successes agent_type cases self).
Proof. unfold record_successes. now rewrite fold_left_app. Qed.

(** C6.  The claim fails of the code on every list but the two that
    [record_param_processing] trims.  [record_success_case] never
    evicts: after any sequence of calls for the discovery stage, the
    normalization stage or the generation stage, the list of that stage
    holds everything it held before followed by every new record, in
    order; [record_param_completion] and [record_param_normalization]
    append to the two lists that [record_param_processing] bounds and
    leave every older record in place.  Fifty-one successes recorded
    for the discovery stage on a fresh memory are all kept: the list
    holds fifty-one records, the earliest first. *)
Theorem record_success_case_never_evicts :
  (forall cases self,
      successful_discoveries (record_successes "DiscoveryAgent" cases self)
      = (successful_discoveries self
           ++ map (success_case "DiscoveryAgent") cases)%list)
  /\ (forall cases self,
         param_normalizations (record_successes "ParamNormAgent" cases self)
         = (param_normalizations self
              ++ map (success_case "ParamNormAgent") cases)%list)
  /\ (forall cases self,
         successful_generations (record_successes "CodegenAgent" cases self)
         = (successful_generations self
              ++ map (success_case "CodegenAgent") cases)%list)
  /\ (forall ext query components original_params completed_params timestamp
             self,
         exists pattern,
           param_completions
             (Memory.record_param_completion ext query components
                original_params completed_params timestamp self)
           = (param_completions self ++ [pattern])%list)
  /\ (forall task_card param_map timestamp self,
         exists pattern,
           param_normalizations
             (Memory.record_param_normalization task_card param_map
                timestamp self)
           = (param_normalizations self ++ [pattern])%list)
  /\ (let after := Examples.discoveries 51 in
      length (successful_discoveries after) = 51%nat
      /\ hd_error (successful_discoveries after)
         = Some (success_case "DiscoveryAgent"
                              (JInt 0, JNull, "2025-01-01T00:00:00"))
      /\ after
         = record_successes "DiscoveryAgent"
             (map (fun i => (JInt (Z.of_nat i), JNull, "2025-01-01T00:00:00"))
                  (seq 0 51))
             Memory.init).
Proof.
  assert (Hgen : forall agent_type (field : AgentMemory -> list MemoryRecord),
             (forall i o t m,
                 field (Memory.record_success_case agent_type i o t m)
                 = (field m ++ [success_case agent_type (i, o, t)])%list) ->
             forall cases self,
               field (record_successes agent_type cases self)
               = (field self ++ map (success_case agent_type) cases)%list).
  { intros agent_type field Hstep cases.
    induction cases as [|c cases IH] using rev_ind; intros self.
    - simpl. now rewrite app_nil_r.
    - rewrite record_successes_snoc, Hstep, IH, map_app, app_assoc.
      destruct c as [[i o] t]. reflexivity. }
  split; [|split; [|split; [|split; [|split]]]].
  - apply Hgen. reflexivity.
  - apply Hgen. reflexivity.
  - apply Hgen. reflexivity.
  - intros. eexists. reflexivity.
  - intros. eexists. reflexivity.
  - vm_compute. repeat split; reflexivity.
Qed.

(* ================================================================== *)
(** * Further properties *)
(* ================================================================== *)

(** ** The memory: recording and recall *)

(** X1.  A success recorded under any other agent type than
    DiscoveryAgent, ParamNormAgent and CodegenAgent is dropped: the
    memory is unchanged, and a recall under such a type finds nothing.
    ParamProcessorAgent and SemanticAgent are such types. *)
Theorem success_of_unlisted_agent_is_dropped
        (py_eq : json -> json -> bool) (agent_type : string)
        (input_data output_data : json) (timestamp : string)
        (self : AgentMemory) :
  agent_type <> "DiscoveryAgent" ->
  agent_type <> "ParamNormAgent" ->
  agent_type <> "CodegenAgent" ->
  Memory.record_success_case agent_type input_data output_data timestamp self
  = self
  /\ Recall.find_similar_case py_eq agent_type input_data self = Ok JNull
  /\ AgentWithMemory._record_success agent_type (Some self) input_data
                                     output_data timestamp = Some self.
Proof.
  intros H1 H2 H3.
  apply String.eqb_neq in H1, H2, H3.
  unfold AgentWithMemory._record_success, Memory.record_success_case,
    Recall.find_similar_case.
  rewrite H1, H2, H3. repeat split; reflexivity.
Qed.

Lemma success_of_unlisted_agent_is_dropped_witness :
  Memory.record_success_case "ParamProcessorAgent" (JStr "in") (JStr "out")
                             "2025-01-01T00:00:00" (Examples.discoveries 2)
  = Examples.discoveries 2.
Proof.
  apply (success_of_unlisted_agent_is_dropped
           json_eqb "ParamProcessorAgent" (JStr "in") (JStr "out")
           "2025-01-01T00:00:00" (Examples.discoveries 2));
    discriminate.
Defined.

(** X2.  [clear] leaves the recorded code generations in place: after
    it every count that [get_memory_stats] reports is zero and the
    discovery and normalization lookups find nothing, yet a lookup for
    CodegenAgent answers as before the clearing. *)
Theorem clear_keeps_generations
        (py_eq : json -> json -> bool) (input_data : json)
        (self : AgentMemory) :
  Recall.find_similar_case py_eq "CodegenAgent" input_data (Memory.clear self)
  = Recall.find_similar_case py_eq "CodegenAgent" input_data self
  /\ Forall (fun kv => snd kv = 0%nat) (Recall.get_memory_stats (Memory.clear self))
  /\ Recall.find_similar_case py_eq "DiscoveryAgent" input_data (Memory.clear self)
     = Ok JNull
  /\ Recall.find_similar_case py_eq "ParamNormAgent" input_data (Memory.clear self)
     = Ok JNull
  /\ successful_generations (Memory.clear self) = successful_generations self.
Proof.
  repeat split.
  repeat constructor.
Qed.

Section RecallFacts.
Variable ext : External.
Variable py_eq : json -> json -> bool.

(** A lookup that ends before the end of the list does not see what is
    appended. *)
Lemma similar_discovery_shadow (input_data : json) (l : list MemoryRecord)
      (r : MemoryRecord) :
  Recall.similar_discovery py_eq input_data l <> Ok JNull ->
  Recall.similar_discovery py_eq input_data (l ++ [r])
  = Recall.similar_discovery py_eq input_data l.
Proof.
  induction l as [|x l IH]; intros H; [now contradiction H|].
  simpl in *.
  destruct (Recall.item x "input") as [rec|e]; [|reflexivity].
  destruct (py_get rec "domain" JNull) as [a|e]; [|reflexivity].
  destruct (py_get input_data "domain" JNull) as [b|e]; [|reflexivity].
  destruct (py_eq a b); [reflexivity|now apply IH].
Qed.

(** A lookup that passes over every record reaches what is appended. *)
Lemma similar_discovery_miss (input_data b : json) (l : list MemoryRecord)
      (r : MemoryRecord) :
  py_get input_data "domain" JNull = Ok b ->
  Forall (fun x => exists rec a,
              Recall.item x "input" = Ok rec
              /\ py_get rec "domain" JNull = Ok a
              /\ py_eq a b = false) l ->
  Recall.similar_discovery py_eq input_data (l ++ [r])
  = Recall.similar_discovery py_eq input_data [r].
Proof.
  intros Hb. induction 1 as [|x l (rec & a & H1 & H2 & H3) Hl IH];
    [reflexivity|].
  remember (Recall.similar_discovery py_eq input_data [r]) as answer.
  cbn [app Recall.similar_discovery]. rewrite H1, H2, Hb, H3. exact IH.
Qed.

Lemma similar_discovery_case (x input_data output_data : json)
      (agent_type timestamp : string) :
  Recall.similar_discovery py_eq x
    [[("agent_type", JStr agent_type); ("timestamp", JStr timestamp);
      ("input", input_data); ("output", output_data)]]
  = match py_get input_data "domain" JNull with
    | Raise e => Raise e
    | Ok a =>
        match py_get x "domain" JNull with
        | Raise e => Raise e
        | Ok b => if py_eq a b then Ok output_data else Ok JNull
        end
    end.
Proof. reflexivity. Qed.

(** A lookup is answered by the first record whose domain equals the
    one asked for, whatever the records after it. *)
Lemma similar_discovery_hit (input_data b : json)
      (older later : list MemoryRecord) (r : MemoryRecord) (rec a : json) :
  py_get input_data "domain" JNull = Ok b ->
  Forall (fun x => exists rec a,
              Recall.item x "input" = Ok rec
              /\ py_get rec "domain" JNull = Ok a
              /\ py_eq a b = false) older ->
  Recall.item r "input" = Ok rec ->
  py_get rec "domain" JNull = Ok a ->
  py_eq a b = true ->
  Recall.similar_discovery py_eq input_data (older ++ r :: later)
  = Recall.item r "output".
Proof.
  intros Hb Hold Hrec Ha Heq.
  induction Hold as [|x l (rec' & a' & H1 & H2 & H3) Hl IH].
  - cbn [app Recall.similar_discovery]. now rewrite Hrec, Ha, Hb, Heq.
  - cbn [app Recall.similar_discovery]. rewrite H1, H2, Hb, H3. exact IH.
Qed.

(** X3.  Recall of discoveries goes by the domain of the input alone,
    oldest record first.  After a success is recorded for one input, a
    lookup by any input, the same or another, is answered as follows.
    When no older record has a domain equal to the one asked for, the
    new record decides: its output is returned when its domain equals
    the one asked for, nothing otherwise.  When an older record has
    such a domain, the output of the first of them is returned, before
    the recording and after it, whatever that output is (nothing
    included) and whatever the records after it hold, the new one among
    them.  In general a lookup that the older records answer, or fail
    on, is not changed by the recording. *)
Theorem discovery_recall_first_match
        (input_data output_data other d b : json) (timestamp : string)
        (self : AgentMemory) :
  py_get input_data "domain" JNull = Ok d ->
  py_get other "domain" JNull = Ok b ->
  let after :=
    Memory.record_success_case "DiscoveryAgent" input_data output_data
                               timestamp self in
  (Forall (fun x => exists rec a,
               Recall.item x "input" = Ok rec
               /\ py_get rec "domain" JNull = Ok a
               /\ py_eq a b = false) (successful_discoveries self) ->
   Recall.find_similar_case py_eq "DiscoveryAgent" other after
   = if py_eq d b then Ok output_data else Ok JNull)
  /\ (forall older later r rec a,
         successful_discoveries self = (older ++ r :: later)%list ->
         Forall (fun x => exists rec a,
                     Recall.item x "input" = Ok rec
                     /\ py_get rec "domain" JNull = Ok a
                     /\ py_eq a b = false) older ->
         Recall.item r "input" = Ok rec ->
         py_get rec "domain" JNull = Ok a ->
         py_eq a b = true ->
         Recall.find_similar_case py_eq "DiscoveryAgent" other after
         = Recall.item r "output"
         /\ Recall.find_similar_case py_eq "DiscoveryAgent" other self
            = Recall.item r "output")
  /\ (forall any,
         Recall.find_similar_case py_eq "DiscoveryAgent" any self <> Ok JNull ->
         Recall.find_similar_case py_eq "DiscoveryAgent" any after
         = Recall.find_similar_case py_eq "DiscoveryAgent" any self).
Proof.
  intros Hd Hb after. unfold after.
  unfold Recall.find_similar_case, Recall._find_similar_discovery,
    Memory.record_success_case.
  cbn [String.eqb Ascii.eqb Bool.eqb successful_discoveries].
  split; [|split].
  - intros Hmiss.
    rewrite (similar_discovery_miss other b _ _ Hb Hmiss).
    rewrite similar_discovery_case, Hd, Hb. reflexivity.
  - intros older later r rec a Hlist Hold Hrec Ha Heq.
    rewrite Hlist, <- app_assoc, <- app_comm_cons. split.
    + exact (similar_discovery_hit other b older _ r rec a Hb Hold Hrec Ha Heq).
    + exact (similar_discovery_hit other b older _ r rec a Hb Hold Hrec Ha Heq).
  - intros any H. now apply similar_discovery_shadow.
Qed.

(** No record of [param_normalizations] can answer [ParamNormAgent]. *)
Lemma similar_param_norm_silent (input_data : json) (l : list MemoryRecord) :
  Forall unanswerable l ->
  forall v, Recall.similar_param_norm py_eq input_data l = Ok v -> v = JNull.
Proof.
  induction 1 as [|r l Hr Hl IH]; intros v; simpl; [now intros [= <-]|].
  unfold Recall.item.
  destruct Hr as [Hr|Hr].
  - rewrite Hr. discriminate.
  - destruct (Dict.get "domain" r); [|discriminate].
    destruct (py_get input_data "domain" JNull); [|discriminate].
    destruct (py_eq _ _); [|apply IH].
    destruct (Dict.get "algorithm" r); [|discriminate].
    destruct (py_get input_data "algorithm" JNull); [|discriminate].
    destruct (py_eq _ _); [|apply IH].
    rewrite Hr. discriminate.
Qed.

Lemma enforce_limit_Forall (P : MemoryRecord -> Prop) (l : list MemoryRecord) :
  Forall P l -> Forall P (Memory.enforce_limit l).
Proof.
  intros H. unfold Memory.enforce_limit.
  destruct (Nat.ltb _ _); [|exact H].
  destruct H; [constructor|assumption].
Qed.

Lemma Forall_snoc {A} (P : A -> Prop) (l : list A) (x : A) :
  Forall P l -> P x -> Forall P (l ++ [x]).
Proof. intros Hl Hx. apply Forall_app. split; [exact Hl|now constructor]. Qed.

(** Whatever is recorded, the records of [param_normalizations] lack a
    domain or an output. *)
Lemma apply_op_unanswerable (op : MemoryOp) (self : AgentMemory) :
  Forall unanswerable (param_normalizations self) ->
  Forall unanswerable (param_normalizations (apply_op ext self op)).
Proof.
  intros H. destruct op; cbn [apply_op]; try exact H.
  - unfold Memory.record_success_case.
    destruct (String.eqb agent_type "DiscoveryAgent"); [exact H|].
    destruct (String.eqb agent_type "ParamNormAgent").
    + cbn [param_normalizations]. apply Forall_snoc; [exact H|].
      left. reflexivity.
    + destruct (String.eqb agent_type "CodegenAgent"); exact H.
  - cbn [Memory.record_param_normalization param_normalizations].
    apply Forall_snoc; [exact H|]. right. reflexivity.
  - unfold record_processing, Memory.record_param_processing.
    cbn [param_normalizations]. apply enforce_limit_Forall.
    apply Forall_snoc; [exact H|]. left. reflexivity.
  - constructor.
Qed.

Lemma recorded_unanswerable (ops : list MemoryOp) :
  forall self,
    Forall unanswerable (param_normalizations self) ->
    Forall unanswerable (param_normalizations (fold_left (apply_op ext) ops self)).
Proof.
  induction ops as [|op ops IH]; intros self H; [exact H|].
  simpl. apply IH. now apply apply_op_unanswerable.
Qed.

(** X4.  A lookup for ParamNormAgent never returns a recorded case.
    Whatever sequence of recordings and clearings built the memory, the
    records of [param_normalizations] have a domain or an output, never
    both: the lookup returns [None] or raises. *)
Theorem param_norm_recall_never_answers
        (ops : list MemoryOp) (input_data v : json) :
  Recall.find_similar_case py_eq "ParamNormAgent" input_data (recorded ext ops)
  = Ok v ->
  v = JNull.
Proof.
  unfold Recall.find_similar_case, Recall._find_similar_param_norm.
  cbn [String.eqb Ascii.eqb Bool.eqb].
  apply similar_param_norm_silent.
  apply recorded_unanswerable. constructor.
Qed.

End RecallFacts.

(** An instance: a memory that holds a normalization for another
    domain. *)
Lemma param_norm_recall_never_answers_witness :
  let ops := [ParamNormalization Examples.task
                [("normalized_params", JObj [("n", JInt 8)])]
                "2025-01-01T00:00:00"] in
  let input := JObj [("domain", JStr "chemistry.molecular");
                     ("algorithm", JStr "vqe")] in
  exists v,
    Recall.find_similar_case json_eqb "ParamNormAgent" input
                             (recorded Examples.silent ops) = Ok v
    /\ v = JNull.
Proof.
  intros ops input. exists JNull. split; [vm_compute; reflexivity|].
  apply (param_norm_recall_never_answers Examples.silent json_eqb ops input JNull).
  vm_compute. reflexivity.
Defined.

(** And one that holds a normalization for the very domain and
    algorithm: the lookup raises. *)
Example param_norm_recall_raises_on_match :
  Recall.find_similar_case json_eqb "ParamNormAgent"
    (JObj [("domain", JStr "spin.tfim"); ("algorithm", JStr "vqe")])
    (recorded Examples.silent
       [ParamNormalization Examples.task
          [("normalized_params", JObj [("n", JInt 8)])] "2025-01-01T00:00:00"])
  = Raise (Exn KeyError "'output'").
Proof. vm_compute. reflexivity. Qed.

(** An instance: two successes of the domain spin.tfim recorded for
    different inputs, the second after the first.  A lookup by a third
    input of that domain returns the output of the first, before and
    after the second recording; on a fresh memory the lookup returns
    the output of the record just made. *)
Lemma discovery_recall_first_match_witness :
  let first := JObj [("domain", JStr "spin.tfim"); ("problem", JStr "gap")] in
  let second := JObj [("domain", JStr "spin.tfim"); ("size", JInt 8)] in
  let third := JObj [("domain", JStr "spin.tfim")] in
  let self :=
    Memory.record_success_case "DiscoveryAgent" first (JStr "first cards")
                               "2025-01-01T00:00:00" Memory.init in
  let after :=
    Memory.record_success_case "DiscoveryAgent" second (JStr "second cards")
                               "2025-01-02T00:00:00" self in
  (Recall.find_similar_case json_eqb "DiscoveryAgent" third after
   = Ok (JStr "first cards")
   /\ Recall.find_similar_case json_eqb "DiscoveryAgent" third self
      = Ok (JStr "first cards"))
  /\ Recall.find_similar_case json_eqb "DiscoveryAgent" third
       (Memory.record_success_case "DiscoveryAgent" second
          (JStr "second cards") "2025-01-02T00:00:00" Memory.init)
     = Ok (JStr "second cards").
Proof.
  intros first second third self after. split.
  - refine (proj1 (proj2 (discovery_recall_first_match
                            json_eqb second (JStr "second cards") third
                            (JStr "spin.tfim") (JStr "spin.tfim")
                            "2025-01-02T00:00:00" self eq_refl eq_refl))
                  [] [] _ first (JStr "spin.tfim")
                  eq_refl _ eq_refl eq_refl eq_refl).
    constructor.
  - refine (proj1 (discovery_recall_first_match
                     json_eqb second (JStr "second cards") third
                     (JStr "spin.tfim") (JStr "spin.tfim")
                     "2025-01-02T00:00:00" Memory.init eq_refl eq_refl) _).
    constructor.
Defined.

(** ** The memory: patterns of parameter processing *)

Lemma skipn_In {A} (k : nat) (l : list A) (x : A) :
  In x (skipn k l) -> In x l.
Proof.
  intros H. rewrite <- (firstn_skipn k l). apply in_or_app. now right.
Qed.

Lemma keep_last_Forall {A} (P : A -> Prop) (n : nat) (l : list A) :
  Forall P l -> Forall P (keep_last n l).
Proof.
  intros H. unfold keep_last. rewrite Forall_forall in *.
  intros x Hx. apply H. eapply skipn_In. exact Hx.
Qed.

Lemma keep_last_snoc {A} (n : nat) (l : list A) (x : A) :
  (1 <= n)%nat ->
  keep_last n (l ++ [x]) = (skipn (length l + 1 - n) l ++ [x])%list.
Proof.
  intros Hn. unfold keep_last. rewrite length_app. simpl length.
  rewrite skipn_app.
  replace (length l + 1 - n - length l)%nat with 0%nat by lia.
  reflexivity.
Qed.

Lemma skipn_Forall {A} (P : A -> Prop) (k : nat) (l : list A) :
  Forall P l -> Forall P (skipn k l).
Proof.
  rewrite !Forall_forall. intros H x Hx. apply H. eapply skipn_In. exact Hx.
Qed.

Lemma mem_true_iff (x : string) (l : list string) : mem x l = true <-> In x l.
Proof.
  split; [apply mem_In|]. intros H. unfold mem. apply existsb_exists.
  exists x. split; [exact H|apply String.eqb_refl].
Qed.

(** Lists of kinds with the same members are the same set. *)
Lemma same_set_incl (ks ks' : list string) :
  incl ks ks' -> incl ks' ks ->
  Recall.same_set (map JStr ks) ks' = true.
Proof.
  intros H1 H2. unfold Recall.same_set. apply andb_true_iff. split.
  - apply forallb_forall. intros e He.
    apply in_map_iff in He as (k & <- & Hk). apply mem_true_iff. now apply H1.
  - apply forallb_forall. intros s Hs. apply existsb_exists.
    exists (JStr s). split; [apply in_map; now apply H2|].
    simpl. apply String.eqb_refl.
Qed.

Lemma py_set_strs (ks : list string) :
  Recall.py_set (Memory.strs ks) = Ok (map JStr ks).
Proof.
  unfold Recall.py_set, Memory.strs.
  replace (find _ (map JStr ks)) with (@None json); [reflexivity|].
  induction ks as [|k ks IH]; [reflexivity|exact IH].
Qed.

Section PatternFacts.
Variable ext : External.

(** After [record_param_processing] each of the two lists is a tail of
    the old one followed by the new record. *)
Lemma record_processing_last (self : AgentMemory) (p : Processing) :
  (length (param_completions self) <= 50)%nat ->
  (length (param_normalizations self) <= 50)%nat ->
  (exists k, param_completions (record_processing ext self p)
             = (skipn k (param_completions self) ++ [completion_of ext p])%list)
  /\ (exists k, param_normalizations (record_processing ext self p)
                = (skipn k (param_normalizations self)
                     ++ [normalization_of p])%list).
Proof.
  intros Hc Hn.
  destruct (record_processing_lists ext [p] self Hc Hn) as [H1 H2].
  cbn [fold_left map] in H1, H2. rewrite H1, H2.
  rewrite !keep_last_snoc by (unfold Memory.capacity; lia).
  split; eexists; reflexivity.
Qed.

(** Members of equal sets of kinds. *)
Lemma same_set_members (ks ks' : list string) :
  Recall.same_set (map JStr ks) ks' = true -> incl ks ks' /\ incl ks' ks.
Proof.
  unfold Recall.same_set. intros H. apply andb_true_iff in H as [H1 H2].
  rewrite forallb_forall in H1, H2. split.
  - intros k Hk. apply mem_true_iff. apply (H1 (JStr k)). now apply in_map.
  - intros s Hs. specialize (H2 s Hs).
    apply existsb_exists in H2 as (e & He & E).
    apply in_map_iff in He as (k & <- & Hk).
    simpl in E. apply String.eqb_eq in E. now subst.
Qed.

Lemma strs_injective (ks ks' : list string) :
  map JStr ks = map JStr ks' -> ks = ks'.
Proof.
  revert ks'.
  induction ks as [|k ks IH]; intros [|k' ks'] H; try discriminate;
    [reflexivity|].
  simpl in H. injection H as -> H. f_equal. now apply IH.
Qed.

(** Over well-shaped records the scan raises nothing, and returns the
    first record that matches as soon as one is there. *)
Lemma completion_pattern_finds (query_type : string) (kinds : list string)
      (l : list MemoryRecord) :
  Forall completion_shaped l ->
  Exists (answers query_type kinds) l ->
  exists older r later,
    l = (older ++ r :: later)%list
    /\ Forall (fun x => ~ answers query_type kinds x) older
    /\ answers query_type kinds r
    /\ Recall.completion_pattern query_type kinds l = Ok (Some r)
    /\ r <> [].
Proof.
  induction 1 as [|x l (qt & ks & Hq & Hc) Hl IH]; intros Hex;
    [inversion Hex|].
  cbn [Recall.completion_pattern]. unfold Recall.item.
  rewrite Hq, Hc, py_set_strs. cbn [Recall.eq_str].
  destruct (String.eqb qt query_type && Recall.same_set (map JStr ks) kinds)%bool
    eqn:E.
  - apply andb_true_iff in E as [E S].
    apply String.eqb_eq in E. subst qt. rewrite String.eqb_refl, S.
    exists [], x, l. split; [reflexivity|]. split; [constructor|].
    split; [|split; [reflexivity|intros ->; discriminate Hq]].
    exists ks. destruct (same_set_members _ _ S). now repeat split.
  - assert (Hx : ~ answers query_type kinds x).
    { intros (ks' & Hq' & Hc' & Hi1 & Hi2).
      rewrite Hq in Hq'. injection Hq' as ->.
      rewrite Hc in Hc'. injection Hc' as Hc'.
      apply strs_injective in Hc'. subst ks'.
      rewrite String.eqb_refl, (same_set_incl ks kinds Hi1 Hi2) in E.
      discriminate. }
    assert (Hrest : Exists (answers query_type kinds) l)
      by (inversion Hex; subst; [contradiction|assumption]).
    destruct (IH Hrest) as (older & r & later & -> & Hold & Hr & Hfound & Hne).
    exists (x :: older), r, later. split; [reflexivity|].
    split; [now constructor|]. split; [exact Hr|]. split; [|exact Hne].
    destruct (String.eqb qt query_type); [|exact Hfound].
    simpl in E. rewrite E. exact Hfound.
Qed.

Lemma completion_of_shaped (p : Processing) : completion_shaped (completion_of ext p).
Proof.
  exists (Memory._extract_query_type ext (p_query p)),
    (map (fun comp => get_or "" (c_kind comp)) (p_components p)).
  split; reflexivity.
Qed.

(** X5.  What [record_param_processing] stores,
    [find_param_processing_pattern] finds again: after the recording, a
    lookup for a query of the same type and components with the same
    set of kinds returns a stored completion record that has the type
    of the query and that set of kinds, the oldest such record of the
    list, and the record just stored when the list was empty before.
    The older records are assumed to have the shape the recording
    methods give them. *)
Theorem processing_pattern_found_after_recording
        (self : AgentMemory) (p : Processing) (query : string)
        (components : list ComponentCard) :
  (length (param_completions self) <= 50)%nat ->
  (length (param_normalizations self) <= 50)%nat ->
  Forall completion_shaped (param_completions self) ->
  Memory._extract_query_type ext query
  = Memory._extract_query_type ext (p_query p) ->
  incl (map (fun c => get_or "" (c_kind c)) components)
       (map (fun c => get_or "" (c_kind c)) (p_components p)) ->
  incl (map (fun c => get_or "" (c_kind c)) (p_components p))
       (map (fun c => get_or "" (c_kind c)) components) ->
  let after := record_processing ext self p in
  exists r,
    Recall.find_param_processing_pattern ext query components after
    = Ok (Some r)
    /\ In r (param_completions after)
    /\ Dict.get "query_type" r
       = Some (JStr (Memory._extract_query_type ext query))
    /\ (param_completions self = [] -> r = completion_of ext p)
    /\ (exists kinds,
           Dict.get "component_types" r = Some (Memory.strs kinds)
           /\ incl kinds (map (fun c => get_or "" (c_kind c)) components)
           /\ incl (map (fun c => get_or "" (c_kind c)) components) kinds)
    /\ (exists older later,
           param_completions after = (older ++ r :: later)%list
           /\ Forall (fun x =>
                        ~ answers (Memory._extract_query_type ext query)
                            (map (fun c => get_or "" (c_kind c)) components)
                            x) older).
Proof.
  intros Hc Hn Hshape Htype Hk1 Hk2 after.
  destruct (record_processing_last self p Hc Hn) as [(k & Hlist) _].
  fold after in Hlist.
  assert (Hall : Forall completion_shaped (param_completions after)).
  { rewrite Hlist. apply Forall_app. split; [now apply skipn_Forall|].
    constructor; [apply completion_of_shaped|constructor]. }
  assert (Hex : Exists (answers (Memory._extract_query_type ext query)
                                (map (fun c => get_or "" (c_kind c)) components))
                       (param_completions after)).
  { rewrite Hlist. apply Exists_app. right. constructor.
    exists (map (fun comp => get_or "" (c_kind comp)) (p_components p)).
    rewrite Htype. repeat split; assumption. }
  destruct (completion_pattern_finds _ _ _ Hall Hex)
    as (older & r & later & Hsplit & Hold & Hans & Hr & Hne).
  assert (Hin : In r (param_completions after))
    by (rewrite Hsplit; apply in_or_app; right; now left).
  exists r. unfold Recall.find_param_processing_pattern,
              Recall.find_param_completion_pattern.
  rewrite Hr. destruct r as [|kv r]; [congruence|].
  destruct Hans as (kinds & Hq & Hkinds & Hi1 & Hi2).
  split; [reflexivity|]. split; [exact Hin|]. split; [exact Hq|].
  split; [|split].
  - intros Hempty. rewrite Hlist, Hempty in Hin.
    rewrite skipn_nil in Hin. destruct Hin as [<-|[]]. reflexivity.
  - exists kinds. now repeat split.
  - exists older, later. split; [exact Hsplit|exact Hold].
Qed.

(** X6.  Once [record_param_processing] has stored a record,
    [find_param_normalization_pattern] is broken: the records it stores
    in [param_normalizations] have no domain, and the lookup raises
    [KeyError] on the first of them, whatever the task.  This holds from
    any memory whose normalizations are within the limit and carry no
    domain, the initial one among them. *)
Theorem normalization_lookup_raises_after_processing
        (self : AgentMemory) (ps : list Processing) (task_card : TaskCard) :
  ps <> [] ->
  (length (param_completions self) <= 50)%nat ->
  (length (param_normalizations self) <= 50)%nat ->
  Forall (fun r => Dict.get "domain" r = None) (param_normalizations self) ->
  Recall.find_param_normalization_pattern
    task_card (fold_left (record_processing ext) ps self)
  = Raise (Exn KeyError "'domain'").
Proof.
  intros Hne Hc Hn Hdom.
  destruct (record_processing_lists ext ps self Hc Hn) as [_ H2].
  cbv zeta in H2.
  unfold Recall.find_param_normalization_pattern. rewrite H2.
  set (l := (param_normalizations self ++ map normalization_of ps)%list).
  assert (Hall : Forall (fun r => Dict.get "domain" r = None) l).
  { unfold l. apply Forall_app. split; [exact Hdom|].
    apply Forall_forall. intros r Hr.
    apply in_map_iff in Hr as (p & <- & _). reflexivity. }
  assert (Hlen : (1 <= length (keep_last Memory.capacity l))%nat).
  { unfold keep_last. rewrite length_skipn.
    assert (1 <= length l)%nat.
    { unfold l. rewrite length_app, length_map.
      destruct ps; [congruence|simpl; lia]. }
    unfold Memory.capacity. lia. }
  pose proof (keep_last_Forall _ Memory.capacity l Hall) as Hkept.
  destruct (keep_last Memory.capacity l) as [|r rest]; [simpl in Hlen; lia|].
  inversion Hkept as [|? ? Hr _]; subst.
  cbn [Recall.normalization_pattern]. unfold Recall.item. rewrite Hr.
  reflexivity.
Qed.

End PatternFacts.

(** An instance: a second recording of the same type and kinds; the
    lookup returns the record of the first. *)
Lemma processing_pattern_found_after_recording_witness :
  let self :=
    record_processing Examples.silent Memory.init (Examples.processing 0) in
  Recall.find_param_processing_pattern
    Examples.silent "Spin glass energy"
    [Examples.card "HeisenbergHamiltonian" "hamiltonian"]
    (record_processing Examples.silent self (Examples.processing 1))
  = Ok (Some (completion_of Examples.silent (Examples.processing 0))).
Proof.
  intros self.
  destruct (processing_pattern_found_after_recording
              Examples.silent self (Examples.processing 1)
              "Spin glass energy"
              [Examples.card "HeisenbergHamiltonian" "hamiltonian"])
    as (r & Hr & _ & _ & _ & _ & older & later & Hsplit & Hold).
  - simpl. lia.
  - simpl. lia.
  - constructor; [apply completion_of_shaped|constructor].
  - vm_compute. reflexivity.
  - intros x Hx. exact Hx.
  - intros x Hx. exact Hx.
  - rewrite Hr. destruct older as [|x older].
    + injection Hsplit as <- _. reflexivity.
    + injection Hsplit as <- _. inversion Hold as [|? ? Hx _]. exfalso.
      apply Hx. exists ["hamiltonian"].
      split; [reflexivity|]. split; [reflexivity|].
      split; intros k Hk; exact Hk.
Defined.

Lemma normalization_lookup_raises_after_processing_witness :
  Recall.find_param_normalization_pattern
    Examples.task
    (fold_left (record_processing Examples.silent) [Examples.processing 0]
               Memory.init)
  = Raise (Exn KeyError "'domain'").
Proof.
  apply normalization_lookup_raises_after_processing.
  - discriminate.
  - simpl. lia.
  - simpl. lia.
  - constructor.
Defined.

(** ** The retry loops *)

Section AttemptLoop.
Variable body : M json.
Variable final : exn -> string.
Variable limit : Z.

Lemma attempt_loop_step (i n : nat) (tr : list event) :
  (i + S n)%nat = Z.to_nat limit ->
  attempt_loop body final limit (map Z.of_nat (seq i (S n))) tr
  = match body tr with
    | (Ok v, tr1) => (Ok v, tr1)
    | (Raise e, tr1) =>
        match n with
        | O => (Raise (Exn RuntimeError (final e)), tr1)
        | S _ => attempt_loop body final limit (map Z.of_nat (seq (S i) n))
                              (tr1 ++ [Sleep 500])%list
        end
    end.
Proof.
  intros H. cbn [seq map attempt_loop]. unfold catch.
  destruct (body tr) as [[v|e] tr1]; [reflexivity|].
  destruct n as [|n'].
  - replace (Z.of_nat i =? limit - 1)%Z with true
      by (symmetry; apply Z.eqb_eq; lia).
    reflexivity.
  - replace (Z.of_nat i =? limit - 1)%Z with false
      by (symmetry; apply Z.eqb_neq; lia).
    reflexivity.
Qed.

(** What the loop returns was returned by an attempt; what it raises is
    a [RuntimeError] made from the error of an attempt; and it makes no
    more requests than its attempts do. *)
Lemma attempt_loop_outcome (n : nat) :
  (forall tr, calls tr <= calls (snd (body tr)) <= calls tr + 1)%nat ->
  forall i tr,
    (i + S n)%nat = Z.to_nat limit ->
    let out := attempt_loop body final limit (map Z.of_nat (seq i (S n))) tr in
    (forall v, fst out = Ok v -> exists tr0, fst (body tr0) = Ok v)
    /\ (forall e, fst out = Raise e ->
                  exists e0 tr0, fst (body tr0) = Raise e0
                                 /\ e = Exn RuntimeError (final e0))
    /\ (calls tr <= calls (snd out) <= calls tr + S n)%nat.
Proof.
  intros Hbody. induction n as [|n IH]; intros i tr H;
    cbv zeta; rewrite (attempt_loop_step i _ tr H);
    pose proof (Hbody tr) as Hc;
    destruct (body tr) as [[v|e] tr1] eqn:E; cbn [fst snd] in *.
  - repeat split; try lia.
    + intros v' [= <-]. exists tr. now rewrite E.
    + discriminate.
  - repeat split; try lia.
    + discriminate.
    + intros e' [= <-]. exists e, tr. now rewrite E.
  - repeat split; try lia.
    + intros v' [= <-]. exists tr. now rewrite E.
    + discriminate.
  - destruct (IH (S i) (tr1 ++ [Sleep 500])%list) as (H1 & H2 & H3); [lia|].
    rewrite calls_app in H3. change (calls [Sleep 500]) with 0%nat in H3.
    split; [exact H1|]. split; [exact H2|]. lia.
Qed.

(** When no attempt can even start, the loop sleeps between the
    attempts all the same. *)
Lemma attempt_loop_stillborn (e0 : exn) (n : nat) :
  (forall tr, body tr = (Raise e0, tr)) ->
  forall i tr,
    (i + S n)%nat = Z.to_nat limit ->
    attempt_loop body final limit (map Z.of_nat (seq i (S n))) tr
    = (Raise (Exn RuntimeError (final e0)), (tr ++ pauses n)%list).
Proof.
  intros Hbody. induction n as [|n IH]; intros i tr H;
    rewrite (attempt_loop_step i _ tr H), Hbody.
  - simpl. now rewrite app_nil_r.
  - rewrite IH by lia. rewrite <- app_assoc. reflexivity.
Qed.

End AttemptLoop.

(** The loops of the agents are instances of it. *)
Lemma retry_loop_attempt_loop (ext : External) (self : Agent)
      (user_message agent_name : string) (attempts : list Z) :
  forall tr,
    retry_loop ext self user_message agent_name attempts tr
    = attempt_loop (attempt_once ext self user_message agent_name)
        (fun e => agent_name ++ " failed after " ++ decimal (max_retries self)
                  ++ " retries: " ++ exn_str e)
        (max_retries self) attempts tr.
Proof.
  induction attempts as [|a rest IH]; intros tr; [reflexivity|].
  cbn [retry_loop attempt_loop]. unfold catch.
  destruct (attempt_once ext self user_message agent_name tr) as [[v|e] tr1];
    [reflexivity|].
  destruct (a =? max_retries self - 1)%Z; [reflexivity|].
  unfold bind, sleep_half_second, emit. apply IH.
Qed.

Lemma discovery_async_attempt_loop (ext : External) (self : Agent)
      (user_message : string) (attempts : list Z) :
  forall tr,
    DiscoveryAgent.async_loop ext self user_message attempts tr
    = attempt_loop (discovery_async_body ext self user_message)
        (fun e => "DiscoveryAgent异步调用失败，已重试"
                  ++ decimal (max_retries self) ++ "次: " ++ exn_str e)
        (max_retries self) attempts tr.
Proof.
  induction attempts as [|a rest IH]; intros tr; [reflexivity|].
  cbn [DiscoveryAgent.async_loop attempt_loop]. unfold catch.
  fold (discovery_async_body ext self user_message).
  destruct (discovery_async_body ext self user_message tr) as [[v|e] tr1];
    [reflexivity|].
  destruct (a =? max_retries self - 1)%Z; [reflexivity|].
  unfold bind, sleep_half_second, emit. apply IH.
Qed.

Lemma param_async_attempt_loop (ext : External) (self : Agent)
      (user_message : string) (required_schema : dict json)
      (attempts : list Z) :
  forall tr,
    ParamProcessorAgent.async_loop ext self user_message required_schema
                                   attempts tr
    = attempt_loop (param_async_body ext self user_message required_schema)
        (fun e => "ParamProcessorAgent异步调用失败，已重试"
                  ++ decimal (max_retries self) ++ "次: " ++ exn_str e)
        (max_retries self) attempts tr.
Proof.
  induction attempts as [|a rest IH]; intros tr; [reflexivity|].
  cbn [ParamProcessorAgent.async_loop attempt_loop]. unfold catch.
  fold (param_async_body ext self user_message required_schema).
  destruct (param_async_body ext self user_message required_schema tr)
    as [[v|e] tr1]; [reflexivity|].
  destruct (a =? max_retries self - 1)%Z; [reflexivity|].
  unfold bind, sleep_half_second, emit. apply IH.
Qed.

Lemma generation_attempt_loop (ext : External) (self : Agent)
      (user_message agent_name : string) (attempts : list Z) :
  forall tr,
    Generation.retry_loop ext self user_message agent_name attempts tr
    = attempt_loop (generation_body ext self user_message agent_name)
        (fun e => agent_name ++ " failed after " ++ decimal (max_retries self)
                  ++ " retries: " ++ exn_str e)
        (max_retries self) attempts tr.
Proof.
  induction attempts as [|a rest IH]; intros tr; [reflexivity|].
  cbn [Generation.retry_loop attempt_loop]. unfold catch.
  fold (generation_body ext self user_message agent_name).
  destruct (generation_body ext self user_message agent_name tr)
    as [[v|e] tr1]; [reflexivity|].
  destruct (a =? max_retries self - 1)%Z; [reflexivity|].
  unfold bind, sleep_half_second, emit. apply IH.
Qed.

(** ** What the stages return *)

Section StageOutcomes.
Variable ext : External.
Variable self : Agent.

Lemma attempt_once_calls (user_message agent_name : string) (tr : list event) :
  (calls tr <= calls (snd (attempt_once ext self user_message agent_name tr))
   <= calls tr + 1)%nat.
Proof. rewrite attempt_once_eq. cbn [snd]. rewrite calls_app. cbn. lia. Qed.

Lemma attempt_once_decoded (user_message agent_name : string)
      (tr : list event) (v : json) :
  fst (attempt_once ext self user_message agent_name tr) = Ok v ->
  decoded_reply ext self user_message agent_name v.
Proof.
  rewrite attempt_once_eq. cbn [fst]. unfold attempt_outcome.
  destruct (chat ext (calls tr) (prompt self) user_message) as [content|e] eqn:E;
    [|discriminate].
  intros H. now exists (calls tr), content.
Qed.

Lemma call_openai_async_cases (user_message agent_name : string)
      (tr : list event) :
  (exists e, _call_openai_async ext self (prompt self) user_message agent_name tr
             = (Raise e, tr))
  \/ (exists e, _call_openai_async ext self (prompt self) user_message
                                   agent_name tr
                = (Raise e,
                   (tr ++ [ChatCompletion true (prompt self) user_message])%list))
  \/ (exists content,
         chat ext (calls tr) (prompt self) user_message = Ok content
         /\ _call_openai_async ext self (prompt self) user_message agent_name tr
            = (Ok (strip content),
               (tr ++ [ChatCompletion true (prompt self) user_message])%list)).
Proof.
  unfold _call_openai_async.
  destruct (negb (has_async_client self)).
  - left. eexists. reflexivity.
  - destruct (chat ext (calls tr) (prompt self) user_message) as [content|e].
    + right. right. now exists content.
    + right. left. eexists. reflexivity.
Qed.

Lemma calls_one_request (tr : list event) (is_async : bool) (p m : string) :
  calls (tr ++ [ChatCompletion is_async p m]) = (calls tr + 1)%nat.
Proof. rewrite calls_app. reflexivity. Qed.

Lemma discovery_async_body_calls (user_message : string) (tr : list event) :
  (calls tr <= calls (snd (discovery_async_body ext self user_message tr))
   <= calls tr + 1)%nat.
Proof.
  unfold discovery_async_body, bind, lift, ret, throw.
  destruct (call_openai_async_cases user_message "DiscoveryAgent" tr)
    as [[e H]|[[e H]|[content [_ H]]]]; rewrite H; cbn [snd].
  - lia.
  - rewrite calls_one_request. lia.
  - destruct (_parse_json_with_retry ext (strip content) "DiscoveryAgent")
      as [v|e]; [destruct (_validate_component_cards v)|]; cbn [snd];
      rewrite calls_one_request; lia.
Qed.

Lemma discovery_async_body_ok (user_message : string) (tr : list event)
      (v : json) :
  fst (discovery_async_body ext self user_message tr) = Ok v ->
  _validate_component_cards v = true
  /\ decoded_reply ext self user_message "DiscoveryAgent" v.
Proof.
  unfold discovery_async_body, bind, lift, ret, throw.
  destruct (call_openai_async_cases user_message "DiscoveryAgent" tr)
    as [[e H]|[[e H]|[content [Hc H]]]]; rewrite H; cbn [fst];
    try discriminate.
  destruct (_parse_json_with_retry ext (strip content) "DiscoveryAgent")
    as [w|e] eqn:P; [|discriminate].
  destruct (_validate_component_cards w) eqn:V; cbn [fst]; [|discriminate].
  intros [= <-]. split; [exact V|]. now exists (calls tr), content.
Qed.

Lemma param_async_body_calls (user_message : string)
      (required_schema : dict json) (tr : list event) :
  (calls tr
   <= calls (snd (param_async_body ext self user_message required_schema tr))
   <= calls tr + 1)%nat.
Proof.
  unfold param_async_body, bind, lift, ret, throw.
  destruct (call_openai_async_cases user_message "ParamProcessorAgent" tr)
    as [[e H]|[[e H]|[content [_ H]]]]; rewrite H; cbn [snd].
  - lia.
  - rewrite calls_one_request. lia.
  - destruct (_parse_json_with_retry ext (strip content) "ParamProcessorAgent")
      as [v|e]; [|cbn [snd]; rewrite calls_one_request; lia].
    destruct (_validate_param_map v required_schema) as [r|e];
      [destruct (valid r)|]; cbn [snd]; rewrite calls_one_request; lia.
Qed.

Lemma param_async_body_ok (user_message : string)
      (required_schema : dict json) (tr : list event) (v : json) :
  fst (param_async_body ext self user_message required_schema tr) = Ok v ->
  _validate_param_map v required_schema = Ok {| valid := true; missing := [] |}
  /\ decoded_reply ext self user_message "ParamProcessorAgent" v.
Proof.
  unfold param_async_body, bind, lift, ret, throw.
  destruct (call_openai_async_cases user_message "ParamProcessorAgent" tr)
    as [[e H]|[[e H]|[content [Hc H]]]]; rewrite H; cbn [fst];
    try discriminate.
  destruct (_parse_json_with_retry ext (strip content) "ParamProcessorAgent")
    as [w|e] eqn:P; [|discriminate].
  destruct (_validate_param_map w required_schema) as [r|e] eqn:V;
    [|discriminate].
  destruct (valid r) eqn:R; cbn [fst]; [|discriminate].
  intros [= <-]. split; [|now exists (calls tr), content].
  rewrite V. f_equal. 
  unfold _validate_param_map in V.
  destruct (first_missing_field _ w) as [[f|]|e]; try discriminate.
  - injection V as <-. discriminate.
  - destruct (py_get w "normalized_params" (JObj [])) as [np|e]; [|discriminate].
    destruct (missing_params required_schema np) as [l|e]; [|discriminate].
    injection V as <-. cbn in R |- *. destruct l; [reflexivity|discriminate].
Qed.

End StageOutcomes.

Section StageTheorems.
Variable ext : External.
Variable self : Agent.

Lemma range_positive :
  (1 <= max_retries self)%Z ->
  exists n, (0 + S n)%nat = Z.to_nat (max_retries self)
            /\ range (max_retries self) = map Z.of_nat (seq 0 (S n)).
Proof.
  intros H. destruct (positive_limit self H) as [n Hn].
  exists n. unfold range. rewrite Hn. split; [reflexivity|reflexivity].
Qed.

Lemma range_empty :
  (max_retries self <= 0)%Z -> range (max_retries self) = [].
Proof.
  intros H. unfold range.
  replace (Z.to_nat (max_retries self)) with 0%nat by lia. reflexivity.
Qed.

(** The wrapper returns [None] when it makes no attempt, and the
    record of one of its attempts otherwise. *)
Lemma call_with_retry_outcome (user_message agent_name : string)
      (tr : list event) :
  let out := _call_with_retry ext self user_message agent_name tr in
  (forall v, fst out = Ok v ->
             (v = JNull /\ snd out = tr)
             \/ decoded_reply ext self user_message agent_name v)
  /\ (forall e, fst out = Raise e -> exn_cls e = RuntimeError)
  /\ (calls tr <= calls (snd out) <= calls tr + Z.to_nat (max_retries self))%nat.
Proof.
  cbv zeta. destruct (Z_le_gt_dec 1 (max_retries self)) as [Hge|Hlt].
  - destruct (range_positive Hge) as (n & Hn & Hr).
    unfold _call_with_retry. rewrite Hr, retry_loop_attempt_loop.
    destruct (attempt_loop_outcome
                (attempt_once ext self user_message agent_name)
                (fun e => agent_name ++ " failed after "
                          ++ decimal (max_retries self)
                          ++ " retries: " ++ exn_str e)
                (max_retries self) n
                (attempt_once_calls ext self user_message agent_name)
                0%nat tr Hn) as (H1 & H2 & H3).
    repeat split.
    + intros v Hv. right. destruct (H1 v Hv) as [tr0 H0].
      now apply attempt_once_decoded with tr0.
    + intros e He. destruct (H2 e He) as (e0 & tr0 & _ & ->). reflexivity.
    + lia.
    + lia.
  - rewrite call_with_retry_skipped by lia. cbn [fst snd].
    repeat split; try lia.
    + intros v [= <-]. now left.
    + discriminate.
Qed.

End StageTheorems.

Section StageEdges.
Variable ext : External.
Variable self : Agent.

(** X7.  With [max_retries <= 0] every synchronous stage fails without
    contacting the service: the retry wrapper hands back [None], which
    no stage accepts, and the stage raises its own [RuntimeError].  The
    trace is left as it was. *)
Theorem sync_stages_fail_without_attempts
        (query : string) (task_card : TaskCard)
        (registry_data components : list ComponentCard)
        (card cards param_map : json) (py_eq : json -> json -> bool)
        (timestamp : string) (pipeline_plan : PipelinePlan)
        (params : dict json) (helper_sources : dict string)
        (component_imports : list string) (tr : list event) :
  (max_retries self <= 0)%Z ->
  (stage_failure "SemanticAgent处理失败: "
                 (fst (SemanticAgent.process ext self query tr))
   /\ snd (SemanticAgent.process ext self query tr) = tr)
  /\ DiscoveryAgent.process ext self task_card registry_data tr
     = (Raise (Exn RuntimeError
                   "DiscoveryAgent处理失败: ComponentCards格式验证失败"), tr)
  /\ (stage_failure "ParamProcessorAgent处理失败: "
        (fst (ParamProcessorAgent.process ext self query task_card components tr))
      /\ snd (ParamProcessorAgent.process ext self query task_card components tr)
         = tr)
  /\ (stage_failure "PipelineAgent处理失败: "
        (fst (PipelineAgent.process ext self card cards param_map tr))
      /\ snd (PipelineAgent.process ext self card cards param_map tr) = tr)
  /\ Generation.process ext self py_eq None timestamp pipeline_plan components
                        params helper_sources component_imports tr
     = (Raise (Exn RuntimeError
                   "CodegenAgent处理失败: CodegenAgent返回的格式不正确"),
        tr, None).
Proof.
  intros H. repeat split.
  - unfold SemanticAgent.process, catch, bind.
    rewrite call_with_retry_skipped by exact H. eexists. reflexivity.
  - unfold SemanticAgent.process, catch, bind.
    rewrite call_with_retry_skipped by exact H. reflexivity.
  - unfold DiscoveryAgent.process, catch, bind.
    rewrite call_with_retry_skipped by exact H. reflexivity.
  - unfold ParamProcessorAgent.process, catch, bind.
    rewrite call_with_retry_skipped by exact H. eexists. reflexivity.
  - unfold ParamProcessorAgent.process, catch, bind.
    rewrite call_with_retry_skipped by exact H. reflexivity.
  - unfold PipelineAgent.process, catch, bind.
    rewrite call_with_retry_skipped by exact H. eexists. reflexivity.
  - unfold PipelineAgent.process, catch, bind.
    rewrite call_with_retry_skipped by exact H. reflexivity.
  - unfold Generation.process, Generation._call_with_retry.
    rewrite (range_empty self H). reflexivity.
Qed.

(** X8.  With [max_retries <= 0] the asynchronous stages do not fail:
    their loop body never runs, and they return [None], a value their
    own validation would have refused, without any request. *)
Theorem async_stages_return_none_without_attempts
        (query : string) (task_card : TaskCard)
        (registry_data components : list ComponentCard) (tr : list event) :
  (max_retries self <= 0)%Z ->
  DiscoveryAgent.process_async ext self task_card registry_data tr
  = (Ok JNull, tr)
  /\ ParamProcessorAgent.process_async ext self query task_card components tr
     = (Ok JNull, tr)
  /\ _validate_component_cards JNull = false
  /\ is_ok (_validate_param_map
              JNull (ParamProcessorAgent.required_schema_of components)) = false.
Proof.
  intros H. repeat split.
  - unfold DiscoveryAgent.process_async. now rewrite (range_empty self H).
  - unfold ParamProcessorAgent.process_async. now rewrite (range_empty self H).
Qed.

(** X9.  An agent built without an asynchronous client still goes
    through all its attempts: with [max_retries >= 1] each
    [process_async] makes no request, sleeps [max_retries - 1] times
    half a second, and only then raises the [RuntimeError] that says
    the client is not available. *)
Theorem async_stages_wait_without_client
        (query : string) (task_card : TaskCard)
        (registry_data components : list ComponentCard) (tr : list event) :
  has_async_client self = false ->
  (1 <= max_retries self)%Z ->
  DiscoveryAgent.process_async ext self task_card registry_data tr
  = (Raise (Exn RuntimeError
                ("DiscoveryAgent异步调用失败，已重试"
                 ++ decimal (max_retries self)
                 ++ "次: DiscoveryAgent async client not available")),
     (tr ++ pauses (Z.to_nat (max_retries self) - 1))%list)
  /\ ParamProcessorAgent.process_async ext self query task_card components tr
     = (Raise (Exn RuntimeError
                   ("ParamProcessorAgent异步调用失败，已重试"
                    ++ decimal (max_retries self)
                    ++ "次: ParamProcessorAgent async client not available")),
        (tr ++ pauses (Z.to_nat (max_retries self) - 1))%list).
Proof.
  intros Hc H. destruct (range_positive self H) as (n & Hn & Hr).
  replace (Z.to_nat (max_retries self) - 1)%nat with n by lia.
  split.
  - unfold DiscoveryAgent.process_async.
    rewrite Hr, discovery_async_attempt_loop.
    rewrite (attempt_loop_stillborn _ _ _
               (Exn RuntimeError "DiscoveryAgent async client not available"));
      [reflexivity| |exact Hn].
    intros tr0. unfold discovery_async_body, bind, _call_openai_async.
    rewrite Hc. reflexivity.
  - unfold ParamProcessorAgent.process_async.
    rewrite Hr, param_async_attempt_loop.
    rewrite (attempt_loop_stillborn _ _ _
               (Exn RuntimeError "ParamProcessorAgent async client not available"));
      [reflexivity| |exact Hn].
    intros tr0. unfold param_async_body, bind, _call_openai_async.
    rewrite Hc. reflexivity.
Qed.

(** X10.  With [max_retries >= 1], what an asynchronous stage returns
    is the parse of a reply of the service and has passed the
    validation of the stage; an error that it raises after a request is
    a [RuntimeError]; and it makes at most [max_retries] requests.
    (The stage builds its message before the loop, outside any [try]:
    what that raises on inputs it cannot read comes before every
    request and is not the subject here.) *)
Theorem async_stages_return_validated_reply
        (query : string) (task_card : TaskCard)
        (registry_data components : list ComponentCard) (tr : list event) :
  (1 <= max_retries self)%Z ->
  let discovery :=
    DiscoveryAgent.process_async ext self task_card registry_data tr in
  let params :=
    ParamProcessorAgent.process_async ext self query task_card components tr in
  ((forall v, fst discovery = Ok v ->
              _validate_component_cards v = true
              /\ decoded_reply ext self
                   (DiscoveryAgent.async_user_message_of ext task_card
                                                         registry_data)
                   "DiscoveryAgent" v)
   /\ (forall e, fst discovery = Raise e ->
                 (calls tr < calls (snd discovery))%nat ->
                 exn_cls e = RuntimeError)
   /\ (calls (snd discovery) <= calls tr + Z.to_nat (max_retries self))%nat)
  /\ ((forall v, fst params = Ok v ->
                 _validate_param_map
                   v (ParamProcessorAgent.required_schema_of components)
                 = Ok {| valid := true; missing := [] |}
                 /\ decoded_reply ext self
                      (ParamProcessorAgent.user_message_of ext query task_card
                                                           components)
                      "ParamProcessorAgent" v)
      /\ (forall e, fst params = Raise e ->
                    (calls tr < calls (snd params))%nat ->
                    exn_cls e = RuntimeError)
      /\ (calls (snd params) <= calls tr + Z.to_nat (max_retries self))%nat).
Proof.
  intros H. destruct (range_positive self H) as (n & Hn & Hr). cbv zeta.
  split.
  - unfold DiscoveryAgent.process_async.
    rewrite Hr, discovery_async_attempt_loop.
    destruct (attempt_loop_outcome _
                (fun e => "DiscoveryAgent异步调用失败，已重试"
                          ++ decimal (max_retries self) ++ "次: " ++ exn_str e)
                (max_retries self) n
                (discovery_async_body_calls ext self
                   (DiscoveryAgent.async_user_message_of ext task_card
                                                         registry_data))
                0%nat tr Hn) as (H1 & H2 & H3).
    split; [|split].
    + intros v Hv0. destruct (H1 v Hv0) as [tr0 Hv].
      exact (discovery_async_body_ok ext self _ tr0 v Hv).
    + intros e He _. destruct (H2 e He) as (e0 & tr0 & _ & ->). reflexivity.
    + lia.
  - unfold ParamProcessorAgent.process_async.
    rewrite Hr, param_async_attempt_loop.
    destruct (attempt_loop_outcome _
                (fun e => "ParamProcessorAgent异步调用失败，已重试"
                          ++ decimal (max_retries self) ++ "次: " ++ exn_str e)
                (max_retries self) n
                (param_async_body_calls ext self
                   (ParamProcessorAgent.user_message_of ext query task_card
                                                        components)
                   (ParamProcessorAgent.required_schema_of components))
                0%nat tr Hn) as (H1 & H2 & H3).
    split; [|split].
    + intros v Hv0. destruct (H1 v Hv0) as [tr0 Hv].
      exact (param_async_body_ok ext self _ _ tr0 v Hv).
    + intros e He _. destruct (H2 e He) as (e0 & tr0 & _ & ->). reflexivity.
    + lia.
Qed.

End StageEdges.

Section SyncStages.
Variable ext : External.
Variable self : Agent.

(** The shape the synchronous stages share: the retry wrapper, then a
    check that passes the record on or raises, all inside a [try] that
    re-raises as a [RuntimeError] of the stage. *)
Lemma sync_stage_outcome (user_message agent_name prefix : string)
      (check : json -> M json) (tr : list event) :
  (forall v tr0, check v tr0 = (Ok v, tr0)
                 \/ exists e, check v tr0 = (Raise e, tr0)) ->
  let out :=
    catch (bind (_call_with_retry ext self user_message agent_name) check)
          (fun e => throw RuntimeError (prefix ++ exn_str e)) tr in
  (forall v, fst out = Ok v ->
             check v (snd out) = (Ok v, snd out)
             /\ ((v = JNull /\ snd out = tr)
                 \/ decoded_reply ext self user_message agent_name v))
  /\ (forall e, fst out = Raise e -> stage_failure prefix (fst out))
  /\ (calls tr <= calls (snd out) <= calls tr + Z.to_nat (max_retries self))%nat.
Proof.
  intros Hcheck. cbv zeta.
  destruct (call_with_retry_outcome ext self user_message agent_name tr)
    as (H1 & H2 & H3).
  unfold catch, bind, throw.
  destruct (_call_with_retry ext self user_message agent_name tr)
    as [[w|e0] tr1]; cbn [fst snd] in *.
  - destruct (Hcheck w tr1) as [Hw|[e Hw]]; rewrite Hw; cbn [fst snd].
    + split; [|split; [discriminate|exact H3]].
      intros v [= <-]. split; [exact Hw|]. now apply H1.
    + split; [discriminate|split; [|exact H3]].
      intros e' _. eexists. reflexivity.
  - split; [discriminate|split; [|exact H3]].
    intros e' _. eexists. reflexivity.
Qed.

Lemma discovery_check_shape (v : json) (tr0 : list event) :
  (if _validate_component_cards v then ret v
   else throw ValueError "ComponentCards格式验证失败") tr0 = (Ok v, tr0)
  \/ exists e,
      (if _validate_component_cards v then ret v
       else throw ValueError "ComponentCards格式验证失败") tr0 = (Raise e, tr0).
Proof.
  destruct (_validate_component_cards v); [now left|right; eexists; reflexivity].
Qed.

Lemma flag_check_shape (validate : json -> result bool) (message : string)
      (v : json) (tr0 : list event) :
  (ok <- lift (validate v) ;;
   if ok : bool then ret v else throw ValueError message)%py tr0 = (Ok v, tr0)
  \/ exists e,
      (ok <- lift (validate v) ;;
       if ok : bool then ret v else throw ValueError message)%py tr0
      = (Raise e, tr0).
Proof.
  unfold bind, lift.
  destruct (validate v) as [[|]|e];
    [now left|right; eexists; reflexivity|right; eexists; reflexivity].
Qed.

Lemma flag_check_passed (validate : json -> result bool) (message : string)
      (v : json) (tr0 : list event) :
  (ok <- lift (validate v) ;;
   if ok : bool then ret v else throw ValueError message)%py tr0 = (Ok v, tr0) ->
  validate v = Ok true.
Proof.
  unfold bind, lift.
  destruct (validate v) as [[|]|e]; [reflexivity|discriminate|discriminate].
Qed.

Lemma param_check_shape (schema : dict json) (v : json) (tr0 : list event) :
  (validation_result <- lift (_validate_param_map v schema) ;;
   if valid validation_result then ret v
   else throw ValueError
          ("参数处理验证失败: 缺失参数 "
           ++ repr_list (missing validation_result)))%py tr0 = (Ok v, tr0)
  \/ exists e,
      (validation_result <- lift (_validate_param_map v schema) ;;
       if valid validation_result then ret v
       else throw ValueError
              ("参数处理验证失败: 缺失参数 "
               ++ repr_list (missing validation_result)))%py tr0
      = (Raise e, tr0).
Proof.
  unfold bind, lift.
  destruct (_validate_param_map v schema) as [r|e];
    [destruct (valid r)|];
    [now left|right; eexists; reflexivity|right; eexists; reflexivity].
Qed.

(** A validation that says yes found nothing missing. *)
Lemma validate_param_map_valid (v : json) (schema : dict json) (r : Validation) :
  _validate_param_map v schema = Ok r -> valid r = true ->
  r = {| valid := true; missing := [] |}.
Proof.
  unfold _validate_param_map. intros V R.
  destruct (first_missing_field _ v) as [[f|]|e]; try discriminate.
  - injection V as <-. discriminate.
  - destruct (py_get v "normalized_params" (JObj [])) as [np|e]; [|discriminate].
    destruct (missing_params schema np) as [l|e]; [|discriminate].
    injection V as <-. cbn in R |- *. destruct l; [reflexivity|discriminate].
Qed.

Lemma param_check_passed (schema : dict json) (v : json) (tr0 : list event) :
  (validation_result <- lift (_validate_param_map v schema) ;;
   if valid validation_result then ret v
   else throw ValueError
          ("参数处理验证失败: 缺失参数 "
           ++ repr_list (missing validation_result)))%py tr0 = (Ok v, tr0) ->
  _validate_param_map v schema = Ok {| valid := true; missing := [] |}.
Proof.
  unfold bind, lift.
  destruct (_validate_param_map v schema) as [r|e] eqn:V; [|discriminate].
  destruct (valid r) eqn:R; [|discriminate].
  intros _. f_equal. now apply (validate_param_map_valid v schema).
Qed.

(** X11.  What a synchronous stage returns is the parse of a reply of
    the service to the message of the stage, and has passed the
    validation of the stage; it makes at most [max_retries] requests.
    Whatever goes wrong in the semantic stage or in the pipeline stage,
    the stage raises a [RuntimeError] that starts with its own prefix;
    so does an error that the discovery stage or the parameter stage
    raises after a request.  (These two build their message before the
    [try]: what that raises on inputs it cannot read comes before every
    request, is not wrapped, and is not the subject here.) *)
Theorem sync_stages_return_validated_reply
        (query : string) (task_card : TaskCard)
        (registry_data components : list ComponentCard)
        (card cards param_map : json) (tr : list event) :
  let semantic := SemanticAgent.process ext self query tr in
  let discovery := DiscoveryAgent.process ext self task_card registry_data tr in
  let params :=
    ParamProcessorAgent.process ext self query task_card components tr in
  let pipeline := PipelineAgent.process ext self card cards param_map tr in
  ((forall v, fst semantic = Ok v ->
              SemanticAgent._validate_task_card v = Ok true
              /\ decoded_reply ext self query "SemanticAgent" v)
   /\ (forall e, fst semantic = Raise e ->
                 stage_failure "SemanticAgent处理失败: " (fst semantic))
   /\ (calls (snd semantic) <= calls tr + Z.to_nat (max_retries self))%nat)
  /\ ((forall v, fst discovery = Ok v ->
                 _validate_component_cards v = true
                 /\ decoded_reply ext self
                      (DiscoveryAgent.user_message_of ext task_card registry_data)
                      "DiscoveryAgent" v)
      /\ (forall e, fst discovery = Raise e ->
                    (calls tr < calls (snd discovery))%nat ->
                    stage_failure "DiscoveryAgent处理失败: " (fst discovery))
      /\ (calls (snd discovery) <= calls tr + Z.to_nat (max_retries self))%nat)
  /\ ((forall v, fst params = Ok v ->
                 _validate_param_map
                   v (ParamProcessorAgent.required_schema_of components)
                 = Ok {| valid := true; missing := [] |}
                 /\ decoded_reply ext self
                      (ParamProcessorAgent.user_message_of ext query task_card
                                                           components)
                      "ParamProcessorAgent" v)
      /\ (forall e, fst params = Raise e ->
                    (calls tr < calls (snd params))%nat ->
                    stage_failure "ParamProcessorAgent处理失败: " (fst params))
      /\ (calls (snd params) <= calls tr + Z.to_nat (max_retries self))%nat)
  /\ ((forall v, fst pipeline = Ok v ->
                 PipelineAgent._validate_pipeline_plan v = Ok true
                 /\ decoded_reply ext self
                      (PipelineAgent.user_message_of ext card cards param_map)
                      "PipelineAgent" v)
      /\ (forall e, fst pipeline = Raise e ->
                    stage_failure "PipelineAgent处理失败: " (fst pipeline))
      /\ (calls (snd pipeline) <= calls tr + Z.to_nat (max_retries self))%nat).
Proof.
  cbv zeta. split; [|split; [|split]].
  - destruct (sync_stage_outcome query "SemanticAgent" "SemanticAgent处理失败: "
                _ tr (flag_check_shape SemanticAgent._validate_task_card
                                       "TaskCard格式验证失败"))
      as (H1 & H2 & H3).
    split; [|split; [exact H2|apply H3]].
    intros v Hv. destruct (H1 v Hv) as [Hc Hd].
    apply flag_check_passed in Hc. split; [exact Hc|].
    destruct Hd as [[-> _]|Hd]; [discriminate Hc|exact Hd].
  - destruct (sync_stage_outcome
                (DiscoveryAgent.user_message_of ext task_card registry_data)
                "DiscoveryAgent" "DiscoveryAgent处理失败: "
                _ tr discovery_check_shape) as (H1 & H2 & H3).
    split; [|split; [intros e He _; exact (H2 e He)|apply H3]].
    intros v Hv. destruct (H1 v Hv) as [Hc Hd].
    assert (V : _validate_component_cards v = true).
    { destruct (_validate_component_cards v); [reflexivity|discriminate Hc]. }
    split; [exact V|].
    destruct Hd as [[-> _]|Hd]; [discriminate V|exact Hd].
  - destruct (sync_stage_outcome
                (ParamProcessorAgent.user_message_of ext query task_card
                                                     components)
                "ParamProcessorAgent" "ParamProcessorAgent处理失败: "
                _ tr (param_check_shape
                        (ParamProcessorAgent.required_schema_of components)))
      as (H1 & H2 & H3).
    split; [|split; [intros e He _; exact (H2 e He)|apply H3]].
    intros v Hv. destruct (H1 v Hv) as [Hc Hd].
    apply param_check_passed in Hc. split; [exact Hc|].
    destruct Hd as [[-> _]|Hd]; [discriminate Hc|exact Hd].
  - destruct (sync_stage_outcome
                (PipelineAgent.user_message_of ext card cards param_map)
                "PipelineAgent" "PipelineAgent处理失败: "
                _ tr (flag_check_shape PipelineAgent._validate_pipeline_plan
                                       "PipelinePlan格式验证失败"))
      as (H1 & H2 & H3).
    split; [|split; [exact H2|apply H3]].
    intros v Hv. destruct (H1 v Hv) as [Hc Hd].
    apply flag_check_passed in Hc. split; [exact Hc|].
    destruct Hd as [[-> _]|Hd]; [discriminate Hc|exact Hd].
Qed.

End SyncStages.

(** Instances.  No retry budget: the discovery stage fails at once, its
    asynchronous twin returns [None]. *)
Lemma sync_stages_fail_without_attempts_witness :
  (max_retries (Examples.agent 0) <= 0)%Z
  /\ DiscoveryAgent.process Examples.silent (Examples.agent 0) Examples.task [] []
     = (Raise (Exn RuntimeError
                   "DiscoveryAgent处理失败: ComponentCards格式验证失败"), []).
Proof.
  split; [vm_compute; discriminate|].
  refine (proj1 (proj2 (sync_stages_fail_without_attempts
                          Examples.silent (Examples.agent 0) "q" Examples.task
                          [] [] JNull JNull JNull json_eqb "" (Examples.plan [])
                          [] [] [] [] _))).
  vm_compute; discriminate.
Defined.

Lemma async_stages_return_none_without_attempts_witness :
  (max_retries (Examples.agent 0) <= 0)%Z
  /\ DiscoveryAgent.process_async Examples.silent (Examples.agent 0)
                                  Examples.task [] []
     = (Ok JNull, []).
Proof.
  split; [vm_compute; discriminate|].
  refine (proj1 (async_stages_return_none_without_attempts
                   Examples.silent (Examples.agent 0) "q" Examples.task
                   [] [] [] _)).
  vm_compute; discriminate.
Defined.

(** Three attempts without a client: two pauses, no request. *)
Lemma async_stages_wait_without_client_witness :
  has_async_client (sync_only_agent 3) = false
  /\ (1 <= max_retries (sync_only_agent 3))%Z
  /\ snd (DiscoveryAgent.process_async Examples.silent (sync_only_agent 3)
                                       Examples.task [] [])
     = [Sleep 500; Sleep 500].
Proof.
  split; [reflexivity|]. split; [vm_compute; discriminate|].
  rewrite (proj1 (async_stages_wait_without_client
                    Examples.silent (sync_only_agent 3) "q" Examples.task
                    [] [] [] eq_refl ltac:(vm_compute; discriminate))).
  reflexivity.
Defined.

(** A service that replies with an empty list of components, and one
    that refuses every request. *)
Lemma async_stages_return_validated_reply_witness :
  (1 <= max_retries (Examples.agent 3))%Z
  /\ fst (DiscoveryAgent.process_async (Examples.python (Examples.always "[]"))
            (Examples.agent 3) Examples.task [] []) = Ok (JArr [])
  /\ _validate_component_cards (JArr []) = true
  /\ exists e,
      fst (DiscoveryAgent.process_async Examples.silent (Examples.agent 3)
             Examples.task [] []) = Raise e
      /\ exn_cls e = RuntimeError.
Proof.
  split; [vm_compute; discriminate|].
  split; [vm_compute; reflexivity|]. split.
  - refine (proj1 (proj1 (proj1 (async_stages_return_validated_reply
                                    (Examples.python (Examples.always "[]"))
                                    (Examples.agent 3) "q" Examples.task
                                    [] [] [] _)) (JArr []) _)).
    + vm_compute; discriminate.
    + vm_compute; reflexivity.
  - assert (H : exists e,
               fst (DiscoveryAgent.process_async
                      Examples.silent (Examples.agent 3) Examples.task [] [])
               = Raise e) by (vm_compute; eexists; reflexivity).
    destruct H as [e He]. exists e. split; [exact He|].
    refine (proj1 (proj2 (proj1 (async_stages_return_validated_reply
                                   Examples.silent (Examples.agent 3) "q"
                                   Examples.task [] [] [] _))) e He _).
    + vm_compute; discriminate.
    + vm_compute. lia.
Defined.

Lemma sync_stages_return_validated_reply_witness :
  fst (DiscoveryAgent.process (Examples.python (Examples.always "[]"))
         (Examples.agent 3) Examples.task [] []) = Ok (JArr [])
  /\ decoded_reply (Examples.python (Examples.always "[]")) (Examples.agent 3)
       (DiscoveryAgent.user_message_of (Examples.python (Examples.always "[]"))
                                       Examples.task [])
       "DiscoveryAgent" (JArr [])
  /\ stage_failure "DiscoveryAgent处理失败: "
       (fst (DiscoveryAgent.process Examples.silent (Examples.agent 3)
               Examples.task [] [])).
Proof.
  split; [vm_compute; reflexivity|]. split.
  - refine (proj2 (proj1 (proj1 (proj2 (sync_stages_return_validated_reply
                                    (Examples.python (Examples.always "[]"))
                                    (Examples.agent 3) "q" Examples.task
                                    [] [] JNull JNull JNull []))) (JArr []) _)).
    vm_compute; reflexivity.
  - assert (H : exists e,
               fst (DiscoveryAgent.process
                      Examples.silent (Examples.agent 3) Examples.task [] [])
               = Raise e) by (vm_compute; eexists; reflexivity).
    destruct H as [e He].
    refine (proj1 (proj2 (proj1 (proj2 (sync_stages_return_validated_reply
                                    Examples.silent (Examples.agent 3) "q"
                                    Examples.task [] [] JNull JNull JNull []))))
                  e He _).
    vm_compute. lia.
Defined.

(** ** The generation stage *)

Section GenerationFacts.
Variable ext : External.
Variable self : Agent.
Variable py_eq : json -> json -> bool.

Lemma apply_op_case_shaped (op : MemoryOp) (m : AgentMemory) :
  Forall case_shaped (successful_generations m) ->
  Forall case_shaped (successful_generations (apply_op ext m op)).
Proof.
  intros H. destruct op; cbn [apply_op]; try exact H.
  unfold Memory.record_success_case.
  destruct (String.eqb agent_type "DiscoveryAgent"); [exact H|].
  destruct (String.eqb agent_type "ParamNormAgent"); [exact H|].
  destruct (String.eqb agent_type "CodegenAgent"); [|exact H].
  cbn [successful_generations]. apply Forall_snoc; [exact H|].
  exists input_data, output_data. split; reflexivity.
Qed.

Lemma recorded_case_shaped (ops : list MemoryOp) :
  forall m,
    Forall case_shaped (successful_generations m) ->
    Forall case_shaped (successful_generations (fold_left (apply_op ext) ops m)).
Proof.
  induction ops as [|op ops IH]; intros m H; [exact H|].
  simpl. apply IH. now apply apply_op_case_shaped.
Qed.

(** On well-formed cases the lookup of the generator cannot raise. *)
Lemma similar_generation_total (input_data : json)
      (generations : list MemoryRecord) :
  Forall case_shaped generations ->
  exists found,
    Recall.similar_generation py_eq input_data generations = Ok found.
Proof.
  induction 1 as [|r rest (i & o & Hi & Ho) _ IH]; [now exists JNull|].
  cbn [Recall.similar_generation]. unfold Recall.item. rewrite Hi, Ho.
  destruct (py_eq i input_data); [now exists o|exact IH].
Qed.

Lemma given_memory_lookup (ops : option (list MemoryOp)) (input_data : json) :
  exists found,
    AgentWithMemory._find_similar_case py_eq "CodegenAgent"
                                       (given_memory ext ops) input_data
    = Ok found.
Proof.
  destruct ops as [ops|]; [|now exists JNull].
  cbn [given_memory AgentWithMemory._find_similar_case].
  unfold Recall.find_similar_case, Recall._find_similar_generation.
  cbn [String.eqb Ascii.eqb Bool.eqb].
  apply similar_generation_total, recorded_case_shaped. constructor.
Qed.

Lemma generation_body_eq (user_message agent_name : string) (tr : list event) :
  generation_body ext self user_message agent_name tr
  = (match chat ext (calls tr) (prompt self) user_message with
     | Ok content => Ok (JStr (Generation.clean_python (strip content)))
     | Raise e =>
         Raise (Exn RuntimeError
                    (agent_name ++ " API call failed: " ++ exn_str e))
     end,
     (tr ++ [ChatCompletion false (prompt self) user_message])%list).
Proof.
  unfold generation_body, bind, _call_openai, ret.
  destruct (chat ext (calls tr) (prompt self) user_message); reflexivity.
Qed.

Lemma generation_body_calls (user_message agent_name : string)
      (tr : list event) :
  (calls tr <= calls (snd (generation_body ext self user_message agent_name tr))
   <= calls tr + 1)%nat.
Proof.
  rewrite generation_body_eq. cbn [snd]. rewrite calls_one_request. lia.
Qed.

(** What the generator's wrapper returns: [None] without an attempt,
    else the cleaned text of a reply. *)
Lemma generation_wrapper_outcome (user_message agent_name : string)
      (tr : list event) :
  let out := Generation._call_with_retry ext self user_message agent_name tr in
  (forall v, fst out = Ok v ->
             (v = JNull /\ (max_retries self <= 0)%Z)
             \/ exists n content,
                 chat ext n (prompt self) user_message = Ok content
                 /\ v = JStr (Generation.clean_python (strip content)))
  /\ (forall e, fst out = Raise e -> exn_cls e = RuntimeError)
  /\ (calls tr <= calls (snd out) <= calls tr + Z.to_nat (max_retries self))%nat.
Proof.
  cbv zeta. unfold Generation._call_with_retry.
  destruct (Z_le_gt_dec 1 (max_retries self)) as [Hge|Hlt].
  - destruct (range_positive self Hge) as (n & Hn & Hr).
    rewrite Hr, generation_attempt_loop.
    destruct (attempt_loop_outcome
                (generation_body ext self user_message agent_name)
                (fun e => agent_name ++ " failed after "
                          ++ decimal (max_retries self)
                          ++ " retries: " ++ exn_str e)
                (max_retries self) n
                (generation_body_calls user_message agent_name)
                0%nat tr Hn) as (H1 & H2 & H3).
    split; [|split].
    + intros v Hv. right. destruct (H1 v Hv) as [tr0 H0].
      rewrite generation_body_eq in H0. cbn [fst] in H0.
      destruct (chat ext (calls tr0) (prompt self) user_message)
        as [content|e] eqn:E; [|discriminate].
      exists (calls tr0), content. split; [exact E|]. now injection H0.
    + intros e He. destruct (H2 e He) as (e0 & tr0 & _ & ->). reflexivity.
    + lia.
  - rewrite (range_empty self) by lia. cbn [Generation.retry_loop ret fst snd].
    split; [|split].
    + intros v [= <-]. left. split; [reflexivity|lia].
    + discriminate.
    + lia.
Qed.

End GenerationFacts.

Section GenerationTheorems.
Variable ext : External.
Variable self : Agent.
Variable py_eq : json -> json -> bool.
Variable pipeline_plan : PipelinePlan.
Variable components : list ComponentCard.
Variable param_map : dict json.
Variable helper_sources : dict string.
Variable component_imports : list string.

Local Abbreviation message :=
  (Generation.user_message_of ext pipeline_plan components param_map
                              helper_sources component_imports).
Local Abbreviation process_with agent_memory timestamp :=
  (Generation.process ext self py_eq agent_memory timestamp pipeline_plan
                      components param_map helper_sources component_imports).
Local Abbreviation refused :=
  (Raise (Exn RuntimeError "CodegenAgent处理失败: CodegenAgent返回的格式不正确")
   : result string).

(** [process] once the lookup has returned. *)
Lemma generation_process_after_lookup (agent_memory : option AgentMemory)
      (timestamp : string) (found : json) (tr : list event) :
  AgentWithMemory._find_similar_case
    py_eq "CodegenAgent" agent_memory
    (Generation.lookup_key components param_map) = Ok found ->
  process_with agent_memory timestamp tr
  = let failed (e : exn) : result string :=
      Raise (Exn RuntimeError ("CodegenAgent处理失败: " ++ exn_str e)) in
    match Generation._call_with_retry ext self message "CodegenAgent" tr with
    | (Raise e, tr') => (failed e, tr', agent_memory)
    | (Ok (JStr code), tr') =>
        if negb (String.eqb (strip code) "") then
          match agent_memory with
          | None => (Ok code, tr', None)
          | Some _ =>
              match Generation.record_key components param_map with
              | Raise e => (failed e, tr', agent_memory)
              | Ok key =>
                  (Ok code, tr',
                   AgentWithMemory._record_success
                     "CodegenAgent" agent_memory key
                     (JObj [("code", JStr code)]) timestamp)
              end
          end
        else (refused, tr', agent_memory)
    | (Ok _, tr') => (refused, tr', agent_memory)
    end.
Proof.
  intros H. unfold Generation.process. rewrite H. cbv zeta.
  destruct (Generation._call_with_retry ext self message "CodegenAgent" tr)
    as [[v|e] tr']; [|reflexivity].
  destruct v; reflexivity.
Qed.

(** X12.  The memory of the generator is write-only.  Whatever the
    recording methods have put into the memory it was given, [process]
    returns or raises the same thing and sends the same requests: the
    case it looks up is never used. *)
Theorem generation_ignores_memory_contents
        (ops1 ops2 : list MemoryOp) (timestamp1 timestamp2 : string)
        (tr : list event) :
  fst (process_with (Some (recorded ext ops1)) timestamp1 tr)
  = fst (process_with (Some (recorded ext ops2)) timestamp2 tr).
Proof.
  destruct (given_memory_lookup ext py_eq (Some ops1)
              (Generation.lookup_key components param_map)) as [f1 H1].
  destruct (given_memory_lookup ext py_eq (Some ops2)
              (Generation.lookup_key components param_map)) as [f2 H2].
  cbn [given_memory] in H1, H2.
  rewrite (generation_process_after_lookup _ _ f1 tr H1),
          (generation_process_after_lookup _ _ f2 tr H2).
  cbv zeta.
  destruct (Generation._call_with_retry ext self message "CodegenAgent" tr)
    as [[v|e] tr']; [|reflexivity].
  destruct v; try reflexivity.
  destruct (negb (String.eqb (strip s) "")); [|reflexivity].
  destruct (Generation.record_key components param_map); reflexivity.
Qed.

(** The first pass of the generator's wrapper on a reply. *)
Lemma generation_first_reply (content : string) (tr : list event) :
  (1 <= max_retries self)%Z ->
  chat ext (calls tr) (prompt self) message = Ok content ->
  Generation._call_with_retry ext self message "CodegenAgent" tr
  = (Ok (JStr (Generation.clean_python (strip content))),
     (tr ++ [ChatCompletion false (prompt self) message])%list).
Proof.
  intros H Hc. destruct (range_positive self H) as (n & Hn & Hr).
  unfold Generation._call_with_retry.
  rewrite Hr, generation_attempt_loop, (attempt_loop_step _ _ _ 0 n tr Hn).
  rewrite generation_body_eq, Hc. reflexivity.
Qed.

(** X13.  A blank reply is not retried.  When the first reply of the
    service is empty once cleaned, [process] stops after that single
    request, whatever [max_retries] allows, and raises its format
    error; the memory is left as it was.  (The wrapper of the other
    stages retries an empty reply: there the check is inside the
    loop.) *)
Theorem generation_blank_reply_not_retried
        (ops : option (list MemoryOp)) (timestamp content : string)
        (tr : list event) :
  (1 <= max_retries self)%Z ->
  chat ext (calls tr) (prompt self) message = Ok content ->
  strip (Generation.clean_python (strip content)) = "" ->
  process_with (given_memory ext ops) timestamp tr
  = (refused, (tr ++ [ChatCompletion false (prompt self) message])%list,
     given_memory ext ops).
Proof.
  intros H Hc Hb.
  destruct (given_memory_lookup ext py_eq ops
              (Generation.lookup_key components param_map)) as [f Hf].
  rewrite (generation_process_after_lookup _ _ f tr Hf). cbv zeta.
  rewrite (generation_first_reply content tr H Hc), Hb. reflexivity.
Qed.

(** X14.  What the generator returns is the cleaned text of a reply of
    the service, and is not blank; an error that it raises after a
    request is a [RuntimeError] that starts with its prefix; and it
    makes at most [max_retries] requests.  (The generator looks into
    the memory, analyses the plan and builds its message before the
    [try]: what that raises on inputs it cannot read comes before every
    request, is not wrapped, and is not the subject here.) *)
Theorem generation_returns_cleaned_reply
        (ops : option (list MemoryOp)) (timestamp : string) (tr : list event) :
  let out := process_with (given_memory ext ops) timestamp tr in
  (forall code, fst (fst out) = Ok code ->
                strip code <> ""
                /\ exists n content,
                    chat ext n (prompt self) message = Ok content
                    /\ code = Generation.clean_python (strip content))
  /\ (forall e, fst (fst out) = Raise e ->
                (calls tr < calls (snd (fst out)))%nat ->
                stage_failure "CodegenAgent处理失败: " (fst (fst out)))
  /\ (calls tr <= calls (snd (fst out))
      <= calls tr + Z.to_nat (max_retries self))%nat.
Proof.
  cbv zeta.
  destruct (given_memory_lookup ext py_eq ops
              (Generation.lookup_key components param_map)) as [f Hf].
  rewrite (generation_process_after_lookup _ _ f tr Hf). cbv zeta.
  destruct (generation_wrapper_outcome ext self message "CodegenAgent" tr)
    as (H1 & H2 & H3).
  destruct (Generation._call_with_retry ext self message "CodegenAgent" tr)
    as [[v|e] tr']; cbn [fst snd] in *.
  - assert (Hrefused :
              (forall code : string, refused = Ok code ->
                 strip code <> ""
                 /\ exists n content,
                     chat ext n (prompt self) message = Ok content
                     /\ code = Generation.clean_python (strip content))
              /\ (forall e : exn, refused = Raise e ->
                    (calls tr < calls tr')%nat ->
                    stage_failure "CodegenAgent处理失败: " refused)
              /\ (calls tr <= calls tr'
                  <= calls tr + Z.to_nat (max_retries self))%nat).
    { split; [discriminate|split; [|exact H3]].
      intros e _ _. eexists. reflexivity. }
    destruct v; try exact Hrefused.
    destruct (String.eqb (strip s) "") eqn:B; cbn [negb]; [exact Hrefused|].
    assert (Hcode : strip s <> ""
                    /\ exists n content,
                        chat ext n (prompt self) message = Ok content
                        /\ s = Generation.clean_python (strip content)).
    { split; [now apply String.eqb_neq|].
      destruct (H1 (JStr s) eq_refl) as [[? _]|(n & content & Hc & Hs)];
        [discriminate|].
      exists n, content. split; [exact Hc|now injection Hs]. }
    destruct (given_memory ext ops) as [m|]; cbn [fst snd].
    + destruct (Generation.record_key components param_map) as [key|e];
        cbn [fst snd].
      * split; [|split; [discriminate|exact H3]].
        intros code [= <-]. exact Hcode.
      * split; [discriminate|split; [|exact H3]].
        intros e' _ _. eexists. reflexivity.
    + split; [|split; [discriminate|exact H3]].
      intros code [= <-]. exact Hcode.
  - split; [discriminate|split; [|exact H3]].
    intros e' _ _. eexists. reflexivity.
Qed.

(** X15.  Having a memory can turn a success into a failure.  When
    [normalized_params] of the param map is not a mapping, the run
    that returns code without a memory fails with a memory, after the
    same requests: building the key of the case to record raises an
    [AttributeError], which the stage re-raises as its own error. *)
Theorem generation_fails_when_recording_raises
        (ops : list MemoryOp) (timestamp code : string) (normalized : json)
        (tr tr' : list event) :
  Dict.get "normalized_params" param_map = Some normalized ->
  (forall d, normalized <> JObj d) ->
  process_with None timestamp tr = (Ok code, tr', None) ->
  process_with (Some (recorded ext ops)) timestamp tr
  = (Raise (Exn RuntimeError
                ("CodegenAgent处理失败: '" ++ type_name normalized
                 ++ "' object has no attribute 'get'")),
     tr', Some (recorded ext ops)).
Proof.
  intros Hn Hd Hrun.
  destruct (given_memory_lookup ext py_eq (Some ops)
              (Generation.lookup_key components param_map)) as [f Hf].
  cbn [given_memory] in Hf.
  rewrite (generation_process_after_lookup _ timestamp f tr Hf).
  rewrite (generation_process_after_lookup None timestamp JNull tr eq_refl)
    in Hrun.
  cbv zeta in *.
  destruct (Generation._call_with_retry ext self message "CodegenAgent" tr)
    as [[v|e] tr1]; [|discriminate].
  destruct v; try discriminate.
  destruct (negb (String.eqb (strip s) "")); [|discriminate].
  injection Hrun as <- <-.
  unfold Generation.record_key. rewrite Hn. cbn [get_or].
  destruct normalized; try reflexivity.
  now destruct (Hd fields).
Qed.

(** X16.  A failed generation leaves the memory as it was.  A
    successful one appends exactly one case to
    [successful_generations], holding the code it returns, and touches
    no other list; nothing bounds how many cases pile up. *)
Theorem generation_memory_afterwards
        (agent_memory : option AgentMemory) (timestamp : string)
        (tr : list event) :
  let out := process_with agent_memory timestamp tr in
  (forall e, fst (fst out) = Raise e -> snd out = agent_memory)
  /\ (forall code m,
         fst (fst out) = Ok code -> agent_memory = Some m ->
         exists key m',
           Generation.record_key components param_map = Ok key
           /\ snd out = Some m'
           /\ successful_generations m'
              = (successful_generations m
                   ++ [[("agent_type", JStr "CodegenAgent");
                        ("timestamp", JStr timestamp);
                        ("input", key);
                        ("output", JObj [("code", JStr code)])]])%list
           /\ param_patterns m' = param_patterns m
           /\ param_completions m' = param_completions m
           /\ param_normalizations m' = param_normalizations m
           /\ component_combinations m' = component_combinations m
           /\ successful_discoveries m' = successful_discoveries m
           /\ generation_patterns m' = generation_patterns m
           /\ validation_failures m' = validation_failures m
           /\ missing_param_cases m' = missing_param_cases m).
Proof.
  cbv zeta. unfold Generation.process.
  destruct (AgentWithMemory._find_similar_case _ _ _ _) as [f|e0];
    [|split; [reflexivity|discriminate]].
  cbv zeta.
  destruct (Generation._call_with_retry ext self message "CodegenAgent" tr)
    as [[v|e] tr']; [|split; [reflexivity|discriminate]].
  destruct v; try (split; [reflexivity|discriminate]).
  destruct (negb (String.eqb (strip s) ""));
    [|split; [reflexivity|discriminate]].
  destruct agent_memory as [m0|]; [|split; discriminate].
  destruct (Generation.record_key components param_map) as [key|e];
    [|split; [reflexivity|discriminate]].
  cbn [fst snd]. split; [discriminate|].
  intros code m [= <-] [= <-].
  exists key. eexists. split; [reflexivity|].
  split; [reflexivity|]. repeat split.
Qed.

End GenerationTheorems.

(** Instances: a service that replies with blanks, and one that replies
    with a line of code. *)
Lemma generation_blank_reply_not_retried_witness :
  (1 <= max_retries (Examples.agent 3))%Z
  /\ calls (snd (fst (Generation.process
                        (Examples.python (Examples.always "   "))
                        (Examples.agent 3) json_eqb None "2025-01-01T00:00:00"
                        (Examples.plan []) [] [] [] [] []))) = 1%nat.
Proof.
  split; [vm_compute; discriminate|].
  assert (H : (1 <= max_retries (Examples.agent 3))%Z)
    by (vm_compute; discriminate).
  pose proof (generation_blank_reply_not_retried
                (Examples.python (Examples.always "   ")) (Examples.agent 3)
                json_eqb (Examples.plan []) [] [] [] [] None
                "2025-01-01T00:00:00" "   " [] H eq_refl eq_refl) as Hrun.
  cbn [given_memory] in Hrun. rewrite Hrun. reflexivity.
Defined.

Lemma generation_returns_cleaned_reply_witness :
  fst (fst (Generation.process
              (Examples.python (Examples.always "print(1)"))
              (Examples.agent 3) json_eqb None "2025-01-01T00:00:00"
              (Examples.plan []) [] [] [] [] [])) = Ok "print(1)"
  /\ strip "print(1)" <> ""
  /\ stage_failure "CodegenAgent处理失败: "
       (fst (fst (Generation.process
                    Examples.silent (Examples.agent 3) json_eqb None
                    "2025-01-01T00:00:00" (Examples.plan []) [] [] [] [] []))).
Proof.
  split; [vm_compute; reflexivity|]. split.
  - refine (proj1 (proj1 (generation_returns_cleaned_reply
                            (Examples.python (Examples.always "print(1)"))
                            (Examples.agent 3) json_eqb (Examples.plan [])
                            [] [] [] [] None "2025-01-01T00:00:00" [])
                         "print(1)" _)).
    vm_compute; reflexivity.
  - assert (H : exists e,
               fst (fst (Generation.process
                           Examples.silent (Examples.agent 3) json_eqb None
                           "2025-01-01T00:00:00" (Examples.plan [])
                           [] [] [] [] [])) = Raise e)
      by (vm_compute; eexists; reflexivity).
    destruct H as [e He].
    refine (proj1 (proj2 (generation_returns_cleaned_reply
                            Examples.silent (Examples.agent 3) json_eqb
                            (Examples.plan []) [] [] [] [] None
                            "2025-01-01T00:00:00" []))
                  e He _).
    vm_compute. lia.
Defined.

Lemma generation_fails_when_recording_raises_witness :
  fst (fst (Generation.process
              (Examples.python (Examples.always "print(1)"))
              (Examples.agent 3) json_eqb None "2025-01-01T00:00:00"
              (Examples.plan []) [] [("normalized_params", JArr [])]
              [] [] [])) = Ok "print(1)"
  /\ fst (fst (Generation.process
                 (Examples.python (Examples.always "print(1)"))
                 (Examples.agent 3) json_eqb
                 (Some (recorded (Examples.python (Examples.always "print(1)")) []))
                 "2025-01-01T00:00:00"
                 (Examples.plan []) [] [("normalized_params", JArr [])]
                 [] [] []))
     = Raise (Exn RuntimeError
                  "CodegenAgent处理失败: 'list' object has no attribute 'get'").
Proof.
  split; [vm_compute; reflexivity|].
  rewrite (generation_fails_when_recording_raises
             (Examples.python (Examples.always "print(1)")) (Examples.agent 3)
             json_eqb (Examples.plan []) [] [("normalized_params", JArr [])]
             [] [] [] "2025-01-01T00:00:00" "print(1)" (JArr []) []
             [ChatCompletion false "Output JSON only."
                (Generation.user_message_of
                   (Examples.python (Examples.always "print(1)"))
                   (Examples.plan []) [] [("normalized_params", JArr [])]
                   [] [])]);
    [reflexivity|reflexivity|discriminate|vm_compute; reflexivity].
Defined.

Lemma generation_memory_afterwards_witness :
  exists m',
    snd (Generation.process
           (Examples.python (Examples.always "print(1)"))
           (Examples.agent 3) json_eqb (Some Memory.init) "2025-01-01T00:00:00"
           (Examples.plan []) [] [] [] [] []) = Some m'
    /\ length (successful_generations m') = 1%nat.
Proof.
  destruct (proj2 (generation_memory_afterwards
                     (Examples.python (Examples.always "print(1)"))
                     (Examples.agent 3) json_eqb (Examples.plan [])
                     [] [] [] [] (Some Memory.init) "2025-01-01T00:00:00" [])
                  "print(1)" Memory.init)
    as (key & m' & _ & Hm & Hs & _).
  - vm_compute; reflexivity.
  - reflexivity.
  - exists m'. split; [exact Hm|]. rewrite Hs. reflexivity.
Defined.

(** ** Validation *)

Lemma get_filter_kept {V} (p : string -> bool) (k : string) (d : dict V) :
  p k = true ->
  Dict.get k (filter (fun kv => p (fst kv)) d) = Dict.get k d.
Proof.
  intros Hk. induction d as [|[k' v] d IH]; [reflexivity|].
  cbn [filter fst]. destruct (p k') eqn:E.
  - cbn [Dict.get]. destruct (String.eqb k k'); [reflexivity|exact IH].
  - cbn [Dict.get]. destruct (String.eqb k k') eqn:K; [|exact IH].
    apply String.eqb_eq in K. subst k'. congruence.
Qed.

Lemma missing_params_compressed (schema : dict json) (normalized_params : json) :
  missing_params (_compress_schema schema) normalized_params
  = missing_params schema normalized_params.
Proof.
  induction schema as [|[param_name param_spec] schema IH]; [reflexivity|].
  unfold _compress_schema in *. cbn [map fst snd missing_params].
  rewrite IH.
  destruct (py_in param_name normalized_params) as [present|e]; [|reflexivity].
  destruct param_spec; cbn [compress_spec]; try reflexivity.
  rewrite (get_filter_kept (fun k => mem k kept_keys) "default" fields eq_refl).
  reflexivity.
Qed.

(** X17.  The parameter stage shows the service a compressed schema
    and validates the reply against the full one; the two validations
    agree on every reply, so nothing the service was not shown can be
    reported as missing. *)
Theorem validation_unchanged_by_compression
        (data : json) (required_schema : dict json) :
  _validate_param_map data (_compress_schema required_schema)
  = _validate_param_map data required_schema.
Proof.
  unfold _validate_param_map.
  destruct (first_missing_field _ data) as [[field|]|e]; try reflexivity.
  destruct (py_get data "normalized_params" (JObj [])) as [np|e];
    [|reflexivity].
  now rewrite missing_params_compressed.
Qed.

Lemma has_get {V} (k : string) (d : dict V) :
  Dict.has k d = true -> exists v, Dict.get k d = Some v.
Proof.
  unfold Dict.has. destruct (Dict.get k d) as [v|]; [now exists v|discriminate].
Qed.

(** What [_validate_task_card] accepts. *)
Lemma validate_task_card_accepts (v : json) :
  SemanticAgent._validate_task_card v = Ok true <-> well_formed_task_card v.
Proof.
  unfold SemanticAgent._validate_task_card, well_formed_task_card. split.
  - destruct v as [| b | z | s | s | items | fields];
      try (cbn; discriminate).
    + (* a text holding the five names *)
      destruct (first_missing_field _ (JStr s)) as [[f|]|e];
        cbn; discriminate.
    + destruct (first_missing_field _ (JArr items)) as [[f|]|e];
        cbn; discriminate.
    + cbn [first_missing_field py_in].
      destruct (Dict.has "domain" fields) eqn:H1; [|discriminate].
      destruct (Dict.has "problem" fields) eqn:H2; [|discriminate].
      destruct (Dict.has "algorithm" fields) eqn:H3; [|discriminate].
      destruct (Dict.has "backend" fields) eqn:H4; [|discriminate].
      destruct (Dict.has "params" fields) eqn:H5; [|discriminate].
      cbn [SemanticAgent.py_getitem].
      destruct (has_get _ _ H1) as [d Hd]. destruct (has_get _ _ H4) as [b Hb].
      rewrite Hd, Hb. fold valid_domains.
      destruct d as [| ? | ? | ? | dom | ? | ?];
        cbn [SemanticAgent.in_str_set]; try discriminate.
      destruct (mem dom valid_domains) eqn:M; [|discriminate].
      destruct b as [| ? | ? | ? | back | ? | ?]; cbn [json_eqb];
        try discriminate.
      intros [= E]. apply String.eqb_eq in E. subst back.
      exists fields, dom. repeat split; try assumption.
      repeat constructor; assumption.
  - intros (fields & dom & -> & Hall & Hd & Hm & Hb).
    cbn [first_missing_field py_in].
    repeat (match goal with
            | H : Forall _ (_ :: _) |- _ => inversion H; clear H; subst
            end).
    repeat match goal with H : Dict.has _ fields = true |- _ => rewrite H end.
    cbn [SemanticAgent.py_getitem]. rewrite Hd, Hb. fold valid_domains.
    cbn [SemanticAgent.in_str_set]. rewrite Hm. cbn [json_eqb].
    now rewrite String.eqb_refl.
Qed.

Section SemanticStage.
Variable ext : External.
Variable self : Agent.

Lemma semantic_process_validated (query : string) (tr : list event) (v : json) :
  fst (SemanticAgent.process ext self query tr) = Ok v ->
  SemanticAgent._validate_task_card v = Ok true.
Proof.
  unfold SemanticAgent.process, catch, bind, lift, ret, throw.
  destruct (_call_with_retry ext self query "SemanticAgent" tr) as [[w|e] tr'];
    [|discriminate].
  destruct (SemanticAgent._validate_task_card w) as [[|]|e] eqn:V;
    cbn [fst]; try discriminate.
  now intros [= <-].
Qed.

(** X18.  Whatever the service replies, a task card returned by the
    semantic stage is a mapping that has the keys domain, problem,
    algorithm, backend and params, whose domain is a text of the list
    of valid domains and whose backend is the text qiskit; a list or a
    text that merely mentions the five names is refused. *)
Theorem semantic_stage_returns_task_card
        (query : string) (tr : list event) (v : json) :
  fst (SemanticAgent.process ext self query tr) = Ok v ->
  well_formed_task_card v.
Proof.
  intros H. apply validate_task_card_accepts.
  now apply (semantic_process_validated query tr).
Qed.

End SemanticStage.

Lemma semantic_stage_returns_task_card_witness :
  fst (SemanticAgent.process (Examples.python (Examples.always task_card_text))
                             (Examples.agent 3) "ground state of a chain" [])
  = Ok task_card_value
  /\ well_formed_task_card task_card_value.
Proof.
  assert (H : fst (SemanticAgent.process
                     (Examples.python (Examples.always task_card_text))
                     (Examples.agent 3) "ground state of a chain" [])
              = Ok task_card_value) by (vm_compute; reflexivity).
  split; [exact H|].
  exact (semantic_stage_returns_task_card
           (Examples.python (Examples.always task_card_text))
           (Examples.agent 3) "ground state of a chain" [] task_card_value H).
Defined.

(** ** The relevance filter *)

Section FilterStructure.
Variable ext : External.
Variable task_card : TaskCard.

Lemma filter_relevant_unfold (registry_data : list ComponentCard) :
  _filter_relevant_components ext task_card registry_data
  = let filtered_components := filter (relevant ext task_card) registry_data in
    if Nat.ltb (length filtered_components) 3
    then force_include ext registry_data filtered_components
    else filtered_components.
Proof. reflexivity. Qed.

(** X19.  The filter selects, it never invents: its result is the
    relevant components of the registry, in registry order, followed
    by the components the second loop appends; each of these is an
    essential component of the registry that is not relevant, and
    there is none unless fewer than three components are relevant. *)
Theorem filter_selects_from_registry (registry_data : list ComponentCard) :
  exists added,
    _filter_relevant_components ext task_card registry_data
    = (filter (relevant ext task_card) registry_data ++ added)%list
    /\ Forall (fun c => In c registry_data /\ is_essential c = true
                        /\ relevant ext task_card c = false) added
    /\ (added = []
        \/ (length (filter (relevant ext task_card) registry_data) < 3)%nat).
Proof.
  rewrite filter_relevant_unfold. cbv zeta.
  destruct (Nat.ltb (length (filter (relevant ext task_card) registry_data)) 3)
    eqn:L.
  - destruct (force_include_appends ext registry_data
                (filter (relevant ext task_card) registry_data))
      as (added & Heq & Hall).
    exists added. split; [exact Heq|]. split.
    + eapply Forall_impl; [|exact Hall].
      intros c (Hin & He & Hc). repeat split; try assumption.
      destruct (relevant ext task_card c) eqn:R; [|reflexivity].
      rewrite card_in_member in Hc; [discriminate|].
      apply filter_In. now split.
    + right. now apply Nat.ltb_lt.
  - exists []. split; [now rewrite app_nil_r|]. split; [constructor|now left].
Qed.

(** Case analysis on the tests of the score that are still open. *)
Ltac score_cases :=
  repeat match goal with
         | |- context [if ?b then _ else _] => destruct b
         end;
  lia.

Lemma contains_empty (s : string) : contains "" s = true.
Proof. destruct s; reflexivity. Qed.

(** A working kind is worth the threshold by itself. *)
Lemma working_kind_relevant (component : ComponentCard) :
  mem (lower ext (get_or "" (c_kind component)))
      ["hamiltonian"; "ansatz"; "optimizer"; "algorithm"] = true ->
  relevant ext task_card component = true.
Proof.
  intros H. unfold relevant, relevance_score. cbv zeta. rewrite H.
  cbv iota. apply Z.leb_le.
  score_cases.
Qed.

Lemma empty_algorithm_relevant (component : ComponentCard) :
  lower ext (get_or "" (t_algorithm task_card)) = "" ->
  relevant ext task_card component = true.
Proof.
  intros H. unfold relevant, relevance_score. cbv zeta. rewrite H.
  rewrite contains_empty. cbn [orb]. cbv iota. apply Z.leb_le.
  score_cases.
Qed.

Lemma empty_keyword_relevant (component : ComponentCard) :
  In "" (split "." (lower ext (get_or "" (t_domain task_card)))) ->
  relevant ext task_card component = true.
Proof.
  intros H. unfold relevant, relevance_score. cbv zeta.
  replace (existsb _ (split "." (lower ext (get_or "" (t_domain task_card)))))
    with true.
  - cbv iota. apply Z.leb_le.
    score_cases.
  - symmetry. apply existsb_exists. exists "". split; [exact H|].
    now rewrite contains_empty.
Qed.

Lemma filter_everything {A} (p : A -> bool) (l : list A) :
  (forall x, In x l -> p x = true) -> filter p l = l.
Proof.
  induction l as [|x l IH]; intros H; [reflexivity|].
  cbn [filter]. rewrite (H x (or_introl eq_refl)). f_equal.
  apply IH. intros y Hy. apply H. now right.
Qed.

Lemma force_include_present (registry_data : list ComponentCard) :
  forall filtered,
    (forall c, In c registry_data -> card_in ext c filtered = true) ->
    force_include ext registry_data filtered = filtered.
Proof.
  induction registry_data as [|y reg IH]; intros filtered H; [reflexivity|].
  rewrite force_include_cons.
  rewrite (H y (or_introl eq_refl)). cbn [negb].
  destruct (is_essential y); apply IH; intros c Hc; apply H; now right.
Qed.

(** X20.  A task card without an algorithm switches the filter off,
    and so does a domain with an empty segment (no domain at all, a
    leading, trailing or doubled dot): the empty text occurs in every
    name, every component scores, and the registry is returned as it
    is. *)
Theorem filter_keeps_all_without_algorithm
        (registry_data : list ComponentCard) :
  lower ext (get_or "" (t_algorithm task_card)) = ""
  \/ In "" (split "." (lower ext (get_or "" (t_domain task_card)))) ->
  _filter_relevant_components ext task_card registry_data = registry_data.
Proof.
  intros H. rewrite filter_relevant_unfold. cbv zeta.
  assert (Hall : forall c, relevant ext task_card c = true).
  { intros c. destruct H as [H|H];
      [now apply empty_algorithm_relevant|now apply empty_keyword_relevant]. }
  rewrite (filter_everything (relevant ext task_card) registry_data)
    by (intros c _; apply Hall).
  destruct (Nat.ltb (length registry_data) 3); [|reflexivity].
  apply force_include_present. intros c Hc. now apply card_in_member.
Qed.

(** X21.  A Hamiltonian, an ansatz, an optimizer or an algorithm of
    the registry is never filtered out, whatever the task card says:
    its kind alone reaches the threshold. *)
Theorem filter_keeps_working_kinds
        (registry_data : list ComponentCard) (component : ComponentCard) :
  In component registry_data ->
  mem (lower ext (get_or "" (c_kind component)))
      ["hamiltonian"; "ansatz"; "optimizer"; "algorithm"] = true ->
  In component (_filter_relevant_components ext task_card registry_data).
Proof.
  intros Hin Hkind.
  assert (Hkept : In component (filter (relevant ext task_card) registry_data)).
  { apply filter_In. split; [exact Hin|now apply working_kind_relevant]. }
  rewrite filter_relevant_unfold. cbv zeta.
  destruct (Nat.ltb _ 3); [|exact Hkept].
  now apply force_include_keeps.
Qed.

End FilterStructure.

(** Instances: a task card without algorithm, and a Hamiltonian that
    matches neither the domain nor the algorithm of the task. *)
Lemma filter_keeps_all_without_algorithm_witness :
  let task_card := {| t_domain := Some "spin.tfim"; t_algorithm := None;
                      t_other := [] |} in
  let registry := [Examples.card "docs.Glossary" "text";
                   Examples.card "chem.UCCAnsatz" "ansatz"] in
  _filter_relevant_components Examples.silent task_card registry = registry.
Proof.
  intros task_card registry.
  apply (filter_keeps_all_without_algorithm Examples.silent task_card registry).
  left. reflexivity.
Defined.

Lemma filter_keeps_working_kinds_witness :
  let registry := [Examples.card "docs.Glossary" "text";
                   Examples.card "chem.MolecularH" "Hamiltonian"] in
  In (Examples.card "chem.MolecularH" "Hamiltonian")
     (_filter_relevant_components Examples.silent Examples.task registry).
Proof.
  intros registry.
  apply (filter_keeps_working_kinds Examples.silent Examples.task registry).
  - right. left. reflexivity.
  - vm_compute. reflexivity.
Defined.

(** ** Fenced replies *)

Lemma startswith_head_differs (c d : ascii) (s p : string) :
  Ascii.eqb c d = false -> startswith (String d s) (String c p) = false.
Proof.
  intros H.
  change (startswith (String d s) (String c p))
    with (Ascii.eqb c d && startswith s p).
  now rewrite H.
Qed.

Lemma append_empty (s : string) : s ++ "" = s.
Proof. induction s as [|c s IH]; [reflexivity|]. simpl. now rewrite IH. Qed.

(** Replacing passes over a stretch that does not hold the first
    character of what is replaced. *)
Lemma replace_from_passes (c : ascii) (old' new body tail : string) :
  count c body = 0%Z ->
  replace_from 0 (String c old') new (body ++ tail)
  = body ++ replace_from 0 (String c old') new tail.
Proof.
  induction body as [|d body IH]; intros H; [reflexivity|].
  cbn [count] in H. pose proof (count_nonneg c body) as Hpos.
  destruct (Ascii.eqb d c) eqn:E; [lia|].
  cbn [String.append replace_from].
  rewrite startswith_head_differs by (now rewrite Ascii.eqb_sym).
  f_equal. apply IH. lia.
Qed.

Lemma lstrip_with_nothing (ws : list string) (fuel : nat) (s : string) :
  leading ws s = None -> lstrip_with ws fuel s = s.
Proof. intros H. destruct fuel; [reflexivity|]. simpl. now rewrite H. Qed.

(** A text that begins and ends with a backtick has nothing to strip. *)
Lemma strip_between_backticks (s x y : string) :
  s = String "`" x -> PyStr.rev s = String "`" y -> strip s = s.
Proof.
  intros Hs Hr. unfold strip, lstrip, rstrip.
  rewrite (lstrip_with_nothing whitespace _ s)
    by (rewrite Hs; vm_compute; reflexivity).
  rewrite (lstrip_with_nothing (map PyStr.rev whitespace) _ (PyStr.rev s))
    by (rewrite Hr; vm_compute; reflexivity).
  apply rev_rev.
Qed.

Lemma strip_fenced (language body : string) :
  strip (fenced language body) = fenced language body.
Proof.
  apply (strip_between_backticks _
           ("``" ++ language ++ body ++ "```")
           ("``" ++ PyStr.rev body ++ PyStr.rev language ++ "```")).
  - reflexivity.
  - unfold fenced. rewrite !rev_append, !append_assoc. reflexivity.
Qed.

Lemma replace_fence_end (body : string) :
  backtick_free body -> replace (body ++ "```") "```" "" = body.
Proof.
  intros H. unfold replace.
  rewrite (replace_from_passes "`" "``" "" body "```" H).
  change (replace_from 0 "```" "" "```") with "". apply append_empty.
Qed.

Lemma clean_markdown_fenced (body : string) :
  backtick_free body -> clean_markdown (fenced "json" body) = strip body.
Proof.
  intros H. unfold clean_markdown.
  change (startswith (fenced "json" body) "```json") with true. cbv iota.
  change (replace (fenced "json" body) "```json" "")
    with (replace_from 0 "```json" "" (body ++ "```")).
  rewrite (replace_from_passes "`" "``json" "" body "```" H).
  change (replace_from 0 "```json" "" "```") with "```".
  now rewrite replace_fence_end.
Qed.

Lemma clean_python_fenced (body : string) :
  backtick_free body ->
  Generation.clean_python (fenced "python" body) = strip body.
Proof.
  intros H. unfold Generation.clean_python. rewrite strip_fenced.
  change (startswith (fenced "python" body) "```python") with true. cbv iota.
  change (replace (fenced "python" body) "```python" "")
    with (replace_from 0 "```python" "" (body ++ "```")).
  rewrite (replace_from_passes "`" "``python" "" body "```" H).
  change (replace_from 0 "```python" "" "```") with "```".
  now rewrite replace_fence_end.
Qed.

(** X22.  A reply inside a code fence is read from between the
    fences.  When the body holds no backtick, the JSON cleaner and the
    cleaner of the generator both reduce the fenced reply to its body,
    stripped; and the parser returns whatever the decoder makes of
    that stripped body. *)
Theorem fenced_reply_is_read_from_its_body
        (ext : External) (agent_name body : string) (v : json) :
  backtick_free body ->
  json_loads ext (strip body) = Ok v ->
  clean_markdown (fenced "json" body) = strip body
  /\ Generation.clean_python (fenced "python" body) = strip body
  /\ _parse_json_with_retry ext (fenced "json" body) agent_name = Ok v.
Proof.
  intros H Hv. split; [now apply clean_markdown_fenced|].
  split; [now apply clean_python_fenced|].
  rewrite parse_unfold, strip_fenced.
  change (String.eqb (fenced "json" body) "") with false. cbn [orb]. cbv iota.
  rewrite (clean_markdown_fenced body H), Hv. reflexivity.
Qed.

Lemma fenced_reply_is_read_from_its_body_witness :
  let body := nl ++ Examples.object_text ++ nl in
  backtick_free body
  /\ _parse_json_with_retry (Examples.python (Examples.always ""))
                            (fenced "json" body) "PipelineAgent"
     = Ok Examples.object_value.
Proof.
  intros body. split; [reflexivity|].
  refine (proj2 (proj2 (fenced_reply_is_read_from_its_body
                          (Examples.python (Examples.always ""))
                          "PipelineAgent" body Examples.object_value _ _))).
  - reflexivity.
  - vm_compute. reflexivity.
Defined.

(** ** What an outcome tells *)

Section ParserSoundness.
Variable ext : External.

(** X23.  The parser returns nothing of its own making, and fails in
    one way only.  A record it returns is what the decoder makes of a
    block of consecutive lines of the reply (its fence removed), the
    whole reply being one of these blocks, and the reply is not blank;
    an error it raises is a [ValueError] whose message starts with the
    name of the agent. *)
Theorem parse_returns_decoded_block (response agent_name : string) :
  (forall v, _parse_json_with_retry ext response agent_name = Ok v ->
             strip response <> ""
             /\ exists block,
                 In block (blocks (split newline (clean_markdown response)))
                 /\ json_loads ext (join nl block) = Ok v)
  /\ (forall e, _parse_json_with_retry ext response agent_name = Raise e ->
                exn_cls e = ValueError
                /\ exists msg, exn_str e = agent_name ++ msg).
Proof.
  rewrite parse_unfold.
  set (P := fun v : json =>
              strip response <> ""
              /\ exists block,
                  In block (blocks (split newline (clean_markdown response)))
                  /\ json_loads ext (join nl block) = Ok v).
  assert (Hfail : forall body : result json,
             is_ok body = false ->
             (forall v,
                 try_except_else body JSONDecodeError
                   (fun e => Raise (Exn ValueError
                                        (agent_name ++ " returned invalid JSON: "
                                         ++ exn_str e)))
                   (fun e => Raise (Exn ValueError
                                        (agent_name ++ " response parsing failed: "
                                         ++ exn_str e)))
                 = Ok v -> P v)
             /\ (forall e,
                    try_except_else body JSONDecodeError
                      (fun e => Raise (Exn ValueError
                                           (agent_name ++ " returned invalid JSON: "
                                            ++ exn_str e)))
                      (fun e => Raise (Exn ValueError
                                           (agent_name
                                            ++ " response parsing failed: "
                                            ++ exn_str e)))
                    = Raise e ->
                    exn_cls e = ValueError
                    /\ exists msg, exn_str e = agent_name ++ msg)).
  { intros [w|e0] Hb; [discriminate|]. unfold try_except_else.
    destruct (exn_class_eqb (exn_cls e0) JSONDecodeError);
      (split; [discriminate|]);
      intros e [= <-]; (split; [reflexivity|eexists; reflexivity]). }
  destruct (String.eqb response "" || String.eqb (strip response) "")%bool eqn:B.
  - apply Hfail. reflexivity.
  - apply orb_false_iff in B as [_ B]. apply String.eqb_neq in B.
    set (text := clean_markdown response) in *.
    destruct (json_loads ext text) as [w|e0] eqn:L.
    + cbn [try_except try_except_else]. split; [|discriminate].
      intros v [= <-]. split; [exact B|].
      exists (split newline text). split.
      * apply prefixes_in_blocks, prefixes_self, split_not_nil.
      * now rewrite join_split.
    + cbn [try_except].
      destruct (exn_class_eqb (exn_cls e0) JSONDecodeError);
        [|apply Hfail; reflexivity].
      cbv zeta.
      destruct (scan_lines_block (split newline text) 0) as [Hnil|Hin].
      * rewrite Hnil. apply Hfail. reflexivity.
      * destruct (scan_lines (split newline text) [] 0 false)
          as [|line more] eqn:S; [apply Hfail; reflexivity|].
        destruct (json_loads ext (join nl (line :: more))) as [w|e1] eqn:L2.
        -- cbn [try_except_else]. split; [|discriminate].
           intros v [= <-]. split; [exact B|].
           exists (line :: more). now split.
        -- apply Hfail. reflexivity.
Qed.

End ParserSoundness.

Lemma parse_returns_decoded_block_witness :
  _parse_json_with_retry (Examples.python (Examples.always ""))
                         (join nl Examples.framed_lines) "PipelineAgent"
  = Ok Examples.object_value
  /\ strip (join nl Examples.framed_lines) <> "".
Proof.
  assert (H : _parse_json_with_retry (Examples.python (Examples.always ""))
                (join nl Examples.framed_lines) "PipelineAgent"
              = Ok Examples.object_value) by (vm_compute; reflexivity).
  split; [exact H|].
  exact (proj1 (proj1 (parse_returns_decoded_block
                         (Examples.python (Examples.always ""))
                         (join nl Examples.framed_lines) "PipelineAgent")
                      Examples.object_value H)).
Defined.

(** The first index at which a test holds, if there is one up to [n]. *)
Lemma first_or_none (f : nat -> bool) (n : nat) :
  (forall k, (k <= n)%nat -> f k = false)
  \/ exists N, (N <= n)%nat /\ (forall k, (k < N)%nat -> f k = false)
               /\ f N = true.
Proof.
  induction n as [|n IH].
  - destruct (f 0%nat) eqn:E.
    + right. exists 0%nat. repeat split; [lia|lia|exact E].
    + left. intros k Hk. now replace k with 0%nat by lia.
  - destruct IH as [Hnone|(N & HN & Hbefore & Hat)].
    + destruct (f (S n)) eqn:E.
      * right. exists (S n). repeat split; [lia| |exact E].
        intros k Hk. apply Hnone. lia.
      * left. intros k Hk.
        destruct (Nat.eq_dec k (S n)) as [->|Hne]; [exact E|].
        apply Hnone. lia.
    + right. exists N. repeat split; [lia|exact Hbefore|exact Hat].
Qed.

Section RetryOutcome.
Variable ext : External.
Variable self : Agent.
Variables user_message agent_name : string.

(** X24.  With [max_retries >= 1] the outcome of [_call_with_retry]
    tells how many requests were made.  It raises only after
    [max_retries] requests, each of which failed or gave an unparsable
    reply; it returns a record only as the parse of the reply to its
    last request, all earlier attempts having failed. *)
Theorem call_with_retry_outcome_tells_attempts (tr : list event) :
  (1 <= max_retries self)%Z ->
  let limit := Z.to_nat (max_retries self) in
  let outcome := attempt_outcome ext self user_message agent_name in
  let run := _call_with_retry ext self user_message agent_name tr in
  (forall e, fst run = Raise e ->
             (forall k, (k < limit)%nat ->
                        is_ok (outcome (calls tr + k)%nat) = false)
             /\ snd run = (tr ++ attempts_trace self user_message limit)%list)
  /\ (forall v, fst run = Ok v ->
                exists N, (1 <= N <= limit)%nat
                          /\ (forall k, (k < N - 1)%nat ->
                                        is_ok (outcome (calls tr + k)%nat) = false)
                          /\ outcome (calls tr + (N - 1))%nat = Ok v
                          /\ snd run
                             = (tr ++ attempts_trace self user_message N)%list).
Proof.
  intros Hmax limit outcome run.
  destruct (range_positive self Hmax) as (n & Hn & Hr).
  assert (Hlimit : limit = S n) by (unfold limit; lia).
  assert (Hrun : run = retry_loop ext self user_message agent_name
                                  (map Z.of_nat (seq 0 (S n))) tr).
  { unfold run, _call_with_retry. now rewrite Hr. }
  destruct (first_or_none (fun k => is_ok (outcome (calls tr + k)%nat)) n)
    as [Hnone|(N & HN & Hbefore & Hat)].
  - destruct (retry_loop_exhausted ext self user_message agent_name n 0 tr
                Hn Hnone) as (last & _ & Heq).
    rewrite Hrun, Heq, Hlimit. cbn [fst snd]. split; [|discriminate].
    intros e _. split; [|reflexivity].
    intros k Hk. apply Hnone. lia.
  - destruct (outcome (calls tr + N)%nat) as [w|e0] eqn:Ew; [|discriminate].
    rewrite Hrun,
      (retry_loop_first_success ext self user_message agent_name n 0 tr N w
         Hn HN Hbefore Ew).
    cbn [fst snd]. split; [discriminate|].
    intros v [= <-]. exists (S N).
    replace (S N - 1)%nat with N by lia.
    repeat split; try assumption; lia.
Qed.

End RetryOutcome.

(** An unreachable service, two attempts allowed: the error comes
    after two requests. *)
Lemma call_with_retry_outcome_tells_attempts_witness :
  (1 <= max_retries (Examples.agent 2))%Z
  /\ calls (snd (_call_with_retry Examples.silent (Examples.agent 2)
                                  "hello" "SemanticAgent" [])) = 2%nat.
Proof.
  split; [vm_compute; discriminate|].
  rewrite (proj2 (proj1 (call_with_retry_outcome_tells_attempts
                           Examples.silent (Examples.agent 2)
                           "hello" "SemanticAgent" []
                           ltac:(vm_compute; discriminate))
                        (Exn RuntimeError _) eq_refl)).
  reflexivity.
Defined.

(** ** The optimizer registry *)

Lemma get_absent {V} (k : string) (d : dict V) :
  ~ In k (Dict.keys d) -> Dict.get k d = None.
Proof.
  induction d as [|[k' v] d IH]; intros H; [reflexivity|].
  cbn [Dict.get]. destruct (String.eqb k k') eqn:E.
  - apply String.eqb_eq in E. subst k'. destruct H. now left.
  - apply IH. intros Hin. apply H. now right.
Qed.

Lemma set_fresh {V} (k : string) (v : V) (d : dict V) :
  ~ In k (Dict.keys d) -> Dict.set k v d = (d ++ [(k, v)])%list.
Proof.
  induction d as [|[k' v'] d IH]; intros H; [reflexivity|].
  cbn [Dict.set]. destruct (String.eqb k k') eqn:E.
  - apply String.eqb_eq in E. subst k'. destruct H. now left.
  - cbn [app]. f_equal. apply IH. intros Hin. apply H. now right.
Qed.

Lemma set_keys {V} (k : string) (v : V) (d : dict V) :
  Dict.keys (Dict.set k v d)
  = if mem k (Dict.keys d) then Dict.keys d else (Dict.keys d ++ [k])%list.
Proof.
  induction d as [|[k' v'] d IH]; [reflexivity|].
  cbn [Dict.set]. unfold Dict.keys, mem in *. cbn [map fst existsb].
  destruct (String.eqb k k') eqn:E.
  - apply String.eqb_eq in E. subst k'. reflexivity.
  - cbn [map fst orb]. rewrite IH.
    destruct (existsb (String.eqb k) (map fst d)); reflexivity.
Qed.

Lemma set_distinct {V} (k : string) (v : V) (d : dict V) :
  distinct_keys d -> distinct_keys (Dict.set k v d).
Proof.
  unfold distinct_keys. intros H. rewrite set_keys.
  destruct (mem k (Dict.keys d)) eqn:M; [exact H|].
  apply NoDup_app; [exact H|repeat constructor; intros []|].
  intros x Hx Hk. destruct Hk as [Hk|[]]. subst x.
  assert (mem k (Dict.keys d) = true); [|congruence].
  apply existsb_exists. exists k. split; [exact Hx|apply String.eqb_refl].
Qed.

Lemma get_member {V} (k : string) (v : V) (d : dict V) :
  distinct_keys d -> In (k, v) d -> Dict.get k d = Some v.
Proof.
  unfold distinct_keys, Dict.keys.
  induction d as [|[k' v'] d IH]; intros Hd Hin; [contradiction|].
  cbn [map fst] in Hd. apply NoDup_cons_iff in Hd as [Hk Hd].
  cbn [Dict.get]. destruct Hin as [[= -> ->]|Hin].
  - now rewrite String.eqb_refl.
  - destruct (String.eqb k k') eqn:E; [|now apply IH].
    apply String.eqb_eq in E. subst k'.
    destruct Hk. change k with (fst (k, v)). now apply in_map.
Qed.

(** Storing under distinct new keys appends, in order. *)
Lemma fold_set_distinct {A V} (f : A -> V) (l : dict A) :
  forall acc : dict V,
    NoDup (Dict.keys acc ++ Dict.keys l) ->
    fold_left (fun d kv => Dict.set (fst kv) (f (snd kv)) d) l acc
    = (acc ++ map (fun kv => (fst kv, f (snd kv))) l)%list.
Proof.
  induction l as [|[k a] l IH]; intros acc H; [now rewrite app_nil_r|].
  cbn [fold_left fst snd map].
  assert (Hk : ~ In k (Dict.keys acc)).
  { intros Hin. apply NoDup_remove_2 in H. apply H.
    apply in_or_app. now left. }
  rewrite (set_fresh k (f a) acc Hk), IH.
  - now rewrite <- app_assoc.
  - unfold Dict.keys in *. rewrite map_app. cbn [map fst].
    rewrite <- app_assoc. exact H.
Qed.

Lemma build_params_schema_entries (params_config : dict OptimizerRegistry.ParamInfo) :
  distinct_keys params_config ->
  OptimizerRegistry._build_params_schema params_config
  = map (fun kv => (fst kv, OptimizerRegistry.schema_entry (snd kv)))
        params_config.
Proof.
  intros H. unfold OptimizerRegistry._build_params_schema.
  now rewrite (fold_set_distinct OptimizerRegistry.schema_entry params_config []).
Qed.

Lemma schema_entry_default (param_info : OptimizerRegistry.ParamInfo) :
  match OptimizerRegistry.schema_entry param_info with
  | JObj d =>
      match Dict.get "default" d with
      | Some JNull | None => false
      | Some _ => true
      end
  | _ => false
  end = negb (without_default param_info).
Proof.
  unfold OptimizerRegistry.schema_entry, without_default.
  destruct (OptimizerRegistry.p_default param_info); reflexivity.
Qed.

Section GeneratedCards.
Variable ext : External.

(** X25.  The cards generated from the optimizer registry fit the rest
    of the pipeline.  Whatever the registry holds, the list of
    generated cards passes the validation of the discovery stage and
    every card is of kind optimizer; and the dependency analysis of
    the generator, which goes by the name, takes the card of a
    registered optimizer for an optimizer, unless the registered name
    holds the word Hamiltonian, in which case it takes it for a
    Hamiltonian. *)
Theorem generated_optimizer_cards_fit_pipeline
        (registry : dict OptimizerRegistry.OptimizerConfig) :
  _validate_component_cards
    (JArr (OptimizerRegistry.generate_optimizer_components ext registry)) = true
  /\ Forall (fun card => py_get card "kind" JNull = Ok (JStr "optimizer"))
            (OptimizerRegistry.generate_optimizer_components ext registry)
  /\ map (fun card => py_get card "name" JNull)
         (OptimizerRegistry.generate_optimizer_components ext registry)
     = map (fun name => Ok (JStr ("Optimizer." ++ name)))
           (OptimizerRegistry.get_available_optimizers registry)
  /\ forall name,
      CodegenAgent.classify ("Optimizer." ++ name)
      = Some (if contains "Hamiltonian" name then "hamiltonian"
              else "optimizer").
Proof.
  split; [|split; [|split]].
  - unfold _validate_component_cards,
      OptimizerRegistry.generate_optimizer_components.
    rewrite forallb_forall. intros card Hin.
    apply in_map_iff in Hin as ([name config] & <- & _). reflexivity.
  - unfold OptimizerRegistry.generate_optimizer_components.
    apply Forall_forall. intros card Hin.
    apply in_map_iff in Hin as ([name config] & <- & _). reflexivity.
  - unfold OptimizerRegistry.generate_optimizer_components,
      OptimizerRegistry.get_available_optimizers, Dict.keys.
    rewrite !map_map. apply map_ext. now intros [name config].
  - intros name. unfold CodegenAgent.classify.
    change (contains "Hamiltonian" ("Optimizer." ++ name))
      with (contains "Hamiltonian" name).
    change (contains "Optimizer" ("Optimizer." ++ name)) with true.
    destruct (contains "Hamiltonian" name); reflexivity.
Qed.

End GeneratedCards.

Lemma missing_params_of_entries (np : dict json)
      (params_config : dict OptimizerRegistry.ParamInfo) :
  missing_params
    (map (fun kv => (fst kv, OptimizerRegistry.schema_entry (snd kv)))
         params_config)
    (JObj np)
  = Ok (map fst
            (filter (fun kv => negb (Dict.has (fst kv) np)
                               && without_default (snd kv))
                    params_config)).
Proof.
  induction params_config as [|[name info] rest IH]; [reflexivity|].
  cbn [map fst snd missing_params py_in filter]. rewrite IH.
  rewrite (schema_entry_default info).
  rewrite Bool.negb_involutive.
  destruct (negb (Dict.has name np) && without_default info); reflexivity.
Qed.

(** X26.  A parameter that the registry gives no default becomes a
    required one.  Against the schema generated from the parameters of
    an optimizer, the validation of the parameter stage reports as
    missing exactly the parameters whose default is [None] and that
    the parameter map does not set, in the order of the registry: the
    optimizer itself would do without them. *)
Theorem optimizer_schema_requires_params_without_default
        (params_config : dict OptimizerRegistry.ParamInfo) (np : dict json) :
  distinct_keys params_config ->
  missing_params (OptimizerRegistry._build_params_schema params_config)
                 (JObj np)
  = Ok (map fst
            (filter (fun kv => negb (Dict.has (fst kv) np)
                               && without_default (snd kv))
                    params_config)).
Proof.
  intros H. rewrite (build_params_schema_entries params_config H).
  apply missing_params_of_entries.
Qed.

(** The stochastic optimizer of the registry: its two rates have no
    default. *)
Lemma optimizer_schema_requires_params_without_default_witness :
  exists config,
    OptimizerRegistry.get_optimizer_info OptimizerRegistry.OPTIMIZER_REGISTRY
                                         "SPSA" = Some config
    /\ distinct_keys (OptimizerRegistry.params config)
    /\ missing_params
         (OptimizerRegistry._build_params_schema
            (OptimizerRegistry.params config))
         (JObj [("maxiter", JInt 50)])
       = Ok ["learning_rate"; "perturbation"].
Proof.
  eexists. split; [reflexivity|].
  assert (H : distinct_keys
                [("maxiter",
                  OptimizerRegistry.param "int" (JInt 1000) "Maximum iterations");
                 ("learning_rate",
                  OptimizerRegistry.param "float" JNull "Learning rate");
                 ("perturbation",
                  OptimizerRegistry.param "float" JNull "Perturbation factor");
                 ("resamplings",
                  OptimizerRegistry.param "int" (JInt 1)
                                          "Number of resamplings")]).
  { unfold distinct_keys. cbn.
    repeat (constructor; [cbn; intuition discriminate|]). constructor. }
  split; [exact H|].
  exact (optimizer_schema_requires_params_without_default _
           [("maxiter", JInt 50)] H).
Defined.

(** The loop that builds [final_params], one parameter at a time. *)
Lemma final_params_fold (kwargs : dict json)
      (l : dict OptimizerRegistry.ParamInfo) (p : string) :
  forall acc : dict json,
    distinct_keys l ->
    Dict.get p
      (fold_left
         (fun final_params kv =>
            match Dict.get (fst kv) kwargs with
            | Some value => Dict.set (fst kv) value final_params
            | None =>
                if OptimizerRegistry.is_not_none
                     (OptimizerRegistry.p_default (snd kv))
                then Dict.set (fst kv) (OptimizerRegistry.p_default (snd kv))
                              final_params
                else final_params
            end) l acc)
    = match Dict.get p l with
      | Some info =>
          match Dict.get p kwargs with
          | Some value => Some value
          | None =>
              if without_default info then Dict.get p acc
              else Some (OptimizerRegistry.p_default info)
          end
      | None => Dict.get p acc
      end.
Proof.
  induction l as [|[k info] l IH]; intros acc H; [reflexivity|].
  unfold distinct_keys, Dict.keys in H. cbn [map fst] in H.
  apply NoDup_cons_iff in H as [Hk Hl].
  cbn [fold_left fst snd]. rewrite (IH _ Hl). cbn [Dict.get].
  destruct (String.eqb p k) eqn:E.
  - apply String.eqb_eq in E. subst k.
    rewrite (get_absent p l Hk). unfold without_default.
    destruct (Dict.get p kwargs) as [value|]; [apply get_set_same|].
    destruct (OptimizerRegistry.is_not_none (OptimizerRegistry.p_default info));
      [apply get_set_same|reflexivity].
  - apply String.eqb_neq in E.
    assert (Hacc : Dict.get p
                     match Dict.get k kwargs with
                     | Some value => Dict.set k value acc
                     | None =>
                         if OptimizerRegistry.is_not_none
                              (OptimizerRegistry.p_default info)
                         then Dict.set k (OptimizerRegistry.p_default info) acc
                         else acc
                     end = Dict.get p acc).
    { destruct (Dict.get k kwargs) as [value|];
        [now apply get_set_other|].
      destruct (OptimizerRegistry.is_not_none
                  (OptimizerRegistry.p_default info));
        [now apply get_set_other|reflexivity]. }
    rewrite Hacc. reflexivity.
Qed.

(** X27.  The factory passes the optimizer class the registered
    parameters only.  For a registered optimizer whose parameters have
    distinct names, a parameter reaches the class exactly when it is
    registered and either given by the caller or registered with a
    default other than [None]; the caller's value wins over the
    default; an argument that is not a registered parameter is dropped
    without notice. *)
Theorem factory_passes_registered_params_only
        (registry : dict OptimizerRegistry.OptimizerConfig)
        (optimizer_name : string) (kwargs : dict json)
        (config : OptimizerRegistry.OptimizerConfig) :
  OptimizerRegistry.get_optimizer_info registry optimizer_name = Some config ->
  distinct_keys (OptimizerRegistry.params config) ->
  exists arguments,
    OptimizerRegistry.factory_call registry optimizer_name kwargs
    = Ok (OptimizerRegistry.module_path config,
          OptimizerRegistry.class_name config, arguments)
    /\ forall p,
        Dict.get p arguments
        = match Dict.get p (OptimizerRegistry.params config) with
          | Some info =>
              match Dict.get p kwargs with
              | Some value => Some value
              | None =>
                  if without_default info then None
                  else Some (OptimizerRegistry.p_default info)
              end
          | None => None
          end.
Proof.
  intros Hc Hd. exists (OptimizerRegistry.final_params config kwargs).
  unfold OptimizerRegistry.factory_call.
  unfold OptimizerRegistry.get_optimizer_info in Hc. rewrite Hc.
  split; [reflexivity|].
  intros p. unfold OptimizerRegistry.final_params.
  exact (final_params_fold kwargs (OptimizerRegistry.params config) p [] Hd).
Qed.

(** The first optimizer of the registry, called with an iteration
    budget and an argument it does not know. *)
Lemma factory_passes_registered_params_only_witness :
  exists arguments,
    OptimizerRegistry.factory_call
      OptimizerRegistry.OPTIMIZER_REGISTRY "COBYLA"
      [("maxiter", JInt 500); ("verbose", JBool true)]
    = Ok ("qiskit_algorithms.optimizers", "COBYLA", arguments)
    /\ Dict.get "maxiter" arguments = Some (JInt 500)
    /\ Dict.get "rhobeg" arguments = Some (JFloat "1.0")
    /\ Dict.get "verbose" arguments = None.
Proof.
  destruct (factory_passes_registered_params_only
              OptimizerRegistry.OPTIMIZER_REGISTRY "COBYLA"
              [("maxiter", JInt 500); ("verbose", JBool true)] _ eq_refl)
    as (arguments & Hcall & Hget).
  - unfold distinct_keys. cbn.
    repeat (constructor; [cbn; intuition discriminate|]). constructor.
  - exists arguments. split; [exact Hcall|].
    rewrite !Hget. repeat split.
Defined.

Section Registering.
Variable ext : External.

(** X29.  What is registered is served.  After
    [register_optimizer(name, config)] the registry answers [name]
    with [config] and every other name as before; [name] keeps its
    place in the list of optimizers if it was there and comes last if
    it was not; a card is generated for it; the factory calls the
    class of [config]; and a lookup by one of its tags finds it. *)
Theorem registered_optimizer_is_served
        (registry : dict OptimizerRegistry.OptimizerConfig)
        (name : string) (config : OptimizerRegistry.OptimizerConfig)
        (kwargs : dict json) :
  let after := OptimizerRegistry.register_optimizer name config registry in
  OptimizerRegistry.get_optimizer_info after name = Some config
  /\ (forall other, other <> name ->
                    OptimizerRegistry.get_optimizer_info after other
                    = OptimizerRegistry.get_optimizer_info registry other)
  /\ OptimizerRegistry.get_available_optimizers after
     = (if mem name (OptimizerRegistry.get_available_optimizers registry)
        then OptimizerRegistry.get_available_optimizers registry
        else (OptimizerRegistry.get_available_optimizers registry
                ++ [name])%list)
  /\ In (OptimizerRegistry.component_of ext name config)
        (OptimizerRegistry.generate_optimizer_components ext after)
  /\ OptimizerRegistry.factory_call after name kwargs
     = Ok (OptimizerRegistry.module_path config,
           OptimizerRegistry.class_name config,
           OptimizerRegistry.final_params config kwargs)
  /\ (forall tag, In tag (OptimizerRegistry.tags config) ->
                  In name (OptimizerRegistry.get_optimizers_by_tag after tag)).
Proof.
  cbv zeta. unfold OptimizerRegistry.register_optimizer,
              OptimizerRegistry.get_optimizer_info.
  assert (Hin : In (name, config) (Dict.set name config registry))
    by (apply get_In, get_set_same).
  split; [apply get_set_same|].
  split; [intros other H; now apply get_set_other|].
  split; [apply set_keys|].
  split.
  { unfold OptimizerRegistry.generate_optimizer_components.
    change (OptimizerRegistry.component_of ext name config)
      with ((fun entry => OptimizerRegistry.component_of ext (fst entry)
                                                         (snd entry))
              (name, config)).
    now apply in_map. }
  split.
  { unfold OptimizerRegistry.factory_call. now rewrite get_set_same. }
  intros tag Htag. unfold OptimizerRegistry.get_optimizers_by_tag.
  change name with (fst (name, config)). apply in_map.
  apply filter_In. split; [exact Hin|]. cbn [snd].
  apply existsb_exists. exists tag. split; [exact Htag|apply String.eqb_refl].
Qed.

End Registering.

(** Registering a seventh optimizer. *)
Lemma registered_optimizer_is_served_witness :
  let config :=
    {| OptimizerRegistry.module_path := "qiskit_algorithms.optimizers";
       OptimizerRegistry.class_name := "ADAM";
       OptimizerRegistry.tags := ["gradient_based"];
       OptimizerRegistry.description := "Adam";
       OptimizerRegistry.params :=
         [("maxiter", OptimizerRegistry.param "int" (JInt 10000)
                                              "Maximum iterations")];
       OptimizerRegistry.supports_bounds := false;
       OptimizerRegistry.supports_constraints := false |} in
  In "gradient_based" (OptimizerRegistry.tags config)
  /\ In "ADAM"
        (OptimizerRegistry.get_optimizers_by_tag
           (OptimizerRegistry.register_optimizer
              "ADAM" config OptimizerRegistry.OPTIMIZER_REGISTRY)
           "gradient_based").
Proof.
  intros config.
  assert (H : In "gradient_based" (OptimizerRegistry.tags config))
    by (left; reflexivity).
  split; [exact H|].
  exact (proj2 (proj2 (proj2 (proj2 (proj2
           (registered_optimizer_is_served
              Examples.silent OptimizerRegistry.OPTIMIZER_REGISTRY
              "ADAM" config [])))))
           "gradient_based" H).
Defined.

(** ** Which components get a binding *)

Lemma classify_components_distinct (components : list ComponentCard) :
  distinct_keys (CodegenAgent.classify_components components).
Proof.
  unfold CodegenAgent.classify_components.
  assert (H : forall d : dict string,
             distinct_keys d ->
             distinct_keys
               (fold_left
                  (fun component_types component =>
                     let name := get_or "" (c_name component) in
                     match CodegenAgent.classify name with
                     | Some type_ => Dict.set name type_ component_types
                     | None => component_types
                     end) components d)).
  { induction components as [|c components IH]; intros d Hd; [exact Hd|].
    cbn [fold_left]. apply IH. cbv zeta.
    destruct (CodegenAgent.classify (get_or "" (c_name c)));
      [now apply set_distinct|exact Hd]. }
  apply H. constructor.
Qed.

Section BindingKeys.
Variable ext : External.

Lemma binding_of_cases (components : list ComponentCard)
      (plan : PipelinePlan) (A : string) :
  CodegenAgent.binding_of ext components plan A
  = if mem A (map fst
                  (filter (fun nt => String.eqb (snd nt) "algorithm")
                          (CodegenAgent.classify_components components)))
    then Some (CodegenAgent.algo_deps_of ext
                 (CodegenAgent.classify_components components)
                 (get_or [] (execution_order plan)) A)
    else None.
Proof.
  unfold CodegenAgent.binding_of, CodegenAgent._analyze_component_dependencies.
  cbn [algorithm_dependencies].
  rewrite (get_fold_set
             (fun algo_name =>
                {| ad_type := "algorithm";
                   requires :=
                     CodegenAgent.algo_deps_of ext
                       (CodegenAgent.classify_components components)
                       (get_or [] (execution_order plan)) algo_name;
                   usage_pattern :=
                     CodegenAgent.usage_pattern_of algo_name
                       (CodegenAgent.algo_deps_of ext
                          (CodegenAgent.classify_components components)
                          (get_or [] (execution_order plan)) algo_name) |})).
  destruct (mem A _); reflexivity.
Qed.

Lemma algorithm_names (components : list ComponentCard) (A : string) :
  mem A (map fst
             (filter (fun nt => String.eqb (snd nt) "algorithm")
                     (CodegenAgent.classify_components components))) = true
  <-> role_in components A = Some "algorithm".
Proof.
  rewrite <- component_types_get. split.
  - intros H. apply existsb_exists in H as (n & Hin & E).
    apply String.eqb_eq in E. subst n.
    apply in_map_iff in Hin as ([n r] & Hn & Hin). cbn [fst] in Hn. subst n.
    apply filter_In in Hin as [Hin Hr]. cbn [snd] in Hr.
    apply String.eqb_eq in Hr. subst r.
    apply get_member; [apply classify_components_distinct|exact Hin].
  - intros H. apply existsb_exists. exists A.
    split; [|apply String.eqb_refl].
    change A with (fst (A, "algorithm")). apply in_map.
    apply filter_In. split; [now apply get_In|reflexivity].
Qed.

(** X28.  Bindings go by name.  A component gets a binding exactly
    when its name is carried by a card and holds the word Algorithm
    and none of the words tried before it (Hamiltonian, Optimizer,
    Circuit, Ansatz, Backend, Estimator): the kind of the card plays
    no part.  A binding never lists its own algorithm, and it lists
    names of the execution order only. *)
Theorem bindings_go_by_name
        (components : list ComponentCard) (plan : PipelinePlan) (A : string) :
  (CodegenAgent.binding_of ext components plan A <> None
   <-> role_in components A = Some "algorithm")
  /\ (forall deps,
         CodegenAgent.binding_of ext components plan A = Some deps ->
         ~ In A (map dep_name deps)
         /\ incl (map dep_name deps) (get_or [] (execution_order plan))).
Proof.
  rewrite binding_of_cases. split.
  - rewrite <- algorithm_names.
    destruct (mem A _); split; intros H; try discriminate; try reflexivity.
    now destruct H.
  - intros deps H.
    destruct (mem A _); [|discriminate]. injection H as <-.
    rewrite algo_deps_names. split.
    + intros Hin. apply filter_In in Hin as [_ Hin].
      now rewrite String.eqb_refl in Hin.
    + intros n Hin. now apply filter_In in Hin.
Qed.

End BindingKeys.

(** A card of kind algorithm whose name holds the word Optimizer gets
    no binding. *)
Lemma bindings_go_by_name_witness :
  let components := [Examples.card "algo.OptimizerFreeAlgorithm" "algorithm";
                     Examples.card "algo.VQEAlgorithm" "algorithm"] in
  let plan := Examples.plan ["algo.OptimizerFreeAlgorithm"; "algo.VQEAlgorithm"] in
  CodegenAgent.binding_of Examples.silent components plan
                          "algo.OptimizerFreeAlgorithm" = None
  /\ role_in components "algo.VQEAlgorithm" = Some "algorithm".
Proof.
  intros components plan. split; [vm_compute; reflexivity|].
  apply (proj1 (bindings_go_by_name Examples.silent components plan
                                    "algo.VQEAlgorithm")).
  vm_compute. discriminate.
Defined.

(** ** The compatibility entry point for parameters *)

Section CompleteParameters.
Variable ext : External.
Variable self : Agent.

Lemma required_schema_of_mock (required_params : dict json) :
  distinct_keys required_params ->
  ParamProcessorAgent.required_schema_of [mock_component required_params]
  = required_params.
Proof.
  intros H. unfold ParamProcessorAgent.required_schema_of.
  cbn [fold_left mock_component c_params_schema].
  rewrite (fold_set_distinct (fun v : json => v) required_params [] H).
  cbn [app]. rewrite <- (map_id required_params) at 2.
  apply map_ext. now intros [k v].
Qed.

Lemma param_process_validated (query : string) (task_card : TaskCard)
      (components : list ComponentCard) (tr : list event) (v : json) :
  fst (ParamProcessorAgent.process ext self query task_card components tr)
  = Ok v ->
  _validate_param_map v (ParamProcessorAgent.required_schema_of components)
  = Ok {| valid := true; missing := [] |}.
Proof.
  unfold ParamProcessorAgent.process, catch, bind, lift, ret, throw.
  destruct (_call_with_retry ext self
              (ParamProcessorAgent.user_message_of ext query task_card components)
              "ParamProcessorAgent" tr) as [[w|e] tr']; [|discriminate].
  destruct (_validate_param_map
              w (ParamProcessorAgent.required_schema_of components))
    as [r|e] eqn:V; [|discriminate].
  destruct (valid r) eqn:R; cbn [fst]; [|discriminate].
  intros [= <-]. rewrite V. f_equal.
  now apply (validate_param_map_valid w
               (ParamProcessorAgent.required_schema_of components)).
Qed.

(** A validated parameter map is a mapping, and its normalized
    parameters cover the schema. *)
Lemma validated_param_map (v : json) (schema : dict json) :
  _validate_param_map v schema = Ok {| valid := true; missing := [] |} ->
  exists fields np,
    v = JObj fields
    /\ py_get v "normalized_params" (JObj []) = Ok np
    /\ Dict.get "normalized_params" fields = Some np
    /\ missing_params schema np = Ok [].
Proof.
  unfold _validate_param_map.
  destruct (first_missing_field _ v) as [[f|]|e] eqn:F; try discriminate.
  destruct v as [| | | | | |fields]; cbn [py_get]; try discriminate.
  cbn [first_missing_field py_in] in F.
  destruct (Dict.has "normalized_params" fields) eqn:Hn; [|discriminate].
  destruct (has_get _ _ Hn) as [np Hnp]. rewrite Hnp. cbn [get_or].
  destruct (missing_params schema np) as [l|e] eqn:Ml; [|discriminate].
  intros [= Hv Hl]. exists fields, np. subst l.
  split; [reflexivity|]. split; [|split; [exact Hnp|exact Ml]].
  reflexivity.
Qed.

Lemma complete_parameters_eq (query : string) (task_card : TaskCard)
      (required_params : dict json) (tr : list event) :
  complete_parameters ext self query task_card required_params tr
  = match ParamProcessorAgent.process ext self query task_card
            [mock_component required_params] tr with
    | (Ok param_map, tr') =>
        (match py_get param_map "normalized_params" (JObj []) with
         | Ok completed => Ok (JObj [("completed_params", completed)])
         | Raise e => Raise e
         end, tr')
    | (Raise e, tr') => (Raise e, tr')
    end.
Proof.
  unfold complete_parameters, bind, lift, ret.
  destruct (ParamProcessorAgent.process ext self query task_card
              [mock_component required_params] tr) as [[pm|e] tr'];
    [|reflexivity].
  destruct (py_get pm "normalized_params" (JObj [])); reflexivity.
Qed.

(** X30.  [complete_parameters] completes.  What it returns is a
    mapping with the single key completed_params, which holds the
    normalized parameters of a reply that passed the validation of the
    parameter stage: every required parameter is among them, or has a
    default other than [None].  What it raises is the
    [RuntimeError] of the parameter stage, and it makes at most
    [max_retries] requests. *)
Theorem complete_parameters_covers_required
        (query : string) (task_card : TaskCard) (required_params : dict json)
        (tr : list event) :
  distinct_keys required_params ->
  let out := complete_parameters ext self query task_card required_params tr in
  (forall v, fst out = Ok v ->
             exists completed,
               v = JObj [("completed_params", completed)]
               /\ missing_params required_params completed = Ok [])
  /\ (forall e, fst out = Raise e ->
                stage_failure "ParamProcessorAgent处理失败: " (fst out))
  /\ (calls tr <= calls (snd out) <= calls tr + Z.to_nat (max_retries self))%nat.
Proof.
  intros Hd. cbv zeta. rewrite complete_parameters_eq.
  pose proof (param_process_validated query task_card
                [mock_component required_params] tr) as Hvalid.
  pose proof (param_process_events ext self query task_card
                [mock_component required_params] tr) as Hev.
  destruct (call_with_retry_outcome ext self
              (ParamProcessorAgent.user_message_of
                 ext query task_card [mock_component required_params])
              "ParamProcessorAgent" tr) as (_ & _ & Hcalls).
  rewrite <- Hev in Hcalls.
  assert (Hfail : forall e,
             fst (ParamProcessorAgent.process
                    ext self query task_card
                    [mock_component required_params] tr) = Raise e ->
             stage_failure "ParamProcessorAgent处理失败: " (Raise e : result json)).
  { unfold ParamProcessorAgent.process, catch, throw. intros e.
    destruct (bind _ _ tr) as [[w|e0] tr']; cbn [fst]; [discriminate|].
    intros [= <-]. eexists. reflexivity. }
  destruct (ParamProcessorAgent.process ext self query task_card
              [mock_component required_params] tr) as [[pm|e] tr'];
    cbn [fst snd] in *.
  - specialize (Hvalid pm eq_refl).
    rewrite (required_schema_of_mock required_params Hd) in Hvalid.
    destruct (validated_param_map pm required_params Hvalid)
      as (fields & np & -> & Hget & _ & Hmissing).
    rewrite Hget. cbn [fst snd].
    split; [|split; [discriminate|exact Hcalls]].
    intros v [= <-]. now exists np.
  - split; [discriminate|split; [|exact Hcalls]].
    intros e' [= <-]. now apply Hfail.
Qed.

End CompleteParameters.

(** A reply that sets the one required parameter. *)
Lemma complete_parameters_covers_required_witness :
  distinct_keys [("n", JObj [("type", JStr "int")])]
  /\ fst (complete_parameters (Examples.python (Examples.always param_map_text))
            (Examples.agent 3) "chain of 8 sites" Examples.task
            [("n", JObj [("type", JStr "int")])] [])
     = Ok (JObj [("completed_params", JObj [("n", JInt 8)])])
  /\ missing_params [("n", JObj [("type", JStr "int")])] (JObj [("n", JInt 8)])
     = Ok [].
Proof.
  assert (Hd : distinct_keys [("n", JObj [("type", JStr "int")])]).
  { unfold distinct_keys. cbn. constructor; [intros []|constructor]. }
  assert (Hrun : fst (complete_parameters
                        (Examples.python (Examples.always param_map_text))
                        (Examples.agent 3) "chain of 8 sites" Examples.task
                        [("n", JObj [("type", JStr "int")])] [])
                 = Ok (JObj [("completed_params", JObj [("n", JInt 8)])]))
    by (vm_compute; reflexivity).
  split; [exact Hd|]. split; [exact Hrun|].
  destruct (proj1 (complete_parameters_covers_required
                     (Examples.python (Examples.always param_map_text))
                     (Examples.agent 3) "chain of 8 sites" Examples.task
                     [("n", JObj [("type", JStr "int")])] [] Hd)
                  _ Hrun) as (completed & Hv & Hm).
  injection Hv as <-. exact Hm.
Defined.
